(** * System monitor: the sampling-and-aggregation engine of [app.py]

    A shallow embedding of class [SystemMonitor]: the byte formatter
    [_format_bytes], the domain collectors and the aggregator
    [get_all_info].  The operating system (psutil, platform, datetime) is
    an explicit [World] of query results; Python exceptions are an error
    monad; Python floats are IEEE binary64 values ([spec_float] of the
    Standard Library, precision 53, exponent bound 1024). *)

From Stdlib Require Import ZArith List String Ascii Bool Lia.
From Stdlib Require Import DecimalString Floats.SpecFloat.
From Stdlib Require Import Sorting.Sorted Sorting.Permutation.
Import ListNotations.

Local Open Scope Z_scope.
#[local] Set Warnings "-register-all".

(** ** Python exceptions and results *)

Module Py.

(** The exception classes that the program names or that its operations
    can raise. *)
Inductive exn : Type :=
  | OSError | PermissionError | FileNotFoundError
  | KeyError | AttributeError
  | NoSuchProcess | ZombieProcess | AccessDenied | TimeoutExpired
  | OverflowError | ValueError | TypeError.

Definition exn_eqb (a b : exn) : bool :=
  match a, b with
  | OSError, OSError | PermissionError, PermissionError
  | FileNotFoundError, FileNotFoundError
  | KeyError, KeyError | AttributeError, AttributeError
  | NoSuchProcess, NoSuchProcess | ZombieProcess, ZombieProcess
  | AccessDenied, AccessDenied | TimeoutExpired, TimeoutExpired
  | OverflowError, OverflowError | ValueError, ValueError
  | TypeError, TypeError => true
  | _, _ => false
  end.

(** [isinstance_exn e c]: an exception of class [e] is an instance of
    class [c].  [PermissionError] and [FileNotFoundError] derive from
    [OSError]; psutil's [ZombieProcess] derives from [NoSuchProcess]. *)
Definition isinstance_exn (e c : exn) : bool :=
  exn_eqb e c ||
  match e, c with
  | PermissionError, OSError | FileNotFoundError, OSError => true
  | ZombieProcess, NoSuchProcess => true
  | _, _ => false
  end.

(** [except (c1, c2, ...)] catches [e] when [e] is an instance of one of
    the listed classes. *)
Definition caught_by (classes : list exn) (e : exn) : bool :=
  existsb (isinstance_exn e) classes.

(** The outcome of evaluating a Python expression or statement. *)
Inductive res (A : Type) : Type :=
  | Ok (a : A)
  | Raise (e : exn).
Arguments Ok {A} a.
Arguments Raise {A} e.

Definition bind {A B : Type} (c : res A) (k : A -> res B) : res B :=
  match c with
  | Ok a => k a
  | Raise e => Raise e
  end.

(** [try: body  except classes: handler] *)
Definition try_except {A : Type} (body : res A) (classes : list exn)
    (handler : res A) : res A :=
  match body with
  | Ok a => Ok a
  | Raise e => if caught_by classes e then handler else Raise e
  end.

Definition is_ok {A : Type} (c : res A) : bool :=
  match c with Ok _ => true | Raise _ => false end.

(** Python values, as far as the snapshot holds them: [None], [bool],
    [int], [float], [str], [list] and [dict] (insertion ordered, string
    keys). *)
Inductive pyval : Type :=
  | VNone
  | VBool (b : bool)
  | VInt (z : Z)
  | VFloat (f : spec_float)
  | VStr (s : string)
  | VList (l : list pyval)
  | VDict (d : list (string * pyval)).

(** [d.get(k)] / [d[k]] on an insertion-ordered dict. *)
Fixpoint dict_get (k : string) (d : list (string * pyval)) : option pyval :=
  match d with
  | [] => None
  | (k', v) :: rest => if String.eqb k k' then Some v else dict_get k rest
  end.

(** [v[k]] for a value that is a dict. *)
Definition field (k : string) (v : pyval) : option pyval :=
  match v with
  | VDict d => dict_get k d
  | _ => None
  end.

End Py.
Export Py.

Declare Scope res_scope.
Delimit Scope res_scope with res.
Notation "x <- c ;; k" := (bind c (fun x => k))
  (at level 61, c at next level, right associativity) : res_scope.
Local Open Scope res_scope.

(** ** Python numbers: unbounded [int] and binary64 [float] *)

Module Num.

Definition prec : Z := 53.
Definition emax : Z := 1024.

(** A number held by a Python variable: an [int] or a [float]. *)
Inductive num : Type :=
  | NInt (z : Z)
  | NFloat (f : spec_float).

(** The exact value of a number, as a dyadic rational [m * 2^e], or an
    infinity, or not-a-number. *)
Inductive xval : Type :=
  | XNan
  | XInf (neg : bool)
  | XDy (m e : Z).

Definition xval_of_float (f : spec_float) : xval :=
  match f with
  | S754_nan => XNan
  | S754_infinity s => XInf s
  | S754_zero _ => XDy 0 0
  | S754_finite s m e => XDy (if s then Zneg m else Zpos m) e
  end.

Definition xval_of_num (x : num) : xval :=
  match x with
  | NInt z => XDy z 0
  | NFloat f => xval_of_float f
  end.

(** [a * 2^ea < b * 2^eb], decided on integers. *)
Definition dyadic_lt (a ea b eb : Z) : bool :=
  let e0 := Z.min ea eb in
  a * 2 ^ (ea - e0) <? b * 2 ^ (eb - e0).

Definition xlt (x y : xval) : bool :=
  match x, y with
  | XNan, _ | _, XNan => false
  | XInf true, XInf true => false
  | XInf true, _ => true
  | _, XInf true => false
  | XInf false, _ => false
  | _, XInf false => true
  | XDy a ea, XDy b eb => dyadic_lt a ea b eb
  end.

(** [x < y] on Python numbers: int with int, float with float and int
    with float all compare the exact values; a NaN compares false. *)
Definition num_lt (x y : num) : bool :=
  xlt (xval_of_num x) (xval_of_num y).

(** Truth value of a float: every float but the two zeros is true. *)
Definition float_truthy (f : spec_float) : bool :=
  match f with
  | S754_zero _ => false
  | _ => true
  end.

(** [float(n)]: the binary64 nearest to the int [n] (ties to even); an
    infinity stands for a result out of range. *)
Definition of_Z (n : Z) : spec_float :=
  binary_normalize prec emax n 0 false.

(** The float [1024.0]. *)
Definition float_1024 : spec_float := S754_finite false (2 ^ 52) (-42).

(** [x / 1024].  For an int the quotient [n / 2^10] is correctly rounded
    to binary64 and [OverflowError] is raised when it does not fit; for a
    float it is the IEEE division by [1024.0], which never raises. *)
Definition div_1024 (x : num) : res num :=
  match x with
  | NInt n =>
      match binary_normalize prec emax n (-10) false with
      | S754_infinity _ => Raise OverflowError
      | f => Ok (NFloat f)
      end
  | NFloat f => Ok (NFloat (SFdiv prec emax f float_1024))
  end.

(** [a / b] for two positive ints in general: the quotient, correctly
    rounded to binary64.  [div_1024] is this division at [b = 1024],
    where the quotient is the int scaled by [2^-10]. *)
Definition int_truediv (a b : Z) : spec_float :=
  let '(q, e, l) := SFdiv_core_binary prec emax a 0 b 0 in
  binary_round_aux prec emax false q e l.

(** [a / b] rounded to the nearest integer, ties to the even one
    ([0 <= a], [0 < b]). *)
Definition round_half_even (a b : Z) : Z :=
  let q := a / b in
  let r := a mod b in
  match 2 * r ?= b with
  | Lt => q
  | Gt => q + 1
  | Eq => if Z.even q then q else q + 1
  end.

(** [|m * 2^e| * 10^digits] rounded to the nearest integer, ties to even:
    the decimal digits that correctly rounded fixed-point output shows. *)
Definition scaled_round (scale : Z) (m : positive) (e : Z) : Z :=
  if 0 <=? e then Zpos m * 2 ^ e * scale
  else round_half_even (Zpos m * scale) (2 ^ (- e)).

Definition string_of_Z (n : Z) : string :=
  NilZero.string_of_uint (N.to_uint (Z.to_N n)).

Local Open Scope string_scope.

Definition two_digits (n : Z) : string :=
  if (n <? 10)%Z then "0" ++ string_of_Z n else string_of_Z n.

(** The integer [n] of hundredths written with two decimal places. *)
Definition dec2 (n : Z) : string :=
  string_of_Z (n / 100) ++ "." ++ two_digits (n mod 100).

Definition sign_str (s : bool) : string :=
  if s then "-" else EmptyString.

(** [format(f, ".2f")] for a float: correctly rounded to two decimal
    places (ties to even on the exact binary value), sign kept. *)
Definition fixed2_float (f : spec_float) : string :=
  match f with
  | S754_nan => "nan"
  | S754_infinity s => sign_str s ++ "inf"
  | S754_zero s => sign_str s ++ "0.00"
  | S754_finite s m e => sign_str s ++ dec2 (scaled_round 100 m e)
  end.

(** [f"{x:.2f}"]: an int is first converted to float, which raises
    [OverflowError] when it is too large. *)
Definition fixed2 (x : num) : res string :=
  match x with
  | NInt n =>
      match of_Z n with
      | S754_infinity _ => Raise OverflowError
      | f => Ok (fixed2_float f)
      end
  | NFloat f => Ok (fixed2_float f)
  end.

(** [round(f, 1)]: the binary64 nearest to the value of [f] rounded to
    one decimal place. *)
Definition round1 (f : spec_float) : spec_float :=
  match f with
  | S754_finite s m e =>
      let '(q, e', l) :=
        SFdiv_core_binary prec emax (scaled_round 10 m e) 0 10 0 in
      binary_round_aux prec emax s q e' l
  | _ => f
  end.

End Num.
Export Num.

(** ** The formatter *)

Local Open Scope string_scope.
Local Open Scope Z_scope.

(** The monitor object.  The class defines no attribute; an instance
    carries whatever attributes were set on it from outside. *)
Record SystemMonitor : Type := { attrs : list (string * pyval) }.

(** [isinstance(v, (int, float))]; [bool] is a subclass of [int]. *)
Definition as_num (v : pyval) : option num :=
  match v with
  | VBool b => Some (NInt (if b then 1 else 0))
  | VInt z => Some (NInt z)
  | VFloat f => Some (NFloat f)
  | _ => None
  end.

Definition units : list string := ["B"; "KB"; "MB"; "GB"; "TB"].

(** The [for unit in [...]] loop of [_format_bytes], with the statement
    after the loop as the case of the exhausted list. *)
Fixpoint format_loop (us : list string) (bytes_value : num) : res string :=
  match us with
  | [] => s <- fixed2 bytes_value ;; Ok (s ++ " PB")
  | unit :: rest =>
      if num_lt bytes_value (NInt 1024)
      then s <- fixed2 bytes_value ;; Ok (s ++ " " ++ unit)
      else v <- div_1024 bytes_value ;; format_loop rest v
  end.

Definition _format_bytes (self : SystemMonitor) (bytes_value : pyval)
    : res string :=
  match as_num bytes_value with
  | None => Ok "N/A"
  | Some x => format_loop units x
  end.

(** ** The operating system, as the collectors query it *)

Module Psutil.

(** [psutil.disk_usage(path)] *)
Record sdiskusage : Type :=
  { du_total : Z; du_used : Z; du_free : Z; du_percent : spec_float }.

(** An element of [psutil.disk_partitions()] *)
Record sdiskpart : Type :=
  { device : string; mountpoint : string; fstype : string }.

(** [psutil.disk_io_counters()], the two fields that are read *)
Record sdiskio : Type := { read_bytes : Z; write_bytes : Z }.

(** [psutil.net_io_counters()], the four fields that are read *)
Record snetio : Type :=
  { bytes_sent : Z; bytes_recv : Z; packets_sent : Z; packets_recv : Z }.

(** A value of [psutil.net_if_stats()] *)
Record snicstats : Type := { isup : bool; speed : Z; mtu : Z }.

(** [psutil.virtual_memory()] *)
Record svmem : Type :=
  { vm_total : Z; vm_available : Z; vm_used : Z; vm_percent : spec_float }.

(** [psutil.cpu_freq()] *)
Record scpufreq : Type := { current : spec_float }.

(** [proc.memory_info()] *)
Record pmem : Type := { rss : Z }.

(** [proc.info], the attributes asked of [process_iter]; an attribute the
    OS denies is [None]. *)
Record pinfo : Type :=
  { pid : Z;
    name : option string;
    username : option string;
    cpu_percent : option spec_float;
    memory_percent : option spec_float;
    create_time : option spec_float }.

(** An enumerated process: what the enumeration cached, and what the
    later detail read [proc.memory_info()] does. *)
Record Process : Type :=
  { info : pinfo;
    memory_info : res pmem }.

(** The answers of the platform during one capture. *)
Record World : Type :=
  { platform_system : string;
    platform_node : string;
    platform_release : string;
    platform_version : string;
    platform_machine : string;
    platform_processor : string;
    (** [psutil.cpu_percent(interval=0.1)] *)
    cpu_percent_all : spec_float;
    (** [psutil.cpu_percent(interval=0.1, percpu=True)] *)
    cpu_percent_percpu : list spec_float;
    (** [psutil.cpu_count()], [None] when undetermined *)
    cpu_count : option Z;
    (** [psutil.cpu_freq()], by call number *)
    cpu_freq : nat -> option scpufreq;
    virtual_memory : svmem;
    disk_usage : string -> res sdiskusage;
    disk_io_counters : option sdiskio;
    disk_partitions : list sdiskpart;
    (** [psutil.net_io_counters()], [None] without any interface *)
    net_io_counters : option snetio;
    (** [psutil.net_if_stats().items()] *)
    net_if_stats : list (string * snicstats);
    (** [psutil.net_io_counters(pernic=True)] as answered to the call
        made while the named interface is visited *)
    net_io_counters_pernic : string -> res (list (string * snetio));
    (** [psutil.process_iter([...])], in enumeration order *)
    process_iter : list Process;
    (** [datetime.fromtimestamp(t).strftime('%Y-%m-%d %H:%M:%S')] *)
    fromtimestamp_strftime : spec_float -> res string;
    (** [datetime.now().strftime("%Y-%m-%d %H:%M:%S")] *)
    now_strftime : string }.

(** [d.get(k)] on the per-interface counters. *)
Fixpoint pernic_get (k : string) (d : list (string * snetio))
    : option snetio :=
  match d with
  | [] => None
  | (k', v) :: rest => if String.eqb k k' then Some v else pernic_get k rest
  end.

End Psutil.
Export Psutil.

(** ** Built-ins used by the process collector *)

Section Builtins.
Context {A : Type}.
Variable key : A -> num.

(** Put [x] in front of a descending list, before the first element
    whose key is not strictly greater. *)
Fixpoint insert_desc (x : A) (l : list A) : list A :=
  match l with
  | [] => [x]
  | y :: rest =>
      if num_lt (key x) (key y) then y :: insert_desc x rest
      else x :: y :: rest
  end.

(** [sorted(l, key=key, reverse=True)].  Python's sort is stable, also
    under [reverse=True]: elements with equal keys keep their order. *)
Definition sorted_reverse (l : list A) : list A :=
  fold_right insert_desc [] l.

(** [l[:stop]]; a negative [stop] counts from the end. *)
Definition slice_to (l : list A) (stop : Z) : list A :=
  if 0 <=? stop then firstn (Z.to_nat stop) l
  else firstn (List.length l - Z.to_nat (- stop)) l.



End Builtins.

(** ** The collectors *)

Definition opt_str (o : option string) : pyval :=
  match o with Some s => VStr s | None => VNone end.

Definition opt_float (o : option spec_float) : pyval :=
  match o with Some f => VFloat f | None => VNone end.

Definition opt_int (o : option Z) : pyval :=
  match o with Some z => VInt z | None => VNone end.

(** Truth value of [proc.info[...]] for a float-or-None attribute. *)
Definition opt_truthy (o : option spec_float) : bool :=
  match o with Some f => float_truthy f | None => false end.

Definition get_system_info (self : SystemMonitor) (w : World) : res pyval :=
  Ok (VDict
    [ ("system", VStr (platform_system w));
      ("node", VStr (platform_node w));
      ("release", VStr (platform_release w));
      ("version", VStr (platform_version w));
      ("machine", VStr (platform_machine w));
      ("processor", VStr (platform_processor w)) ]).

Definition get_cpu_info (self : SystemMonitor) (w : World) : res pyval :=
  let cpu_percent := VFloat (cpu_percent_all w) in
  let cpu_count := opt_int (cpu_count w) in
  freq <- match cpu_freq w 0%nat with
          | Some _ =>
              match cpu_freq w 1%nat with
              | Some f => Ok (VFloat (current f))
              | None => Raise AttributeError
              end
          | None => Ok (VStr "N/A")
          end ;;
  Ok (VDict
    [ ("cpu_percent", cpu_percent);
      ("cpu_count", cpu_count);
      ("cpu_freq", freq);
      ("per_cpu", VList (map VFloat (cpu_percent_percpu w))) ]).

Definition get_memory_info (self : SystemMonitor) (w : World) : res pyval :=
  let memory := virtual_memory w in
  total_formatted <- _format_bytes self (VInt (vm_total memory)) ;;
  available_formatted <- _format_bytes self (VInt (vm_available memory)) ;;
  used_formatted <- _format_bytes self (VInt (vm_used memory)) ;;
  Ok (VDict
    [ ("total", VInt (vm_total memory));
      ("available", VInt (vm_available memory));
      ("used", VInt (vm_used memory));
      ("percent", VFloat (vm_percent memory));
      ("total_formatted", VStr total_formatted);
      ("available_formatted", VStr available_formatted);
      ("used_formatted", VStr used_formatted) ]).

(** The usage fields shared by [main_disk] and by a partition entry. *)
Definition usage_fields (self : SystemMonitor) (usage : sdiskusage)
    : res (list (string * pyval)) :=
  total_formatted <- _format_bytes self (VInt (du_total usage)) ;;
  used_formatted <- _format_bytes self (VInt (du_used usage)) ;;
  free_formatted <- _format_bytes self (VInt (du_free usage)) ;;
  Ok [ ("total", VInt (du_total usage));
       ("used", VInt (du_used usage));
       ("free", VInt (du_free usage));
       ("percent", VFloat (du_percent usage));
       ("total_formatted", VStr total_formatted);
       ("used_formatted", VStr used_formatted);
       ("free_formatted", VStr free_formatted) ].

(** The body of the [try] in the partition loop: the usage query and the
    dict that is appended. *)
Definition partition_entry (self : SystemMonitor) (w : World)
    (partition : sdiskpart) : res pyval :=
  usage <- disk_usage w (mountpoint partition) ;;
  fields <- usage_fields self usage ;;
  Ok (VDict
    ([ ("device", VStr (device partition));
       ("mountpoint", VStr (mountpoint partition));
       ("fstype", VStr (fstype partition)) ] ++ fields)%list).

(** [for partition in psutil.disk_partitions(): try: ... except
    (PermissionError, OSError): pass], threading the list [partitions]. *)
Fixpoint partition_loop (self : SystemMonitor) (w : World)
    (todo : list sdiskpart) (partitions : list pyval) : res (list pyval) :=
  match todo with
  | [] => Ok partitions
  | partition :: rest =>
      partitions' <-
        try_except
          (entry <- partition_entry self w partition ;;
           Ok (partitions ++ [entry])%list)
          [PermissionError; OSError]
          (Ok partitions) ;;
      partition_loop self w rest partitions'
  end.

(** The [io] entry of the disk result. *)
Definition io_section (self : SystemMonitor) (io_counters : option sdiskio)
    : res pyval :=
  match io_counters with
  | Some io =>
      read_bytes_formatted <- _format_bytes self (VInt (read_bytes io)) ;;
      write_bytes_formatted <- _format_bytes self (VInt (write_bytes io)) ;;
      Ok (VDict
        [ ("read_bytes", VInt (read_bytes io));
          ("write_bytes", VInt (write_bytes io));
          ("read_bytes_formatted", VStr read_bytes_formatted);
          ("write_bytes_formatted", VStr write_bytes_formatted) ])
  | None =>
      Ok (VDict
        [ ("read_bytes", VInt 0);
          ("write_bytes", VInt 0);
          ("read_bytes_formatted", VStr "N/A");
          ("write_bytes_formatted", VStr "N/A") ])
  end.

Definition get_disk_info (self : SystemMonitor) (w : World) : res pyval :=
  disk <- disk_usage w "/" ;;
  let io_counters := disk_io_counters w in
  partitions <- partition_loop self w (disk_partitions w) [] ;;
  main_disk <- usage_fields self disk ;;
  io <- io_section self io_counters ;;
  Ok (VDict
    [ ("main_disk", VDict main_disk);
      ("io", io);
      ("partitions", VList partitions) ]).

(** The body of the [try] in the interface loop; [None] when nothing is
    appended. *)
Definition interface_entry (self : SystemMonitor) (w : World)
    (interface : string) (stats : snicstats) : res (option pyval) :=
  pernic <- net_io_counters_pernic w interface ;;
  match pernic_get interface pernic with
  | Some interface_io =>
      bytes_sent_formatted <-
        _format_bytes self (VInt (bytes_sent interface_io)) ;;
      bytes_recv_formatted <-
        _format_bytes self (VInt (bytes_recv interface_io)) ;;
      Ok (Some (VDict
        [ ("name", VStr interface);
          ("speed", VInt (speed stats));
          ("mtu", VInt (mtu stats));
          ("bytes_sent", VInt (bytes_sent interface_io));
          ("bytes_recv", VInt (bytes_recv interface_io));
          ("bytes_sent_formatted", VStr bytes_sent_formatted);
          ("bytes_recv_formatted", VStr bytes_recv_formatted) ]))
  | None => Ok None
  end.

Definition append_opt (l : list pyval) (o : option pyval) : list pyval :=
  match o with Some v => (l ++ [v])%list | None => l end.

(** [for interface, stats in psutil.net_if_stats().items(): if
    stats.isup: try: ... except (KeyError, AttributeError): pass] *)
Fixpoint interface_loop (self : SystemMonitor) (w : World)
    (todo : list (string * snicstats)) (interfaces : list pyval)
    : res (list pyval) :=
  match todo with
  | [] => Ok interfaces
  | (interface, stats) :: rest =>
      interfaces' <-
        (if isup stats then
           try_except
             (entry <- interface_entry self w interface stats ;;
              Ok (append_opt interfaces entry))
             [KeyError; AttributeError]
             (Ok interfaces)
         else Ok interfaces) ;;
      interface_loop self w rest interfaces'
  end.

Definition get_network_info (self : SystemMonitor) (w : World)
    : res pyval :=
  let net_io := net_io_counters w in
  interfaces <- interface_loop self w (net_if_stats w) [] ;;
  total <- match net_io with
           | Some t =>
               bytes_sent_formatted <-
                 _format_bytes self (VInt (bytes_sent t)) ;;
               bytes_recv_formatted <-
                 _format_bytes self (VInt (bytes_recv t)) ;;
               Ok (VDict
                 [ ("bytes_sent", VInt (bytes_sent t));
                   ("bytes_recv", VInt (bytes_recv t));
                   ("packets_sent", VInt (packets_sent t));
                   ("packets_recv", VInt (packets_recv t));
                   ("bytes_sent_formatted", VStr bytes_sent_formatted);
                   ("bytes_recv_formatted", VStr bytes_recv_formatted) ])
           | None => Raise AttributeError
           end ;;
  Ok (VDict [ ("total", total); ("interfaces", VList interfaces) ]).

(** [key=lambda p: p.info['cpu_percent'] or 0] *)
Definition cpu_key (p : Process) : num :=
  match cpu_percent (info p) with
  | Some f => if float_truthy f then NFloat f else NInt 0
  | None => NInt 0
  end.

(** [round(proc.info['memory_percent'], 1) if
    proc.info['memory_percent'] else 0] *)
Definition memory_percent_field (o : option spec_float) : pyval :=
  match o with
  | Some f => if float_truthy f then VFloat (round1 f) else VInt 0
  | None => VInt 0
  end.

(** The body of the [try] in the process loop. *)
Definition process_entry (self : SystemMonitor) (w : World)
    (proc : Process) : res pyval :=
  create_time <-
    match create_time (info proc) with
    | Some t =>
        if float_truthy t then fromtimestamp_strftime w t
        else Ok "Unknown"
    | None => Ok "Unknown"
    end ;;
  memory_info <- memory_info proc ;;
  rss_formatted <- _format_bytes self (VInt (rss memory_info)) ;;
  Ok (VDict
    [ ("pid", VInt (pid (info proc)));
      ("name", opt_str (name (info proc)));
      ("username", opt_str (username (info proc)));
      ("cpu_percent", opt_float (cpu_percent (info proc)));
      ("memory_percent",
        memory_percent_field (memory_percent (info proc)));
      ("memory_rss", VStr rss_formatted);
      ("create_time", VStr create_time) ]).

(** [for proc in ...: try: ... except (psutil.NoSuchProcess,
    psutil.AccessDenied, psutil.ZombieProcess): pass] *)
Fixpoint process_loop (self : SystemMonitor) (w : World)
    (todo : list Process) (processes : list pyval) : res (list pyval) :=
  match todo with
  | [] => Ok processes
  | proc :: rest =>
      processes' <-
        try_except
          (entry <- process_entry self w proc ;;
           Ok (processes ++ [entry])%list)
          [NoSuchProcess; AccessDenied; ZombieProcess]
          (Ok processes) ;;
      process_loop self w rest processes'
  end.

(** The processes the loop visits:
    [sorted(process_iter, key=..., reverse=True)[:top_n]]. *)
Definition selected (w : World) (top_n : Z) : list Process :=
  slice_to (sorted_reverse cpu_key (process_iter w)) top_n.

Definition get_process_info (self : SystemMonitor) (w : World) (top_n : Z)
    : res pyval :=
  processes <- process_loop self w (selected w top_n) [] ;;
  Ok (VList processes).

(** [system_monitor = SystemMonitor()] *)
Definition system_monitor : SystemMonitor := {| attrs := [] |}.

(** The default of the parameter [top_n]. *)
Definition default_top_n : Z := 10.

Definition get_all_info (self : SystemMonitor) (w : World) : res pyval :=
  let timestamp := VStr (now_strftime w) in
  system <- get_system_info self w ;;
  cpu <- get_cpu_info self w ;;
  memory <- get_memory_info self w ;;
  disk <- get_disk_info self w ;;
  network <- get_network_info self w ;;
  processes <- get_process_info self w default_top_n ;;
  Ok (VDict
    [ ("timestamp", timestamp);
      ("system", system);
      ("cpu", cpu);
      ("memory", memory);
      ("disk", disk);
      ("network", network);
      ("processes", processes) ]).

(** The Python type of a value, and the types [isinstance] counts as
    numbers. *)
Inductive pytype : Type :=
  | TNone | TBool | TInt | TFloat | TStr | TList | TDict.

Definition type_of (v : pyval) : pytype :=
  match v with
  | VNone => TNone
  | VBool _ => TBool
  | VInt _ => TInt
  | VFloat _ => TFloat
  | VStr _ => TStr
  | VList _ => TList
  | VDict _ => TDict
  end.

Definition numeric_type (t : pytype) : bool :=
  match t with
  | TBool | TInt | TFloat => true
  | _ => false
  end.

(** ** The formatter's contract, in the words of the specification *)

(** The value is the exact ratio [n / den].  "Unit progresses B, KB, MB,
    GB, TB, PB, dividing by 1024 at each step while the value remains
    >= 1024": the walk returns the divisor reached and the unit. *)
Fixpoint spec_escalate (us : list string) (n den : Z) : Z * string :=
  match us with
  | [] => (den, "PB")
  | unit :: rest =>
      if n <? 1024 * den then (den, unit)
      else spec_escalate rest n (1024 * den)
  end.

(** "Rendering the final value with exactly two decimal places", then a
    space and the unit. *)
Definition spec_render (us : list string) (n den : Z) : string :=
  let '(d, unit) := spec_escalate us n den in
  dec2 (round_half_even (100 * n) d) ++ " " ++ unit.

Definition spec_format (n : Z) : string := spec_render units n 1.

(** The six unit names, by number of divisions. *)
Definition unit_name (k : nat) : string :=
  nth k (units ++ ["PB"])%list "PB".

(** [n] rounded to 53 significant bits, ties to even: the integer that
    the first division of a large int keeps. *)
Definition round53 (n : Z) : Z :=
  let k := Z.log2 n + 1 - 53 in
  if k <=? 0 then n else round_half_even n (2 ^ k) * 2 ^ k.

(** ** Auxiliary notions for the proofs about binary64 *)

(** Left shift of a mantissa by a count that may be zero. *)
Definition pshl (p : positive) (k : Z) : positive :=
  match k with
  | Zpos k' => Pos.iter xO p k'
  | _ => p
  end.

(** The positive float [m * 2^e] has the value [num / den]. *)
Definition rep (m : positive) (e num den : Z) : Prop :=
  Zpos m * 2 ^ Z.max e 0 * den = num * 2 ^ Z.max (- e) 0.

(** What [j] right shifts of the mantissa [p] leave in a shift record:
    the quotient, the last bit shifted out, and whether a lower bit was
    set. *)
Definition shr_inv (p j : Z) (r : shr_record) : Prop :=
  shr_m r = p / 2 ^ j /\
  shr_r r = Z.testbit p (j - 1) /\
  shr_s r = negb (p mod 2 ^ Z.max (j - 1) 0 =? 0).

(** ** Well-formed answers of the platform *)

(** A byte count that the formatter can scale: non-negative and below
    [2^1034 - 2^980] (the platform's counters are below [2^64]). *)
Definition in_range (n : Z) : bool :=
  (0 <=? n) && (n <? 2 ^ 1034 - 2 ^ 980).

(** [_format_bytes(n)] returns the string [s]. *)
Definition formatted (self : SystemMonitor) (n : Z) (s : string) : Prop :=
  _format_bytes self (VInt n) = Ok s.

(** *** Disk *)

Definition usage_in_range (u : sdiskusage) : bool :=
  in_range (du_total u) && in_range (du_used u) && in_range (du_free u).

(** "A permission or access error": what the partition loop catches. *)
Definition access_error (e : exn) : bool :=
  caught_by [PermissionError; OSError] e.

(** The usage query of the partition succeeds. *)
Definition accessible (w : World) (p : sdiskpart) : bool :=
  is_ok (disk_usage w (mountpoint p)).

(** The usage query of the partition answers with counts in range or
    raises an access error. *)
Definition partition_expected (w : World) (p : sdiskpart) : bool :=
  match disk_usage w (mountpoint p) with
  | Ok u => usage_in_range u
  | Raise e => access_error e
  end.

Definition io_in_range (o : option sdiskio) : bool :=
  match o with
  | Some io => in_range (read_bytes io) && in_range (write_bytes io)
  | None => true
  end.

(** The usage fields of a dict are those of the usage [u]. *)
Definition usage_emitted (self : SystemMonitor) (u : sdiskusage)
    (entry : pyval) : Prop :=
  field "total" entry = Some (VInt (du_total u)) /\
  field "used" entry = Some (VInt (du_used u)) /\
  field "free" entry = Some (VInt (du_free u)) /\
  field "percent" entry = Some (VFloat (du_percent u)) /\
  (exists s, formatted self (du_total u) s /\
             field "total_formatted" entry = Some (VStr s)) /\
  (exists s, formatted self (du_used u) s /\
             field "used_formatted" entry = Some (VStr s)) /\
  (exists s, formatted self (du_free u) s /\
             field "free_formatted" entry = Some (VStr s)).

(** [entry] is the record of the accessible partition [p]. *)
Definition partition_emitted (self : SystemMonitor) (w : World)
    (p : sdiskpart) (entry : pyval) : Prop :=
  exists u, disk_usage w (mountpoint p) = Ok u /\
    field "device" entry = Some (VStr (device p)) /\
    field "mountpoint" entry = Some (VStr (mountpoint p)) /\
    field "fstype" entry = Some (VStr (fstype p)) /\
    usage_emitted self u entry.

(** The [io] section when the platform has no counters. *)
Definition io_unavailable : pyval :=
  VDict [ ("read_bytes", VInt 0);
          ("write_bytes", VInt 0);
          ("read_bytes_formatted", VStr "N/A");
          ("write_bytes_formatted", VStr "N/A") ].

(** *** Network *)

Definition lookup_errors : list exn := [KeyError; AttributeError].

(** The counters found for the interface at the moment it is visited. *)
Definition interface_counters (w : World) (interface : string)
    : option snetio :=
  match net_io_counters_pernic w interface with
  | Ok d => pernic_get interface d
  | Raise _ => None
  end.

(** The interface is up and its counters are present. *)
Definition included (w : World) (i : string * snicstats) : bool :=
  isup (snd i) &&
  match interface_counters w (fst i) with Some _ => true | None => false end.

(** For an interface that is up, the per-interface query answers (with
    counts in range for this interface, if it has an entry) or fails
    with a lookup error. *)
Definition lookup_expected (w : World) (i : string * snicstats) : bool :=
  negb (isup (snd i)) ||
  match net_io_counters_pernic w (fst i) with
  | Ok d =>
      match pernic_get (fst i) d with
      | Some io => in_range (bytes_sent io) && in_range (bytes_recv io)
      | None => true
      end
  | Raise e => caught_by lookup_errors e
  end.

(** [entry] is the record of the included interface [i]. *)
Definition interface_emitted (self : SystemMonitor) (w : World)
    (i : string * snicstats) (entry : pyval) : Prop :=
  exists io, interface_counters w (fst i) = Some io /\
    field "name" entry = Some (VStr (fst i)) /\
    field "speed" entry = Some (VInt (speed (snd i))) /\
    field "mtu" entry = Some (VInt (mtu (snd i))) /\
    field "bytes_sent" entry = Some (VInt (bytes_sent io)) /\
    field "bytes_recv" entry = Some (VInt (bytes_recv io)) /\
    (exists s, formatted self (bytes_sent io) s /\
               field "bytes_sent_formatted" entry = Some (VStr s)) /\
    (exists s, formatted self (bytes_recv io) s /\
               field "bytes_recv_formatted" entry = Some (VStr s)).

(** *** Processes *)

(** The three per-process failures the process loop tolerates. *)
Definition process_errors : list exn :=
  [NoSuchProcess; AccessDenied; ZombieProcess].

(** The detail read of the process signals no-such-process,
    access-denied or zombie. *)
Definition detail_read_fails (p : Process) : bool :=
  match memory_info p with
  | Ok _ => false
  | Raise e => caught_by process_errors e
  end.

(** The creation time of the process as the loop renders it. *)
Definition create_time_str (w : World) (p : Process) : res string :=
  match create_time (info p) with
  | Some t => if float_truthy t then fromtimestamp_strftime w t
              else Ok "Unknown"
  | None => Ok "Unknown"
  end.

(** The creation time renders, and the detail read answers with a size
    in range or signals one of the three tolerated failures. *)
Definition process_expected (w : World) (p : Process) : bool :=
  is_ok (create_time_str w p) &&
  match memory_info p with
  | Ok m => in_range (rss m)
  | Raise e => caught_by process_errors e
  end.

(** The body of the [try] completes for the process. *)
Definition entry_completes (self : SystemMonitor) (w : World)
    (p : Process) : bool :=
  is_ok (process_entry self w p).

(** [entry] is the record of the process [p]. *)
Definition process_emitted (self : SystemMonitor) (w : World)
    (p : Process) (entry : pyval) : Prop :=
  field "pid" entry = Some (VInt (pid (info p))) /\
  field "name" entry = Some (opt_str (name (info p))) /\
  field "username" entry = Some (opt_str (username (info p))) /\
  field "cpu_percent" entry = Some (opt_float (cpu_percent (info p))) /\
  field "memory_percent" entry =
    Some (memory_percent_field (memory_percent (info p))) /\
  (exists m s, memory_info p = Ok m /\ formatted self (rss m) s /\
               field "memory_rss" entry = Some (VStr s)) /\
  (exists s, create_time_str w p = Ok s /\
             field "create_time" entry = Some (VStr s)).




(** ** A sample host *)

Module Sample.

(** The float [n / d]. *)
Definition ratio (n d : Z) : spec_float := SFdiv prec emax (of_Z n) (of_Z d).

Definition usage (total used : Z) : sdiskusage :=
  {| du_total := total; du_used := used; du_free := total - used;
     du_percent := ratio (1000 * used / total) 10 |}.

(** Two mounts answer, one denies access, one has no medium. *)
Definition disk_usage (path : string) : res sdiskusage :=
  if String.eqb path "/" then Ok (usage 500107862016 123456789012)
  else if String.eqb path "/data" then Ok (usage 2000398934016 1536)
  else if String.eqb path "/mnt/secure" then Raise PermissionError
  else if String.eqb path "/media/cdrom" then Raise OSError
  else Raise FileNotFoundError.

(** The same host with the root mount itself denied. *)
Definition disk_usage_root_denied (path : string) : res sdiskusage :=
  if String.eqb path "/" then Raise PermissionError else disk_usage path.

Definition partitions : list sdiskpart :=
  [ {| device := "/dev/sda1"; mountpoint := "/"; fstype := "ext4" |};
    {| device := "/dev/sdb1"; mountpoint := "/mnt/secure"; fstype := "ext4" |};
    {| device := "/dev/sdc1"; mountpoint := "/data"; fstype := "xfs" |};
    {| device := "/dev/sr0"; mountpoint := "/media/cdrom";
       fstype := "iso9660" |} ].

Definition io : sdiskio :=
  {| read_bytes := 123456789; write_bytes := 0 |}.

Definition netio (sent recv : Z) : snetio :=
  {| bytes_sent := sent; bytes_recv := recv;
     packets_sent := sent / 1500; packets_recv := recv / 1500 |}.

Definition nic (up : bool) : snicstats :=
  {| isup := up; speed := 1000; mtu := 1500 |}.

(** [lo] and [eth0] are up with counters, [wlan0] is down, [tun0] is up
    without counters, and the query made for [veth1] fails. *)
Definition if_stats : list (string * snicstats) :=
  [ ("lo", nic true); ("wlan0", nic false); ("eth0", nic true);
    ("tun0", nic true); ("veth1", nic true) ].

Definition pernic (interface : string) : res (list (string * snetio)) :=
  if String.eqb interface "veth1" then Raise KeyError
  else Ok [ ("lo", netio 4096 4096);
            ("eth0", netio 1073741824 5368709120);
            ("wlan0", netio 0 0) ].

Definition proc (id : Z) (cpu mem : option spec_float)
    (detail : res pmem) : Process :=
  {| info := {| pid := id;
                name := Some "worker";
                username := Some "root";
                cpu_percent := cpu;
                memory_percent := mem;
                create_time := Some (of_Z 1700000000) |};
     memory_info := detail |}.

(** Six processes: two tie at 37.5, one has no cpu reading, one reads
    0.0, and two are gone or denied by the time of the detail read. *)
Definition processes : list Process :=
  [ proc 1 (Some (S754_zero false)) (Some (S754_zero false))
      (Ok {| rss := 1048576 |});
    proc 42 (Some (ratio 375 10)) (Some (ratio 1234 100))
      (Ok {| rss := 104857600 |});
    proc 77 None None (Ok {| rss := 4096 |});
    proc 100 (Some (ratio 375 10)) (Some (ratio 25 100))
      (Ok {| rss := 1536 |});
    proc 200 (Some (of_Z 80)) (Some (of_Z 1)) (Raise NoSuchProcess);
    proc 300 (Some (of_Z 5)) None (Raise AccessDenied) ].

Definition host (usage : string -> res sdiskusage)
    (io_counters : option sdiskio) (count : option Z)
    (procs : list Process) : World :=
  {| platform_system := "Linux";
     platform_node := "host";
     platform_release := "6.1.0";
     platform_version := "#1 SMP";
     platform_machine := "x86_64";
     platform_processor := "x86_64";
     cpu_percent_all := ratio 125 10;
     cpu_percent_percpu := [of_Z 10; of_Z 15];
     cpu_count := count;
     cpu_freq := fun _ => Some {| current := of_Z 2400 |};
     virtual_memory :=
       {| vm_total := 17179869184; vm_available := 8589934592;
          vm_used := 7516192768; vm_percent := of_Z 50 |};
     Psutil.disk_usage := usage;
     disk_io_counters := io_counters;
     disk_partitions := partitions;
     net_io_counters := Some (netio 1073745920 5368713216);
     net_if_stats := if_stats;
     net_io_counters_pernic := pernic;
     process_iter := procs;
     fromtimestamp_strftime := fun _ => Ok "2023-11-14 22:13:20";
     now_strftime := "2024-06-01 12:00:00" |}.

Definition world : World := host disk_usage (Some io) (Some 2) processes.

(** The platform exposes no disk I/O counters. *)
Definition world_no_io : World := host disk_usage None (Some 2) processes.

(** The root mount is inaccessible. *)
Definition world_root_denied : World :=
  host disk_usage_root_denied (Some io) (Some 2) processes.

(** The core count is undetermined. *)
Definition world_no_count : World := host disk_usage (Some io) None processes.

End Sample.

(** ** Further notions for the formatter *)

(** The number of divisions by 1024 the formatter makes on the
    non-negative int [n]: the index of the unit shown. *)
Definition unit_index (n : Z) : nat :=
  if n <? 1024 then 0
  else if n <? 1024 ^ 2 then 1
  else if n <? 1024 ^ 3 then 2
  else if n <? 1024 ^ 4 then 3
  else if n <? 1024 ^ 5 then 4
  else 5.

(** The number shown for [n], in hundredths of its unit. *)
Definition shown (n : Z) : Z :=
  round_half_even (100 * n) (1024 ^ Z.of_nat (unit_index n)).

(** ** Loops whose body is guarded by [try ... except classes: pass] *)

(** The exception that ends such a loop: the first one raised by a body
    that the guard does not catch. *)
Fixpoint first_uncaught {A : Type} (classes : list exn)
    (outcomes : list (res A)) : option exn :=
  match outcomes with
  | [] => None
  | Ok _ :: rest => first_uncaught classes rest
  | Raise e :: rest =>
      if caught_by classes e then first_uncaught classes rest else Some e
  end.

(** The values of the bodies that completed, in order. *)
Fixpoint completed {A : Type} (outcomes : list (res A)) : list A :=
  match outcomes with
  | [] => []
  | Ok a :: rest => a :: completed rest
  | Raise _ :: rest => completed rest
  end.

(** The values that are present, in order. *)
Fixpoint present {A : Type} (l : list (option A)) : list A :=
  match l with
  | [] => []
  | Some a :: rest => a :: present rest
  | None :: rest => present rest
  end.

(** The outcome of the guarded body of the interface loop for one item
    of [net_if_stats]: an interface that is down appends nothing. *)
Definition interface_outcome (self : SystemMonitor) (w : World)
    (i : string * snicstats) : res (option pyval) :=
  if isup (snd i) then interface_entry self w (fst i) (snd i)
  else Ok None.

(** ** The template file on disk *)

(** The part of the file system that [create_templates] works on, as a
    tree of directories and regular files that the process may create
    and write.  Links, permissions and devices are not represented: the
    tree describes what a call that returned has done, not every way in
    which the operating system can refuse one. *)
Module Fs.

(** A path relative to the working directory, by components. *)
Definition path : Type := list string.










End Fs.




(** A host without any network interface: psutil then has no total
    counters and no interface to list. *)
Definition world_no_nic : World :=
  {| platform_system := platform_system Sample.world;
     platform_node := platform_node Sample.world;
     platform_release := platform_release Sample.world;
     platform_version := platform_version Sample.world;
     platform_machine := platform_machine Sample.world;
     platform_processor := platform_processor Sample.world;
     cpu_percent_all := cpu_percent_all Sample.world;
     cpu_percent_percpu := cpu_percent_percpu Sample.world;
     cpu_count := cpu_count Sample.world;
     cpu_freq := cpu_freq Sample.world;
     virtual_memory := virtual_memory Sample.world;
     disk_usage := disk_usage Sample.world;
     disk_io_counters := disk_io_counters Sample.world;
     disk_partitions := disk_partitions Sample.world;
     net_io_counters := None;
     net_if_stats := [];
     net_io_counters_pernic := fun _ => Ok [];
     process_iter := process_iter Sample.world;
     fromtimestamp_strftime := fromtimestamp_strftime Sample.world;
     now_strftime := now_strftime Sample.world |}.

(** The keys of a snapshot after the timestamp, in order. *)
Definition section_names : list string :=
  ["system"; "cpu"; "memory"; "disk"; "network"; "processes"].

(** The six collectors in the order the aggregator calls them. *)
Definition collector_results (self : SystemMonitor) (w : World)
    : list (res pyval) :=
  [ get_system_info self w; get_cpu_info self w; get_memory_info self w;
    get_disk_info self w; get_network_info self w;
    get_process_info self w default_top_n ].

(** * Facts about binary64 rounding *)

Lemma digits2_pos_bounds (p : positive) :
  2 ^ (Zpos (digits2_pos p) - 1) <= Zpos p < 2 ^ Zpos (digits2_pos p).
Proof.
  induction p as [p IH | p IH | ]; cbn [digits2_pos].
  - rewrite Pos2Z.inj_succ.
    replace (Z.succ (Z.pos (digits2_pos p)) - 1) with (Z.succ (Z.pos (digits2_pos p) - 1)) by lia.
    rewrite !Z.pow_succ_r by lia. lia.
  - rewrite Pos2Z.inj_succ.
    replace (Z.succ (Z.pos (digits2_pos p)) - 1) with (Z.succ (Z.pos (digits2_pos p) - 1)) by lia.
    rewrite !Z.pow_succ_r by lia. lia.
  - cbn. lia.
Qed.

Lemma digits2_pos_unique (p : positive) (d : Z) :
  2 ^ (d - 1) <= Zpos p < 2 ^ d -> Zpos (digits2_pos p) = d.
Proof.
  intros [Hlo Hhi].
  pose proof (digits2_pos_bounds p) as [Blo Bhi].
  assert (0 < d) as Hd.
  { destruct (Z_lt_le_dec 0 d) as [|Hle]; [assumption|].
    exfalso. destruct (Z.eq_dec d 0) as [->|Hne].
    - cbn in Hhi. lia.
    - rewrite Z.pow_neg_r in Hhi by lia. lia. }
  destruct (Z.lt_trichotomy (Zpos (digits2_pos p)) d) as [Hlt | [Heq | Hgt]].
  - exfalso.
    assert (2 ^ Zpos (digits2_pos p) <= 2 ^ (d - 1)) by (apply Z.pow_le_mono_r; lia).
    lia.
  - exact Heq.
  - exfalso.
    assert (2 ^ d <= 2 ^ (Zpos (digits2_pos p) - 1)) by (apply Z.pow_le_mono_r; lia).
    lia.
Qed.

Lemma iter_xO_spec (p k : positive) :
  Zpos (Pos.iter xO p k) = Zpos p * 2 ^ Zpos k.
Proof.
  induction k as [| k IH] using Pos.peano_ind.
  - cbn. lia.
  - rewrite Pos.iter_succ, Pos2Z.inj_succ, Z.pow_succ_r by lia.
    rewrite Pos2Z.inj_xO, IH. lia.
Qed.

Lemma iter_xO_digits (p k : positive) :
  digits2_pos (Pos.iter xO p k) = (digits2_pos p + k)%positive.
Proof.
  induction k as [| k IH] using Pos.peano_ind.
  - cbn. lia.
  - rewrite Pos.iter_succ. cbn [digits2_pos]. rewrite IH. lia.
Qed.

Lemma fexp_normal (x : Z) : emin prec emax <= x - 53 -> fexp prec emax x = x - 53.
Proof. unfold fexp, emin, prec, emax. lia. Qed.

Lemma emin_val : emin prec emax = -1074.
Proof. reflexivity. Qed.

(** A 53-bit mantissa at an exponent in range is already rounded. *)
Lemma binary_round_aux_canonical (s : bool) (m : positive) (e : Z) :
  Zpos (digits2_pos m) = 53 -> -1074 <= e ->
  binary_round_aux prec emax s (Zpos m) e loc_Exact =
  if e <=? 971 then S754_finite s m e else S754_infinity s.
Proof.
  intros Hd He.
  unfold binary_round_aux.
  assert (Hs : shr_fexp prec emax (Zpos m) e loc_Exact =
               (shr_record_of_loc (Zpos m) loc_Exact, e)).
  { unfold shr_fexp. cbn [Zdigits2]. rewrite Hd.
    rewrite fexp_normal by (rewrite emin_val; lia).
    replace (53 + e - 53 - e) with 0 by lia. reflexivity. }
  rewrite Hs. cbn [shr_record_of_loc shr_m loc_of_shr_record round_nearest_even].
  rewrite Hs. cbn [shr_record_of_loc shr_m].
  reflexivity.
Qed.

Lemma pshl_spec p k : 0 <= k -> Zpos (pshl p k) = Zpos p * 2 ^ k.
Proof.
  intros Hk. destruct k as [|k|k]; cbn [pshl]; [cbn; lia| |lia].
  apply iter_xO_spec.
Qed.

Lemma pshl_digits p k : 0 <= k -> Zpos (digits2_pos (pshl p k)) = Zpos (digits2_pos p) + k.
Proof.
  intros Hk. destruct k as [|k|k]; cbn [pshl]; [lia| |lia].
  rewrite iter_xO_digits. lia.
Qed.

(** Rounding a mantissa of at most 53 bits is exact. *)
Lemma binary_round_small (s : bool) (p : positive) (e : Z) :
  let d := Zpos (digits2_pos p) in
  d <= 53 -> -1074 <= d + e - 53 ->
  binary_round prec emax s p e =
  if d + e - 53 <=? 971 then S754_finite s (pshl p (53 - d)) (d + e - 53)
  else S754_infinity s.
Proof.
  intros d Hd He.
  unfold binary_round.
  fold d.
  rewrite fexp_normal by (rewrite emin_val; lia).
  assert (Ha : shl_align p e (d + e - 53) = (pshl p (53 - d), d + e - 53)).
  { unfold shl_align.
    destruct (Z.eq_dec d 53) as [E|NE].
    - rewrite E. replace (53 + e - 53 - e) with 0 by lia.
      replace (53 - 53) with 0 by lia. cbn [pshl]. f_equal. lia.
    - assert (Hk : exists k, 53 - d = Zpos k) by (exists (Z.to_pos (53 - d)); lia).
      destruct Hk as [k Hk].
      replace (d + e - 53 - e) with (Zneg k) by lia.
      rewrite Hk. reflexivity. }
  rewrite Ha.
  apply binary_round_aux_canonical; [|lia].
  rewrite pshl_digits by lia. fold d. lia.
Qed.

Lemma shr_1_digits (r : shr_record) (q : positive) :
  shr_m r = Zpos q -> 1 < Zpos (digits2_pos q) ->
  exists q', shr_m (shr_1 r) = Zpos q' /\
             Zpos (digits2_pos q') = Zpos (digits2_pos q) - 1.
Proof.
  destruct r as [m rb sb]. cbn [shr_m]. intros -> Hd.
  destruct q as [q | q | ]; cbn [digits2_pos] in *;
    rewrite ?Pos2Z.inj_succ in *.
  - exists q. split; [reflexivity | lia].
  - exists q. split; [reflexivity | lia].
  - lia.
Qed.

Lemma iter_shr_1_digits (k : positive) :
  forall (r : shr_record) (q : positive),
    shr_m r = Zpos q -> Zpos k < Zpos (digits2_pos q) ->
    exists q', shr_m (iter_pos shr_1 k r) = Zpos q' /\
               Zpos (digits2_pos q') = Zpos (digits2_pos q) - Zpos k.
Proof.
  induction k as [k IH | k IH | ]; intros r q Hr Hk; cbn [iter_pos].
  - destruct (shr_1_digits r q Hr) as [q1 [H1 D1]]; [lia|].
    destruct (IH _ q1 H1) as [q2 [H2 D2]]; [lia|].
    destruct (IH _ q2 H2) as [q3 [H3 D3]]; [lia|].
    exists q3. split; [exact H3 | lia].
  - destruct (IH _ q Hr) as [q2 [H2 D2]]; [lia|].
    destruct (IH _ q2 H2) as [q3 [H3 D3]]; [lia|].
    exists q3. split; [exact H3 | lia].
  - destruct (shr_1_digits r q Hr) as [q1 [H1 D1]]; [lia|].
    exists q1. split; [exact H1 | lia].
Qed.

Lemma digits2_pos_succ (q : positive) :
  Zpos (digits2_pos (Pos.succ q)) = Zpos (digits2_pos q) \/
  Zpos (digits2_pos (Pos.succ q)) = Zpos (digits2_pos q) + 1.
Proof.
  pose proof (digits2_pos_bounds q) as [Blo Bhi].
  destruct (Z.eq_dec (Zpos q + 1) (2 ^ Zpos (digits2_pos q))) as [E|NE].
  - right. apply digits2_pos_unique.
    replace (Z.pos (digits2_pos q) + 1 - 1) with (Z.pos (digits2_pos q)) by lia.
    rewrite Pos2Z.inj_succ.
    replace (Z.pos (digits2_pos q) + 1) with (Z.succ (Z.pos (digits2_pos q))) by lia.
    rewrite Z.pow_succ_r by lia. lia.
  - left. apply digits2_pos_unique. rewrite Pos2Z.inj_succ. lia.
Qed.

Lemma round_nearest_even_cases (q : positive) (l : location) :
  round_nearest_even (Zpos q) l = Zpos q \/
  round_nearest_even (Zpos q) l = Zpos (Pos.succ q).
Proof.
  destruct l as [|[ | | ]]; cbn [round_nearest_even]; auto.
  - destruct (Z.even (Zpos q)); auto. right. lia.
  - right. lia.
Qed.

Lemma shr_1_fields (r : shr_record) :
  0 <= shr_m r ->
  shr_m (shr_1 r) = shr_m r / 2 /\
  shr_r (shr_1 r) = Z.odd (shr_m r) /\
  shr_s (shr_1 r) = shr_r r || shr_s r.
Proof.
  destruct r as [m rb sb]. cbn [shr_m shr_r shr_s]. intros Hm.
  destruct m as [|[q|q|]|q]; try lia; cbn [shr_1 shr_m shr_r shr_s].
  - auto.
  - split; [|auto]. rewrite Pos2Z.inj_xI. apply Z.div_unique with 1; lia.
  - split; [|auto]. rewrite Pos2Z.inj_xO. apply Z.div_unique with 0; lia.
  - auto.
Qed.

Lemma mod_pow2_succ (p j : Z) :
  0 <= j ->
  p mod 2 ^ (j + 1) = p mod 2 ^ j + 2 ^ j * Z.b2z (Z.testbit p j).
Proof.
  intros Hj.
  rewrite Z.pow_add_r by lia. change (2 ^ 1) with 2.
  rewrite Z.rem_mul_r by (try apply Z.pow_nonzero; lia).
  rewrite Z.testbit_spec' by lia. reflexivity.
Qed.

Lemma shr_inv_step (p j : Z) (r : shr_record) :
  0 <= p -> 0 <= j -> shr_inv p j r -> shr_inv p (j + 1) (shr_1 r).
Proof.
  intros Hp Hj [Hm [Hr Hs]].
  assert (0 < 2 ^ j) as Hpow by (apply Z.pow_pos_nonneg; lia).
  assert (0 <= shr_m r) as Hm0 by (rewrite Hm; apply Z.div_pos; lia).
  destruct (shr_1_fields r Hm0) as [Fm [Fr Fs]].
  unfold shr_inv. rewrite Fm, Fr, Fs, Hm, Hr, Hs.
  replace (j + 1 - 1) with j by lia. rewrite (Z.max_l j 0) by lia.
  split; [|split].
  - rewrite Z.div_div by lia. rewrite Z.pow_add_r by lia. reflexivity.
  - rewrite Z.testbit_odd, Z.shiftr_div_pow2 by lia. reflexivity.
  - destruct (Z.eq_dec j 0) as [->|Hj0].
    + cbn. rewrite Z.mod_1_r. reflexivity.
    + rewrite Z.max_l by lia.
      pose proof (mod_pow2_succ p (j - 1) ltac:(lia)) as E.
      replace (j - 1 + 1) with j in E by lia.
      assert (0 < 2 ^ (j - 1)) by (apply Z.pow_pos_nonneg; lia).
      pose proof (Z.mod_pos_bound p (2 ^ (j - 1)) ltac:(lia)) as B.
      rewrite E.
      destruct (Z.testbit p (j - 1)); cbn [Z.b2z orb].
      * destruct (Z.eqb_spec (p mod 2 ^ (j - 1) + 2 ^ (j - 1) * 1) 0); [lia|reflexivity].
      * rewrite Z.mul_0_r, Z.add_0_r. reflexivity.
Qed.

Lemma shr_inv_iter (p : Z) (k : positive) :
  0 <= p ->
  forall (j : Z) (r : shr_record),
    0 <= j -> shr_inv p j r -> shr_inv p (j + Zpos k) (iter_pos shr_1 k r).
Proof.
  intros Hp. induction k as [k IH | k IH | ]; intros j r Hj Hinv; cbn [iter_pos].
  - replace (j + Zpos k~1) with (j + 1 + Zpos k + Zpos k) by lia.
    apply IH; [lia|]. apply IH; [lia|]. apply shr_inv_step; assumption.
  - replace (j + Zpos k~0) with (j + Zpos k + Zpos k) by lia.
    apply IH; [lia|]. apply IH; assumption.
  - apply shr_inv_step; assumption.
Qed.

Lemma shr_inv_init (p : positive) :
  shr_inv (Zpos p) 0 (shr_record_of_loc (Zpos p) loc_Exact).
Proof.
  unfold shr_inv. cbn [shr_record_of_loc shr_m shr_r shr_s].
  split; [|split].
  - change (2 ^ 0) with 1. rewrite Z.div_1_r. reflexivity.
  - reflexivity.
  - cbn [Z.sub Z.opp Z.add Z.max Z.compare]. change (2 ^ 0) with 1. rewrite Z.mod_1_r. reflexivity.
Qed.

(** The rounding of the shifted mantissa is the division rounded half
    to even. *)
Lemma round_nearest_even_shr (p k : Z) (r : shr_record) :
  0 <= p -> 0 < k -> shr_inv p k r ->
  round_nearest_even (shr_m r) (loc_of_shr_record r) = round_half_even p (2 ^ k).
Proof.
  intros Hp Hk [Hm [Hr Hs]].
  rewrite Z.max_l in Hs by lia.
  assert (0 < 2 ^ (k - 1)) as Hpow by (apply Z.pow_pos_nonneg; lia).
  assert (2 ^ k = 2 * 2 ^ (k - 1)) as E2.
  { replace k with (k - 1 + 1) at 1 by lia. rewrite Z.pow_add_r by lia. change (2 ^ 1) with 2. lia. }
  pose proof (mod_pow2_succ p (k - 1) ltac:(lia)) as E.
  replace (k - 1 + 1) with k in E by lia.
  pose proof (Z.mod_pos_bound p (2 ^ (k - 1)) ltac:(lia)) as B.
  unfold round_half_even. rewrite <- Hm.
  destruct r as [m rb sb]. cbn [shr_m shr_r shr_s] in *.
  rewrite E. rewrite <- Hr.
  destruct rb; cbn [Z.b2z].
  - destruct sb; cbn [loc_of_shr_record round_nearest_even].
    + assert (p mod 2 ^ (k - 1) <> 0) as Hne.
      { intros Z0. rewrite Z0 in Hs. cbn in Hs. discriminate. }
      assert (C : (2 * (p mod 2 ^ (k - 1) + 2 ^ (k - 1) * 1) ?= 2 ^ k) = Gt)
        by (apply Z.compare_gt_iff; lia).
      rewrite C. reflexivity.
    + assert (p mod 2 ^ (k - 1) = 0) as Hz.
      { destruct (Z.eqb_spec (p mod 2 ^ (k - 1)) 0); [assumption|discriminate]. }
      assert (C : (2 * (p mod 2 ^ (k - 1) + 2 ^ (k - 1) * 1) ?= 2 ^ k) = Eq)
        by (apply Z.compare_eq_iff; lia).
      rewrite C. reflexivity.
  - assert (C : (2 * (p mod 2 ^ (k - 1) + 2 ^ (k - 1) * 0) ?= 2 ^ k) = Lt)
      by (apply Z.compare_lt_iff; lia).
    rewrite C. destruct sb; reflexivity.
Qed.

Lemma log2_digits (p : positive) : Z.log2 (Zpos p) + 1 = Zpos (digits2_pos p).
Proof.
  symmetry. apply digits2_pos_unique.
  pose proof (Z.log2_spec (Zpos p) ltac:(lia)) as [Hlo Hhi].
  replace (Z.log2 (Zpos p) + 1 - 1) with (Z.log2 (Zpos p)) by lia.
  replace (Z.log2 (Zpos p) + 1) with (Z.succ (Z.log2 (Zpos p))) by lia.
  split; assumption.
Qed.

(** A mantissa of 53 bits, or [2^53], with nothing shifted out yet. *)
Lemma binary_round_aux_carry (s : bool) (m : positive) (e : Z) :
  (Zpos (digits2_pos m) = 53 \/ Zpos m = 2 ^ 53) -> -1074 <= e ->
  exists m' e',
    Zpos (digits2_pos m') = 53 /\ (e' = e \/ e' = e + 1) /\
    Zpos m' * 2 ^ (e' - e) = Zpos m /\
    (let '(mrs, e2) := shr_fexp prec emax (Zpos m) e loc_Exact in
     match shr_m mrs with
     | Z0 => S754_zero s
     | Zpos m2 => if e2 <=? emax - prec then S754_finite s m2 e2 else S754_infinity s
     | Zneg _ => S754_nan
     end) = if e' <=? 971 then S754_finite s m' e' else S754_infinity s.
Proof.
  intros [Hd | Hd] He.
  - exists m, e. split; [exact Hd|]. split; [auto|].
    split; [replace (e - e) with 0 by lia; cbn; lia|].
    unfold shr_fexp. cbn [Zdigits2]. rewrite Hd.
    rewrite fexp_normal by (rewrite emin_val; lia).
    replace (53 + e - 53 - e) with 0 by lia. reflexivity.
  - assert (m = (2 ^ 53)%positive) as -> by (apply Pos2Z.inj; exact Hd).
    exists (2 ^ 52)%positive, (e + 1).
    split; [reflexivity|]. split; [auto|].
    split; [replace (e + 1 - e) with 1 by lia; reflexivity|].
    unfold shr_fexp.
    change (Zdigits2 (Zpos (2 ^ 53))) with 54.
    rewrite fexp_normal by (rewrite emin_val; lia).
    replace (54 + e - 53 - e) with 1 by lia.
    reflexivity.
Qed.

(** Rounding a mantissa of more than 53 bits keeps its 53 leading bits,
    rounded half to even; the result is an infinity past the largest
    exponent. *)
Lemma binary_round_big (s : bool) (p : positive) (e : Z) :
  let d := Zpos (digits2_pos p) in
  53 < d -> -1074 <= d + e - 53 ->
  exists m' e',
    Zpos (digits2_pos m') = 53 /\ (e' = d + e - 53 \/ e' = d + e - 52) /\
    Zpos m' * 2 ^ (e' - e) =
      round_half_even (Zpos p) (2 ^ (d - 53)) * 2 ^ (d - 53) /\
    binary_round prec emax s p e =
    if e' <=? 971 then S754_finite s m' e' else S754_infinity s.
Proof.
  intros d Hd He.
  unfold binary_round. fold d.
  rewrite fexp_normal by (rewrite emin_val; lia).
  assert (Hk : exists k, d - 53 = Zpos k) by (exists (Z.to_pos (d - 53)); lia).
  destruct Hk as [k Hk].
  assert (Ha : shl_align p e (d + e - 53) = (p, e)).
  { unfold shl_align. replace (d + e - 53 - e) with (Zpos k) by lia. reflexivity. }
  rewrite Ha. unfold binary_round_aux.
  assert (Hs : shr_fexp prec emax (Zpos p) e loc_Exact =
               (iter_pos shr_1 k (shr_record_of_loc (Zpos p) loc_Exact), e + Zpos k)).
  { unfold shr_fexp. cbn [Zdigits2]. fold d.
    rewrite fexp_normal by (rewrite emin_val; lia).
    replace (d + e - 53 - e) with (Zpos k) by lia. reflexivity. }
  rewrite Hs.
  destruct (iter_shr_1_digits k (shr_record_of_loc (Zpos p) loc_Exact) p eq_refl)
    as [q0 [Hq0 Dq0]]; [fold d; lia|].
  fold d in Dq0.
  pose proof (shr_inv_iter (Zpos p) k ltac:(lia) 0 _ ltac:(lia) (shr_inv_init p)) as Hinv.
  cbn [Z.add] in Hinv.
  pose proof (round_nearest_even_shr (Zpos p) (Zpos k) _ ltac:(lia) ltac:(lia) Hinv) as HR.
  set (mrs := iter_pos shr_1 k (shr_record_of_loc (Zpos p) loc_Exact)) in *.
  rewrite Hk. rewrite <- HR. rewrite Hq0.
  pose proof (digits2_pos_bounds q0) as [_ Bq0].
  assert (Hcarry : forall m1, round_nearest_even (Zpos q0) (loc_of_shr_record mrs) = Zpos m1 ->
            Zpos (digits2_pos m1) = 53 \/ Zpos m1 = 2 ^ 53 ->
            exists m' e',
              Zpos (digits2_pos m') = 53 /\ (e' = d + e - 53 \/ e' = d + e - 52) /\
              Zpos m' * 2 ^ (e' - e) = Zpos m1 * 2 ^ Zpos k /\
              (let '(mrs'', e'') := shr_fexp prec emax (Zpos m1) (e + Zpos k) loc_Exact in
               match shr_m mrs'' with
               | 0 => S754_zero s
               | Zpos m => if e'' <=? emax - prec then S754_finite s m e'' else S754_infinity s
               | Zneg _ => S754_nan
               end) = (if e' <=? 971 then S754_finite s m' e' else S754_infinity s)).
  { intros m1 _ Hm1.
    destruct (binary_round_aux_carry s m1 (e + Zpos k) Hm1) as [m' [e' [D1 [E1 [V1 R1]]]]]; [lia|].
    exists m', e'. split; [exact D1|]. split; [lia|]. split; [|exact R1].
    rewrite <- V1. replace (e' - e) with (e' - (e + Zpos k) + Zpos k) by lia.
    rewrite Z.pow_add_r by lia. ring. }
  destruct (round_nearest_even_cases q0 (loc_of_shr_record mrs)) as [E | E].
  - rewrite E. apply (Hcarry q0 E). left. lia.
  - rewrite E. apply (Hcarry (Pos.succ q0) E).
    destruct (digits2_pos_succ q0) as [S1 | S1]; [left; lia|].
    right. rewrite Dq0 in Bq0. replace (d - Zpos k) with 53 in Bq0 by lia.
    pose proof (digits2_pos_bounds (Pos.succ q0)) as [Bs _].
    rewrite S1, Dq0 in Bs. replace (d - Zpos k + 1 - 1) with 53 in Bs by lia.
    rewrite Pos2Z.inj_succ in *. lia.
Qed.

Lemma div_eucl_mul (a b : Z) : 0 < b -> Z.div_eucl (a * b) b = (a, 0).
Proof.
  intros Hb.
  pose proof (Z.div_mul a b ltac:(lia)) as Hq.
  pose proof (Z.mod_mul a b ltac:(lia)) as Hr.
  unfold Z.div, Z.modulo in Hq, Hr.
  destruct (Z.div_eucl (a * b) b) as [q r]. cbn in Hq, Hr. congruence.
Qed.

Lemma SFdiv_core_1024 (m : positive) (e : Z) :
  Zpos (digits2_pos m) = 53 -> -1074 <= e - 11 ->
  SFdiv_core_binary prec emax (Zpos m) e (Zpos (2 ^ 52)) (-42) =
  (Zpos m~0, e - 11, loc_Exact).
Proof.
  intros Hd He.
  unfold SFdiv_core_binary. cbn [Zdigits2]. rewrite Hd.
  change (Zpos (digits2_pos (2 ^ 52))) with 53.
  replace (53 + e - (53 + -42)) with (e + 42) by lia.
  rewrite fexp_normal by (rewrite emin_val; lia).
  replace (Z.min (e + 42 - 53) (e - -42)) with (e - 11) by lia.
  replace (e - -42 - (e - 11)) with 53 by lia.
  rewrite Z.shiftl_mul_pow2 by lia.
  change (Zpos (2 ^ 52)) with (2 ^ 52).
  replace (Zpos m * 2 ^ 53) with (Zpos m~0 * 2 ^ 52) by (rewrite Pos2Z.inj_xO; change (2 ^ 53) with (2 * 2 ^ 52); lia).
  rewrite div_eucl_mul by (cbn; lia).
  reflexivity.
Qed.

(** Dividing a normal float by [1024.0] lowers the exponent by ten. *)
Lemma SFdiv_1024_normal (s : bool) (m : positive) (e : Z) :
  Zpos (digits2_pos m) = 53 -> -1063 <= e -> e <= 981 ->
  SFdiv prec emax (S754_finite s m e) float_1024 = S754_finite s m (e - 10).
Proof.
  intros Hd He He'.
  unfold SFdiv, float_1024.
  rewrite SFdiv_core_1024 by (assumption || lia).
  rewrite xorb_false_r.
  unfold binary_round_aux.
  assert (Hs : shr_fexp prec emax (Zpos m~0) (e - 11) loc_Exact =
               ({| shr_m := Zpos m; shr_r := false; shr_s := false |}, e - 10)).
  { unfold shr_fexp. cbn [Zdigits2 digits2_pos]. rewrite Pos2Z.inj_succ, Hd.
    rewrite fexp_normal by (rewrite emin_val; lia).
    replace (Z.succ 53 + (e - 11) - 53 - (e - 11)) with 1 by lia.
    cbn [shr iter_pos shr_record_of_loc shr_1]. f_equal. lia. }
  rewrite Hs. cbn [shr_m loc_of_shr_record round_nearest_even].
  assert (Hs2 : shr_fexp prec emax (Zpos m) (e - 10) loc_Exact =
               ({| shr_m := Zpos m; shr_r := false; shr_s := false |}, e - 10)).
  { unfold shr_fexp. cbn [Zdigits2]. rewrite Hd.
    rewrite fexp_normal by (rewrite emin_val; lia).
    replace (53 + (e - 10) - 53 - (e - 10)) with 0 by lia. reflexivity. }
  rewrite Hs2. cbn [shr_m].
  replace (e - 10 <=? emax - prec) with true; [reflexivity|].
  symmetry. apply Z.leb_le. unfold emax, prec. lia.
Qed.

(** The scaling by [2^-10] that [div_1024] performs on an int is the
    general int division by 1024, on ints of every size class: exact
    quotients, quotients that round down, up and to even, and the
    overflow at the top. *)
Lemma div_1024_is_int_truediv_on_samples :
  let samples :=
    [ 1; 1023; 1024; 1536; 123456789; 2 ^ 53 - 1; 2 ^ 53; 2 ^ 53 + 1;
      2 ^ 54 + 2; 2 ^ 54 + 6; 2 ^ 60 - 1; 2 ^ 64 - 1; 3 * 2 ^ 70 + 1;
      10 ^ 30; 10 ^ 100 + 7; 2 ^ 1034 - 2 ^ 980 - 1; 2 ^ 1034 - 2 ^ 980;
      2 ^ 1034; 2 ^ 2000 + 1 ] in
  map (fun n => binary_normalize prec emax n (-10) false) samples =
  map (fun n => int_truediv n 1024) samples.
Proof. vm_compute. reflexivity. Qed.

(** * The formatter against its contract *)

Lemma round_half_even_scale (a b k : Z) :
  0 < b -> 0 < k -> round_half_even (a * k) (b * k) = round_half_even a b.
Proof.
  intros Hb Hk. unfold round_half_even.
  rewrite Z.div_mul_cancel_r by lia.
  rewrite Z.mul_mod_distr_r by lia.
  replace (2 * (a mod b * k)) with (2 * (a mod b) * k) by lia.
  rewrite <- Zmult_compare_compat_r by lia. reflexivity.
Qed.

Lemma round_half_even_exact (k b : Z) : 0 < b -> round_half_even (k * b) b = k.
Proof.
  intros Hb. unfold round_half_even.
  rewrite Z.div_mul by lia. rewrite Z.mod_mul by lia.
  assert (E : (2 * 0 ?= b) = Lt) by (apply Z.compare_lt_iff; lia).
  rewrite E. reflexivity.
Qed.

Lemma round_half_even_cross (a b c d : Z) :
  0 < b -> 0 < d -> a * d = c * b -> round_half_even a b = round_half_even c d.
Proof.
  intros Hb Hd H.
  rewrite <- (round_half_even_scale a b d) by lia.
  rewrite <- (round_half_even_scale c d b) by lia.
  rewrite H. f_equal. lia.
Qed.

Lemma num_lt_1024_rep (m : positive) (e num den : Z) :
  rep m e num den -> 0 < den ->
  num_lt (NFloat (S754_finite false m e)) (NInt 1024) = (num <? 1024 * den).
Proof.
  unfold rep. intros H Hden.
  unfold num_lt, xval_of_num, xval_of_float, xlt, dyadic_lt.
  replace (e - Z.min e 0) with (Z.max e 0) by lia.
  replace (0 - Z.min e 0) with (Z.max (- e) 0) by lia.
  assert (0 < 2 ^ Z.max e 0) as HP by (apply Z.pow_pos_nonneg; lia).
  assert (0 < 2 ^ Z.max (- e) 0) as HQ by (apply Z.pow_pos_nonneg; lia).
  set (P := 2 ^ Z.max e 0) in *. set (Q := 2 ^ Z.max (- e) 0) in *.
  destruct (Z.ltb_spec (Zpos m * P) (1024 * Q)) as [L|L];
  destruct (Z.ltb_spec num (1024 * den)) as [L'|L']; try reflexivity; exfalso.
  - assert (Zpos m * P * den < 1024 * Q * den) by (apply Z.mul_lt_mono_pos_r; lia).
    assert (1024 * den * Q <= num * Q) by (apply Z.mul_le_mono_nonneg_r; lia).
    lia.
  - assert (1024 * Q * den <= Zpos m * P * den) by (apply Z.mul_le_mono_nonneg_r; lia).
    assert (num * Q < 1024 * den * Q) by (apply Z.mul_lt_mono_pos_r; lia).
    lia.
Qed.

Lemma scaled_round_rep (m : positive) (e num den : Z) :
  rep m e num den -> 0 < den ->
  scaled_round 100 m e = round_half_even (100 * num) den.
Proof.
  unfold rep, scaled_round. intros H Hden.
  destruct (Z.leb_spec 0 e) as [He|He].
  - rewrite Z.max_l in H by lia. rewrite Z.max_r in H by lia.
    change (2 ^ 0) with 1 in H.
    replace (100 * num) with (Zpos m * 2 ^ e * 100 * den) by lia.
    symmetry. apply round_half_even_exact. lia.
  - rewrite Z.max_r in H by lia. rewrite Z.max_l in H by lia.
    change (2 ^ 0) with 1 in H.
    apply round_half_even_cross; [apply Z.pow_pos_nonneg; lia | lia | lia].
Qed.

Lemma rep_div_1024 (m : positive) (e num den : Z) :
  rep m e num den -> rep m (e - 10) num (1024 * den).
Proof.
  unfold rep. intros H.
  destruct (Z_lt_le_dec e 0) as [He|He].
  - rewrite Z.max_r in H by lia. rewrite Z.max_l in H by lia.
    rewrite Z.max_r by lia. rewrite Z.max_l by lia.
    replace (- (e - 10)) with (- e + 10) by lia.
    rewrite Z.pow_add_r by lia. change (2 ^ 10) with 1024.
    change (2 ^ 0) with 1 in *. lia.
  - rewrite Z.max_l in H by lia. rewrite Z.max_r in H by lia.
    change (2 ^ 0) with 1 in H.
    destruct (Z_lt_le_dec e 10) as [He'|He'].
    + rewrite Z.max_r by lia. rewrite Z.max_l by lia.
      change (2 ^ 0) with 1.
      assert (2 ^ e * 2 ^ (- (e - 10)) = 1024) as E.
      { rewrite <- Z.pow_add_r by lia. replace (e + - (e - 10)) with 10 by lia. reflexivity. }
      assert (Hn : num = Zpos m * 2 ^ e * den) by lia.
      rewrite Hn.
      replace (Zpos m * 2 ^ e * den * 2 ^ (- (e - 10)))
        with (Zpos m * den * (2 ^ e * 2 ^ (- (e - 10)))) by ring.
      rewrite E. ring.
    + rewrite Z.max_l by lia. rewrite Z.max_r by lia.
      change (2 ^ 0) with 1.
      replace e with ((e - 10) + 10) in H at 1 by lia.
      rewrite Z.pow_add_r in H by lia. change (2 ^ 10) with 1024 in H. lia.
Qed.

(** A float that is at least 1024 has an exponent of at least -42. *)
Lemma rep_ge_1024_exponent (m : positive) (e num den : Z) :
  rep m e num den -> 0 < den -> 1024 * den <= num ->
  Zpos m < 2 ^ 53 -> -42 <= e.
Proof.
  unfold rep. intros H Hden Hge Hm.
  destruct (Z_lt_le_dec e (-42)) as [He|He]; [exfalso|lia].
  rewrite Z.max_r in H by lia. rewrite Z.max_l in H by lia.
  change (2 ^ 0) with 1 in H.
  assert (2 ^ 43 <= 2 ^ (- e)) by (apply Z.pow_le_mono_r; lia).
  assert (1024 * den * 2 ^ 43 <= num * 2 ^ (- e)).
  { transitivity (num * 2 ^ 43).
    - apply Z.mul_le_mono_nonneg_r; lia.
    - apply Z.mul_le_mono_nonneg_l; lia. }
  assert (Zpos m * den < 2 ^ 53 * den) by (apply Z.mul_lt_mono_pos_r; lia).
  change (2 ^ 53) with (1024 * 2 ^ 43) in *. lia.
Qed.

(** The loop on a normal positive float computes what the spec says of
    its exact value. *)
Lemma format_loop_float (us : list string) :
  forall (m : positive) (e num den : Z),
    Zpos (digits2_pos m) = 53 -> -1074 <= e -> e <= 971 ->
    rep m e num den -> 0 < den ->
    format_loop us (NFloat (S754_finite false m e)) = Ok (spec_render us num den).
Proof.
  induction us as [|unit rest IH]; intros m e num den Hd Hlo Hhi Hrep Hden.
  - cbn [format_loop fixed2 fixed2_float bind sign_str].
    unfold spec_render. cbn [spec_escalate].
    rewrite (scaled_round_rep m e num den) by assumption. reflexivity.
  - cbn [format_loop]. rewrite (num_lt_1024_rep m e num den) by assumption.
    unfold spec_render. cbn [spec_escalate].
    destruct (Z.ltb_spec num (1024 * den)) as [L|L].
    + cbn [fixed2 fixed2_float bind sign_str].
      rewrite (scaled_round_rep m e num den) by assumption. reflexivity.
    + assert (-42 <= e) as He.
      { apply (rep_ge_1024_exponent m e num den); try assumption.
        pose proof (digits2_pos_bounds m) as B. rewrite Hd in B. lia. }
      cbn [div_1024 bind]. rewrite SFdiv_1024_normal by (assumption || lia).
      rewrite (IH m (e - 10) num (1024 * den)); try assumption; try lia.
      * reflexivity.
      * apply rep_div_1024; assumption.
Qed.

Lemma digits2_pos_le (p : positive) (k : Z) :
  0 <= k -> Zpos p < 2 ^ k -> Zpos (digits2_pos p) <= k.
Proof.
  intros Hk Hp. pose proof (digits2_pos_bounds p) as [Blo _].
  destruct (Z_le_gt_dec (Zpos (digits2_pos p)) k) as [|Hgt]; [assumption|exfalso].
  assert (2 ^ k <= 2 ^ (Zpos (digits2_pos p) - 1)) by (apply Z.pow_le_mono_r; lia).
  lia.
Qed.

Lemma digits2_pos_gt (p : positive) (k : Z) :
  0 <= k -> 2 ^ k <= Zpos p -> k < Zpos (digits2_pos p).
Proof.
  intros Hk Hp. pose proof (digits2_pos_bounds p) as [_ Bhi].
  destruct (Z_lt_le_dec k (Zpos (digits2_pos p))) as [|Hle]; [assumption|exfalso].
  assert (2 ^ Zpos (digits2_pos p) <= 2 ^ k) by (apply Z.pow_le_mono_r; lia).
  lia.
Qed.

Lemma num_lt_int (a b : Z) : num_lt (NInt a) (NInt b) = (a <? b).
Proof.
  unfold num_lt, xval_of_num, xlt, dyadic_lt. cbn [Z.min Z.sub Z.add Z.opp Z.compare].
  change (2 ^ 0) with 1. rewrite !Z.mul_1_r. reflexivity.
Qed.

Lemma rep_pshl (p : positive) (d e : Z) (den : Z) :
  Zpos (digits2_pos p) = d -> d <= 53 -> d + e - 53 <= 0 -> e <= 0 ->
  den = 2 ^ (- e) ->
  rep (pshl p (53 - d)) (d + e - 53) (Zpos p) den.
Proof.
  intros Hd Hle He He0 ->. unfold rep.
  rewrite pshl_spec by lia.
  rewrite Z.max_r by lia. rewrite Z.max_l by lia.
  change (2 ^ 0) with 1.
  replace (- (d + e - 53)) with ((53 - d) + (- e)) by lia.
  rewrite Z.pow_add_r by lia. ring.
Qed.

(** [fixed2] of a small non-negative int. *)
Lemma fixed2_int_small (n : Z) :
  0 <= n < 2 ^ 53 ->
  fixed2 (NInt n) = Ok (dec2 (round_half_even (100 * n) 1)).
Proof.
  intros [Hlo Hhi]. unfold fixed2, of_Z.
  destruct n as [|p|p]; [reflexivity| |lia].
  cbn [binary_normalize].
  pose proof (digits2_pos_le p 53 ltac:(lia) Hhi) as Hd.
  pose proof (Pos2Z.is_pos (digits2_pos p)) as Hd0.
  rewrite binary_round_small by lia.
  replace (Zpos (digits2_pos p) + 0 - 53 <=? 971) with true by (symmetry; apply Z.leb_le; lia).
  cbn [fixed2_float sign_str].
  rewrite (scaled_round_rep _ _ (Zpos p) 1); [reflexivity| |lia].
  apply rep_pshl; (lia || reflexivity).
Qed.

(** The first division of an int below [2^53] is exact. *)
Lemma div_1024_int_small (p : positive) :
  Zpos p < 2 ^ 53 ->
  exists m e, div_1024 (NInt (Zpos p)) = Ok (NFloat (S754_finite false m e)) /\
              Zpos (digits2_pos m) = 53 /\ -1074 <= e <= 971 /\
              rep m e (Zpos p) 1024.
Proof.
  intros Hhi.
  pose proof (digits2_pos_le p 53 ltac:(lia) Hhi) as Hd.
  pose proof (Pos2Z.is_pos (digits2_pos p)) as Hd0.
  exists (pshl p (53 - Zpos (digits2_pos p))), (Zpos (digits2_pos p) + -10 - 53).
  unfold div_1024. cbn [binary_normalize].
  rewrite binary_round_small by lia.
  replace (Zpos (digits2_pos p) + -10 - 53 <=? 971) with true by (symmetry; apply Z.leb_le; lia).
  split; [reflexivity|]. split; [rewrite pshl_digits by lia; lia|].
  split; [lia|].
  apply rep_pshl; (lia || reflexivity).
Qed.

Lemma round53_small (n : Z) : 0 <= n < 2 ^ 53 -> round53 n = n.
Proof.
  intros [Hlo Hhi]. unfold round53.
  destruct (Z.leb_spec (Z.log2 n + 1 - 53) 0) as [|Hk]; [reflexivity|exfalso].
  assert (Z.log2 n < 53) by (apply Z.log2_lt_pow2; lia || (destruct n; cbn in *; lia)).
  lia.
Qed.

Lemma round53_big (p : positive) :
  53 < Zpos (digits2_pos p) ->
  round53 (Zpos p) =
  round_half_even (Zpos p) (2 ^ (Zpos (digits2_pos p) - 53)) *
  2 ^ (Zpos (digits2_pos p) - 53).
Proof.
  intros Hd. unfold round53. rewrite log2_digits.
  destruct (Z.leb_spec (Zpos (digits2_pos p) - 53) 0); [lia|reflexivity].
Qed.

(** The first division of an int of more than 53 bits rounds it to 53
    significant bits; [OverflowError] when the rounded int reaches
    [2^1034]. *)
Lemma div_1024_int_big (p : positive) :
  2 ^ 53 <= Zpos p ->
  2 ^ 53 <= round53 (Zpos p) /\
  if round53 (Zpos p) <? 2 ^ 1034 then
    exists m e, div_1024 (NInt (Zpos p)) = Ok (NFloat (S754_finite false m e)) /\
                Zpos (digits2_pos m) = 53 /\ -1074 <= e <= 971 /\
                rep m e (round53 (Zpos p)) 1024
  else div_1024 (NInt (Zpos p)) = Raise OverflowError.
Proof.
  intros Hlo.
  pose proof (digits2_pos_gt p 53 ltac:(lia) Hlo) as Hd0.
  destruct (binary_round_big false p (-10)) as [m [e [Dm [He [V R]]]]]; [lia|lia|].
  rewrite <- round53_big in V by assumption.
  replace (e - -10) with (e + 10) in V by lia.
  pose proof (digits2_pos_bounds m) as [Bm Bm']. rewrite Dm in Bm, Bm'.
  change (2 ^ (53 - 1)) with (2 ^ 52) in Bm.
  assert (0 < 2 ^ (e + 10)) as Hpow by (apply Z.pow_pos_nonneg; lia).
  split.
  - rewrite <- V.
    assert (2 ^ 1 <= 2 ^ (e + 10)) by (apply Z.pow_le_mono_r; lia).
    change (2 ^ 53) with (2 ^ 52 * 2 ^ 1).
    apply Z.mul_le_mono_nonneg; lia.
  - unfold div_1024. cbn [binary_normalize]. rewrite R.
    destruct (Z.leb_spec e 971) as [Le|Le].
    + assert (round53 (Zpos p) < 2 ^ 1034) as Hfit.
      { rewrite <- V.
        assert (2 ^ (e + 10) <= 2 ^ 981) by (apply Z.pow_le_mono_r; lia).
        change (2 ^ 1034) with (2 ^ 53 * 2 ^ 981).
        apply Z.le_lt_trans with (Zpos m * 2 ^ 981).
        - apply Z.mul_le_mono_nonneg_l; lia.
        - apply Z.mul_lt_mono_pos_r; [apply Z.pow_pos_nonneg; lia | lia]. }
      destruct (Z.ltb_spec (round53 (Zpos p)) (2 ^ 1034)); [|lia].
      exists m, e. split; [reflexivity|]. split; [exact Dm|]. split; [lia|].
      unfold rep. rewrite <- V. destruct (Z_lt_le_dec e 0) as [En|En].
      * rewrite Z.max_r by lia. rewrite Z.max_l by lia. change (2 ^ 0) with 1.
        replace (Zpos m * 2 ^ (e + 10) * 2 ^ (- e))
          with (Zpos m * (2 ^ (e + 10) * 2 ^ (- e))) by ring.
        rewrite <- Z.pow_add_r by lia. replace (e + 10 + - e) with 10 by lia.
        change (2 ^ 10) with 1024. ring.
      * rewrite Z.max_l by lia. rewrite Z.max_r by lia. change (2 ^ 0) with 1.
        rewrite Z.pow_add_r by lia. change (2 ^ 10) with 1024. ring.
    + assert (2 ^ 1034 <= round53 (Zpos p)) as Hbig.
      { rewrite <- V.
        assert (2 ^ 982 <= 2 ^ (e + 10)) by (apply Z.pow_le_mono_r; lia).
        change (2 ^ 1034) with (2 ^ 52 * 2 ^ 982).
        apply Z.mul_le_mono_nonneg; lia. }
      destruct (Z.ltb_spec (round53 (Zpos p)) (2 ^ 1034)); [lia|]. reflexivity.
Qed.

Lemma spec_format_ge_1024 (n : Z) :
  1024 <= n -> spec_format n = spec_render (tl units) n 1024.
Proof.
  intros H. unfold spec_format, spec_render, units. cbn [spec_escalate tl].
  change (1024 * 1) with 1024.
  destruct (Z.ltb_spec n 1024); [lia|]. reflexivity.
Qed.

Lemma spec_format_lt_1024 (n : Z) :
  n < 1024 -> spec_format n = dec2 (round_half_even (100 * n) 1) ++ " B".
Proof.
  intros H. unfold spec_format, spec_render, units. cbn [spec_escalate].
  change (1024 * 1) with 1024.
  destruct (Z.ltb_spec n 1024); [|lia]. reflexivity.
Qed.

Lemma format_loop_int_ge_1024 (n : Z) :
  1024 <= n ->
  format_loop units (NInt n) = v <- div_1024 (NInt n) ;; format_loop (tl units) v.
Proof.
  intros H. unfold units. cbn [format_loop tl]. rewrite num_lt_int.
  destruct (Z.ltb_spec n 1024); [lia|]. reflexivity.
Qed.

(** The formatter on every non-negative int: the contract applied to the
    int rounded to 53 significant bits, or [OverflowError]. *)
Lemma format_bytes_int (self : SystemMonitor) (n : Z) :
  0 <= n ->
  _format_bytes self (VInt n) =
  if round53 n <? 2 ^ 1034 then Ok (spec_format (round53 n))
  else Raise OverflowError.
Proof.
  intros Hlo. unfold _format_bytes. cbn [as_num].
  destruct (Z_lt_le_dec n (2 ^ 53)) as [Hhi|Hhi].
  - rewrite round53_small by lia.
    assert (n < 2 ^ 1034) as Hfit.
    { apply Z.lt_trans with (2 ^ 53); [assumption|]. apply Z.pow_lt_mono_r; lia. }
    destruct (Z.ltb_spec n (2 ^ 1034)); [|lia].
    destruct (Z_lt_le_dec n 1024) as [Hs|Hb].
    + rewrite spec_format_lt_1024 by assumption.
      unfold units. cbn [format_loop]. rewrite num_lt_int.
      destruct (Z.ltb_spec n 1024); [|lia].
      rewrite fixed2_int_small by lia. reflexivity.
    + rewrite format_loop_int_ge_1024 by assumption.
      destruct n as [|p|p]; try lia.
      destruct (div_1024_int_small p Hhi) as [m [e [-> [Dm [He Hrep]]]]].
      cbn [bind]. rewrite (format_loop_float _ m e (Zpos p) 1024); try lia; try assumption.
      rewrite spec_format_ge_1024 by assumption. reflexivity.
  - assert (1024 <= n) as H1024.
    { apply Z.le_trans with (2 ^ 53); [|assumption].
      change 1024 with (2 ^ 10). apply Z.pow_le_mono_r; lia. }
    rewrite format_loop_int_ge_1024 by assumption.
    destruct n as [|p|p]; try lia.
    destruct (div_1024_int_big p Hhi) as [Hr Hdiv].
    destruct (Z.ltb_spec (round53 (Zpos p)) (2 ^ 1034)) as [Hfit|Hfit].
    + destruct Hdiv as [m [e [-> [Dm [He Hrep]]]]].
      cbn [bind]. rewrite (format_loop_float _ m e (round53 (Zpos p)) 1024); try lia; try assumption.
      rewrite spec_format_ge_1024; [reflexivity|].
      apply Z.le_trans with (2 ^ 53); [|assumption].
      change 1024 with (2 ^ 10). apply Z.pow_le_mono_r; lia.
    + rewrite Hdiv. reflexivity.
Qed.

Lemma round_half_even_bounds (a b : Z) :
  a / b <= round_half_even a b <= a / b + 1.
Proof.
  unfold round_half_even.
  destruct (2 * (a mod b) ?= b); [destruct (Z.even (a / b))| |]; lia.
Qed.

Lemma round53_fits_iff (n : Z) :
  0 <= n -> (round53 n <? 2 ^ 1034) = (n <? 2 ^ 1034 - 2 ^ 980).
Proof.
  intros Hn.
  destruct (Z_lt_le_dec n (2 ^ 53)) as [Hs|Hb].
  - rewrite round53_small by lia.
    assert (2 ^ 53 < 2 ^ 1034 - 2 ^ 980) by (vm_compute; reflexivity).
    destruct (Z.ltb_spec n (2 ^ 1034)); destruct (Z.ltb_spec n (2 ^ 1034 - 2 ^ 980)); lia.
  - destruct n as [|p|p]; try lia.
    pose proof (digits2_pos_gt p 53 ltac:(lia) Hb) as Hd.
    rewrite round53_big by assumption.
    pose proof (digits2_pos_bounds p) as [Blo Bhi].
    set (d := Zpos (digits2_pos p)) in *.
    set (B := 2 ^ (d - 53)).
    assert (0 < B) as HB by (apply Z.pow_pos_nonneg; lia).
    assert (2 ^ d = 2 ^ 53 * B) as Ed.
    { unfold B. rewrite <- Z.pow_add_r by lia. f_equal. lia. }
    assert (2 ^ (d - 1) = 2 ^ 52 * B) as Ed1.
    { unfold B. rewrite <- Z.pow_add_r by lia. f_equal. lia. }
    pose proof (round_half_even_bounds (Zpos p) B) as [Rlo Rhi].
    assert (2 ^ 52 <= Zpos p / B) as Qlo by (apply Z.div_le_lower_bound; lia).
    assert (Zpos p / B < 2 ^ 53) as Qhi by (apply Z.div_lt_upper_bound; lia).
    destruct (Z_lt_le_dec d 1034) as [D1|D1]; [|destruct (Z_lt_le_dec 1034 d) as [D2|D2]].
    + (* at most 1033 bits: both hold *)
      assert (2 ^ d <= 2 ^ 1033) by (apply Z.pow_le_mono_r; lia).
      assert (2 ^ 1033 < 2 ^ 1034 - 2 ^ 980) by (vm_compute; reflexivity).
      assert (round_half_even (Zpos p) B * B <= 2 ^ 53 * B)
        by (apply Z.mul_le_mono_nonneg_r; lia).
      destruct (Z.ltb_spec (round_half_even (Zpos p) B * B) (2 ^ 1034));
      destruct (Z.ltb_spec (Zpos p) (2 ^ 1034 - 2 ^ 980)); lia.
    + (* at least 1035 bits: both fail *)
      assert (2 ^ 1034 <= 2 ^ (d - 1)) by (apply Z.pow_le_mono_r; lia).
      assert (0 < 2 ^ 980) by (vm_compute; reflexivity).
      assert (2 ^ 52 * B <= round_half_even (Zpos p) B * B)
        by (apply Z.mul_le_mono_nonneg_r; lia).
      destruct (Z.ltb_spec (round_half_even (Zpos p) B * B) (2 ^ 1034));
      destruct (Z.ltb_spec (Zpos p) (2 ^ 1034 - 2 ^ 980)); lia.
    + (* exactly 1034 bits *)
      assert (d = 1034) as Dd by lia.
      assert (B = 2 ^ 981) as EB by (unfold B; rewrite Dd; reflexivity).
      clearbody B. subst B.
      pose proof (Z.div_mod (Zpos p) (2 ^ 981) ltac:(lia)) as Edm.
      pose proof (Z.mod_pos_bound (Zpos p) (2 ^ 981) ltac:(lia)) as Bm.
      unfold round_half_even in *.
      set (q := Zpos p / 2 ^ 981) in *. set (r := Zpos p mod 2 ^ 981) in *.
      assert (2 ^ 1034 = 2 ^ 53 * 2 ^ 981) as E1 by reflexivity.
      assert (2 ^ 981 = 2 * 2 ^ 980) as E2 by reflexivity.
      assert (0 < 2 ^ 980) as P980 by (vm_compute; reflexivity).
      destruct (Z.compare_spec (2 * r) (2 ^ 981)) as [C|C|C].
      * destruct (Z.even q) eqn:Ev.
        -- apply Z.even_spec in Ev. destruct Ev as [h Eh].
           destruct (Z.ltb_spec (q * 2 ^ 981) (2 ^ 1034));
           destruct (Z.ltb_spec (Zpos p) (2 ^ 1034 - 2 ^ 980)); try reflexivity; exfalso.
           ++ assert (q <= 2 ^ 53 - 2) by (change (2 ^ 53) with 9007199254740992 in *; lia).
              assert (q * 2 ^ 981 <= (2 ^ 53 - 2) * 2 ^ 981) by (apply Z.mul_le_mono_nonneg_r; lia).
              lia.
           ++ assert (q * 2 ^ 981 < 2 ^ 53 * 2 ^ 981) by (apply Z.mul_lt_mono_pos_r; lia).
              lia.
        -- destruct (Z.ltb_spec ((q + 1) * 2 ^ 981) (2 ^ 1034));
           destruct (Z.ltb_spec (Zpos p) (2 ^ 1034 - 2 ^ 980)); try reflexivity; exfalso.
           ++ assert ((q + 1) < 2 ^ 53) by (apply Z.mul_lt_mono_pos_r with (2 ^ 981); lia).
              assert (q * 2 ^ 981 <= (2 ^ 53 - 2) * 2 ^ 981) by (apply Z.mul_le_mono_nonneg_r; lia).
              lia.
           ++ assert (2 ^ 53 <= q + 1).
              { destruct (Z_lt_le_dec (q + 1) (2 ^ 53)) as [L|L]; [|assumption]. exfalso.
                assert ((q + 1) * 2 ^ 981 < 2 ^ 53 * 2 ^ 981) by (apply Z.mul_lt_mono_pos_r; lia). lia. }
              assert (q = 2 ^ 53 - 1) by lia.
              assert (q * 2 ^ 981 = (2 ^ 53 - 1) * 2 ^ 981) by (f_equal; assumption).
              lia.
      * destruct (Z.ltb_spec (q * 2 ^ 981) (2 ^ 1034));
        destruct (Z.ltb_spec (Zpos p) (2 ^ 1034 - 2 ^ 980)); try reflexivity; exfalso.
        -- assert (q * 2 ^ 981 <= (2 ^ 53 - 1) * 2 ^ 981) by (apply Z.mul_le_mono_nonneg_r; lia).
           lia.
        -- assert (q * 2 ^ 981 < 2 ^ 53 * 2 ^ 981) by (apply Z.mul_lt_mono_pos_r; lia).
           lia.
      * destruct (Z.ltb_spec ((q + 1) * 2 ^ 981) (2 ^ 1034));
        destruct (Z.ltb_spec (Zpos p) (2 ^ 1034 - 2 ^ 980)); try reflexivity; exfalso.
        -- assert ((q + 1) < 2 ^ 53) by (apply Z.mul_lt_mono_pos_r with (2 ^ 981); lia).
           assert (q * 2 ^ 981 <= (2 ^ 53 - 2) * 2 ^ 981) by (apply Z.mul_le_mono_nonneg_r; lia).
           lia.
        -- assert (2 ^ 53 <= q + 1).
           { destruct (Z_lt_le_dec (q + 1) (2 ^ 53)) as [L|L]; [|assumption]. exfalso.
             assert ((q + 1) * 2 ^ 981 < 2 ^ 53 * 2 ^ 981) by (apply Z.mul_lt_mono_pos_r; lia). lia. }
           assert (q = 2 ^ 53 - 1) by lia.
           assert (q * 2 ^ 981 = (2 ^ 53 - 1) * 2 ^ 981) by (f_equal; assumption).
           lia.
Qed.

(** The formatter on every non-negative int, by the size of the int. *)
Lemma format_bytes_int_threshold (self : SystemMonitor) (n : Z) :
  0 <= n ->
  _format_bytes self (VInt n) =
  if n <? 2 ^ 1034 - 2 ^ 980 then Ok (spec_format (round53 n))
  else Raise OverflowError.
Proof.
  intros Hn. rewrite format_bytes_int by assumption.
  rewrite round53_fits_iff by assumption. reflexivity.
Qed.

Lemma in_range_fits (n : Z) :
  in_range n = true -> 0 <= n /\ n < 2 ^ 1034 - 2 ^ 980.
Proof.
  unfold in_range. intros H. apply andb_prop in H. destruct H as [H1 H2].
  apply Z.leb_le in H1. apply Z.ltb_lt in H2. split; assumption.
Qed.

(** On a byte count in range the formatter returns. *)
Lemma format_bytes_in_range (self : SystemMonitor) (n : Z) :
  in_range n = true ->
  _format_bytes self (VInt n) = Ok (spec_format (round53 n)).
Proof.
  intros H. destruct (in_range_fits n H) as [H0 H1].
  rewrite format_bytes_int_threshold by assumption.
  destruct (Z.ltb_spec n (2 ^ 1034 - 2 ^ 980)); [reflexivity|lia].
Qed.

(** The walk of the contract in closed form: [k] divisions, [k] the
    least count that brings the value under 1024, at most five. *)
Lemma spec_format_closed (n : Z) :
  exists k : nat,
    (k <= 5)%nat /\
    spec_format n =
      dec2 (round_half_even (100 * n) (1024 ^ Z.of_nat k)) ++ " " ++ unit_name k /\
    ((k < 5)%nat -> n < 1024 ^ (Z.of_nat k + 1)) /\
    ((0 < k)%nat -> 1024 ^ Z.of_nat k <= n).
Proof.
  unfold spec_format, spec_render, units. cbn [spec_escalate].
  change (1024 * (1024 * (1024 * (1024 * (1024 * 1))))) with (1024 ^ 5).
  change (1024 * (1024 * (1024 * (1024 * 1)))) with (1024 ^ 4).
  change (1024 * (1024 * (1024 * 1))) with (1024 ^ 3).
  change (1024 * (1024 * 1)) with (1024 ^ 2).
  change (1024 * 1) with (1024 ^ 1).
  destruct (Z.ltb_spec n (1024 ^ 1)) as [H1|H1].
  { exists 0%nat. split; [lia|]. split; [reflexivity|].
    split; [intros _; exact H1 | intros H; inversion H]. }
  destruct (Z.ltb_spec n (1024 ^ 2)) as [H2|H2].
  { exists 1%nat. split; [lia|]. split; [reflexivity|].
    split; [intros _; exact H2 | intros _; exact H1]. }
  destruct (Z.ltb_spec n (1024 ^ 3)) as [H3|H3].
  { exists 2%nat. split; [lia|]. split; [reflexivity|].
    split; [intros _; exact H3 | intros _; exact H2]. }
  destruct (Z.ltb_spec n (1024 ^ 4)) as [H4|H4].
  { exists 3%nat. split; [lia|]. split; [reflexivity|].
    split; [intros _; exact H4 | intros _; exact H3]. }
  destruct (Z.ltb_spec n (1024 ^ 5)) as [H5|H5].
  { exists 4%nat. split; [lia|]. split; [reflexivity|].
    split; [intros _; exact H5 | intros _; exact H4]. }
  exists 5%nat. split; [lia|]. split; [reflexivity|].
  split; [intros H; exfalso; lia | intros _; exact H5].
Qed.

Lemma string_of_Z_nonempty (n : Z) : (1 <= String.length (string_of_Z n))%nat.
Proof.
  unfold string_of_Z, NilZero.string_of_uint.
  destruct (N.to_uint (Z.to_N n)); cbn; lia.
Qed.

Lemma length_append (a b : string) :
  String.length (a ++ b) = (String.length a + String.length b)%nat.
Proof. induction a as [|c a IH]; cbn; [reflexivity | rewrite IH; reflexivity]. Qed.

Lemma two_digits_length (v : Z) :
  0 <= v < 100 -> String.length (two_digits v) = 2%nat.
Proof.
  intros Hv.
  assert (H : forallb (fun i => Nat.eqb (String.length (two_digits (Z.of_nat i))) 2)
                (seq 0 100) = true) by (vm_compute; reflexivity).
  rewrite forallb_forall in H.
  specialize (H (Z.to_nat v)).
  rewrite Z2Nat.id in H by lia.
  apply Nat.eqb_eq. apply H. apply in_seq. lia.
Qed.

(** A rendering has an integer part, a point and exactly two decimals. *)
Lemma dec2_shape (x : Z) :
  0 <= x ->
  exists ip fr, dec2 x = ip ++ "." ++ fr /\
                (1 <= String.length ip)%nat /\ String.length fr = 2%nat.
Proof.
  intros Hx. unfold dec2.
  exists (string_of_Z (x / 100)), (two_digits (x mod 100)).
  split; [reflexivity|]. split; [apply string_of_Z_nonempty|].
  apply two_digits_length. apply Z.mod_pos_bound. lia.
Qed.

Lemma round_half_even_nonneg (a b : Z) : 0 <= a -> 0 < b -> 0 <= round_half_even a b.
Proof.
  intros Ha Hb. pose proof (round_half_even_bounds a b) as [H _].
  assert (0 <= a / b) by (apply Z.div_pos; lia). lia.
Qed.

(** No rendering is the string that stands for "not a number". *)
Lemma spec_format_not_NA (n : Z) : spec_format n <> "N/A".
Proof.
  destruct (spec_format_closed n) as [k [_ [E _]]]. rewrite E. clear E.
  intros H. apply (f_equal String.length) in H.
  unfold dec2 in H. rewrite !length_append in H. cbn [String.length] in H.
  pose proof (string_of_Z_nonempty (round_half_even (100 * n) (1024 ^ Z.of_nat k) / 100)).
  assert (1 <= String.length (two_digits (round_half_even (100 * n) (1024 ^ Z.of_nat k) mod 100)))%nat.
  { unfold two_digits. destruct (_ <? 10).
    - rewrite length_append. cbn. lia.
    - apply string_of_Z_nonempty. }
  assert (1 <= String.length (unit_name k))%nat.
  { destruct k as [|[|[|[|[|[|k]]]]]]; cbn; lia. }
  lia.
Qed.

(** * The formatter: its contract *)

Lemma append_assoc (a b c : string) : (a ++ b) ++ c = a ++ b ++ c.
Proof. induction a as [|x a IH]; cbn; [reflexivity | rewrite IH; reflexivity]. Qed.

Lemma valid_binary_cases (s : bool) (m : positive) (e : Z) :
  valid_binary prec emax (S754_finite s m e) = true ->
  -1074 <= e <= 971 /\
  (Zpos (digits2_pos m) = 53 \/ (e = -1074 /\ Zpos (digits2_pos m) < 53)).
Proof.
  cbn [valid_binary]. unfold bounded, canonical_mantissa, fexp, emin, prec, emax.
  intros H. apply andb_prop in H. destruct H as [H1 H2].
  apply Z.eqb_eq in H1. apply Z.leb_le in H2. lia.
Qed.

Lemma rep_self (m : positive) (e : Z) :
  rep m e (Zpos m * 2 ^ Z.max e 0) (2 ^ Z.max (- e) 0).
Proof. unfold rep. ring. Qed.

(** The loop on any valid positive float is exact. *)
Lemma format_loop_valid_float (us : list string) (m : positive) (e num den : Z) :
  valid_binary prec emax (S754_finite false m e) = true ->
  rep m e num den -> 0 < den ->
  format_loop us (NFloat (S754_finite false m e)) = Ok (spec_render us num den).
Proof.
  intros Hv Hrep Hden.
  destruct (valid_binary_cases _ _ _ Hv) as [He [Hd | [Hsub Hd]]].
  - apply format_loop_float; assumption || lia.
  - assert (num < 1024 * den) as Hlt.
    { destruct (Z_lt_le_dec num (1024 * den)) as [|Hge]; [assumption|exfalso].
      pose proof (digits2_pos_le m 53 ltac:(lia)) as Hle.
      assert (Zpos m < 2 ^ 53) as Hm.
      { pose proof (digits2_pos_bounds m) as [_ B].
        apply Z.lt_le_trans with (2 ^ Zpos (digits2_pos m)); [assumption|].
        apply Z.pow_le_mono_r; lia. }
      pose proof (rep_ge_1024_exponent m e num den Hrep Hden Hge Hm). lia. }
    destruct us as [|unit rest].
    + cbn [format_loop fixed2 fixed2_float bind sign_str].
      unfold spec_render. cbn [spec_escalate].
      rewrite (scaled_round_rep m e num den) by assumption. reflexivity.
    + cbn [format_loop]. rewrite (num_lt_1024_rep m e num den) by assumption.
      unfold spec_render. cbn [spec_escalate].
      destruct (Z.ltb_spec num (1024 * den)); [|lia].
      cbn [fixed2 fixed2_float bind sign_str].
      rewrite (scaled_round_rep m e num den) by assumption. reflexivity.
Qed.

(** The formatter on a positive float: the contract applied to its exact
    value, without any rounding before the two decimals. *)
Lemma format_bytes_float (self : SystemMonitor) (m : positive) (e : Z) :
  valid_binary prec emax (S754_finite false m e) = true ->
  _format_bytes self (VFloat (S754_finite false m e)) =
  Ok (spec_render units (Zpos m * 2 ^ Z.max e 0) (2 ^ Z.max (- e) 0)).
Proof.
  intros Hv. unfold _format_bytes. cbn [as_num].
  apply format_loop_valid_float; [assumption | apply rep_self |].
  apply Z.pow_pos_nonneg; lia.
Qed.

(** C4 (amended).  For every non-negative int byte count [n] below
    [2^1034 - 2^980] the formatter returns ["<value> <unit>"]: the unit is
    the [k]-th of B, KB, MB, GB, TB, PB, where [k <= 5] is the number of
    divisions by 1024 made while the value is at least 1024 (so never
    past PB); the value is [n / 1024^k], with [n] first rounded to 53
    significant bits when [2^53 <= n], rendered with exactly two decimal
    places (half to even).  From [2^1034 - 2^980] on, the first division
    of the int raises [OverflowError].  A positive float is scaled and
    rendered exactly.  [format(0) = "0.00 B"], [format(1024) = "1.00 KB"],
    [format(1536) = "1.50 KB"], [format(1024**4) = "1.00 TB"]. *)
Theorem format_bytes_contract (self : SystemMonitor) :
  (forall n : Z, 0 <= n -> n < 2 ^ 1034 - 2 ^ 980 ->
     exists (k : nat) (ip fr : string),
       (k <= 5)%nat /\
       ((k < 5)%nat -> n < 1024 ^ (Z.of_nat k + 1)) /\
       ((0 < k)%nat -> 1024 ^ Z.of_nat k <= n) /\
       _format_bytes self (VInt n) = Ok (ip ++ "." ++ fr ++ " " ++ unit_name k) /\
       (1 <= String.length ip)%nat /\ String.length fr = 2%nat /\
       ip ++ "." ++ fr =
         dec2 (round_half_even (100 * round53 n) (1024 ^ Z.of_nat k)) /\
       (n < 2 ^ 53 -> round53 n = n) /\
       _format_bytes self (VInt n) = Ok (spec_format (round53 n))) /\
  (forall n : Z, 2 ^ 1034 - 2 ^ 980 <= n ->
     _format_bytes self (VInt n) = Raise OverflowError) /\
  (forall (m : positive) (e : Z),
     valid_binary prec emax (S754_finite false m e) = true ->
     _format_bytes self (VFloat (S754_finite false m e)) =
     Ok (spec_render units (Zpos m * 2 ^ Z.max e 0) (2 ^ Z.max (- e) 0))) /\
  _format_bytes self (VInt 0) = Ok "0.00 B" /\
  _format_bytes self (VInt 1024) = Ok "1.00 KB" /\
  _format_bytes self (VInt 1536) = Ok "1.50 KB" /\
  _format_bytes self (VInt (1024 ^ 4)) = Ok "1.00 TB".
Proof.
  split;
    [|split; [|split; [intros m e; apply format_bytes_float
                      | repeat split; reflexivity]]].
  2:{ intros n Hn.
      assert (0 <= n) as Hlo.
      { apply Z.le_trans with (2 ^ 1034 - 2 ^ 980); [|exact Hn].
        vm_compute. discriminate. }
      rewrite format_bytes_int_threshold by exact Hlo.
      destruct (Z.ltb_spec n (2 ^ 1034 - 2 ^ 980)); [lia | reflexivity]. }
  intros n Hlo Hhi.
  pose proof (format_bytes_int_threshold self n Hlo) as F.
  destruct (Z.ltb_spec n (2 ^ 1034 - 2 ^ 980)); [|lia].
  destruct (spec_format_closed (round53 n)) as [k [Hk [E [Hlt Hge]]]].
  assert (0 <= round_half_even (100 * round53 n) (1024 ^ Z.of_nat k)) as Hnn.
  { apply round_half_even_nonneg.
    - destruct (Z_lt_le_dec n (2 ^ 53)).
      + rewrite round53_small by lia. lia.
      + destruct n as [|p|p]; try lia.
        destruct (div_1024_int_big p ltac:(assumption)) as [Hr _]. lia.
    - apply Z.pow_pos_nonneg; lia. }
  destruct (dec2_shape _ Hnn) as [ip [fr [Ed [Hip Hfr]]]].
  exists k, ip, fr.
  assert (Hsmall : n < 2 ^ 53 -> round53 n = n) by (intros; apply round53_small; lia).
  assert (Hbig : 2 ^ 53 <= n -> 2 ^ 53 <= round53 n).
  { intros Hb. destruct n as [|p|p]; try lia.
    destruct (div_1024_int_big p Hb) as [Hr _]. exact Hr. }
  split; [exact Hk|].
  split.
  { intros Hk5. specialize (Hlt Hk5).
    destruct (Z_lt_le_dec n (2 ^ 53)) as [Hs|Hb]; [rewrite Hsmall in Hlt by assumption; exact Hlt|].
    exfalso. specialize (Hbig Hb).
    assert (1024 ^ (Z.of_nat k + 1) <= 1024 ^ 5) by (apply Z.pow_le_mono_r; lia).
    change (1024 ^ 5) with (2 ^ 50) in *.
    assert (2 ^ 50 < 2 ^ 53) by reflexivity. lia. }
  split.
  { intros Hk0. specialize (Hge Hk0).
    destruct (Z_lt_le_dec n (2 ^ 53)) as [Hs|Hb]; [rewrite Hsmall in Hge by assumption; exact Hge|].
    assert (1024 ^ Z.of_nat k <= 1024 ^ 5) by (apply Z.pow_le_mono_r; lia).
    change (1024 ^ 5) with (2 ^ 50) in *.
    assert (2 ^ 50 < 2 ^ 53) by reflexivity. lia. }
  split.
  { rewrite F, E, Ed. rewrite !append_assoc. reflexivity. }
  split; [exact Hip|]. split; [exact Hfr|].
  split; [symmetry; exact Ed|].
  split; [exact Hsmall | exact F].
Qed.

Lemma format_bytes_contract_witness :
  0 <= 123456789 /\ 123456789 < 2 ^ 1034 - 2 ^ 980 /\
  _format_bytes system_monitor (VInt 123456789) = Ok "117.74 MB".
Proof.
  split; [lia|]. split; [vm_compute; reflexivity|].
  destruct (proj1 (format_bytes_contract system_monitor) 123456789)
    as [k [ip [fr [_ [_ [_ [_ [_ [_ [_ [_ F]]]]]]]]]]].
  - lia.
  - vm_compute. reflexivity.
  - rewrite F. vm_compute. reflexivity.
Defined.

Lemma format_bytes_overflow_counterexample :
  0 <= 2 ^ 1034 /\
  _format_bytes system_monitor (VInt (2 ^ 1034)) = Raise OverflowError /\
  _format_bytes system_monitor (VFloat (S754_infinity false)) = Ok "inf PB".
Proof. split; [lia|]. split; vm_compute; reflexivity. Qed.

(** * The disk collector *)

Lemma dict_get_app_none (k : string) (pre d : list (string * pyval)) :
  dict_get k pre = None -> dict_get k (pre ++ d)%list = dict_get k d.
Proof.
  induction pre as [|[k' v] pre IH]; cbn [dict_get app]; [reflexivity|].
  destruct (String.eqb k k'); [discriminate | exact IH].
Qed.

Lemma usage_fields_in_range (self : SystemMonitor) (u : sdiskusage) :
  usage_in_range u = true ->
  exists fields,
    usage_fields self u = Ok fields /\
    forall pre, dict_get "total" pre = None -> dict_get "used" pre = None ->
      dict_get "free" pre = None -> dict_get "percent" pre = None ->
      dict_get "total_formatted" pre = None ->
      dict_get "used_formatted" pre = None ->
      dict_get "free_formatted" pre = None ->
      usage_emitted self u (VDict (pre ++ fields)%list).
Proof.
  unfold usage_in_range. intros H.
  apply andb_prop in H. destruct H as [H Hfree].
  apply andb_prop in H. destruct H as [Htotal Hused].
  pose proof (format_bytes_in_range self _ Htotal) as Ft.
  pose proof (format_bytes_in_range self _ Hused) as Fu.
  pose proof (format_bytes_in_range self _ Hfree) as Ff.
  unfold usage_fields. rewrite Ft, Fu, Ff. cbn [bind].
  eexists. split; [reflexivity|].
  intros pre P1 P2 P3 P4 P5 P6 P7.
  unfold usage_emitted, field, formatted.
  rewrite !dict_get_app_none by assumption.
  repeat split; try reflexivity; eexists; (split; [eassumption | reflexivity]).
Qed.

Lemma partition_entry_accessible (self : SystemMonitor) (w : World)
    (p : sdiskpart) (u : sdiskusage) :
  disk_usage w (mountpoint p) = Ok u -> usage_in_range u = true ->
  exists entry, partition_entry self w p = Ok entry /\
                partition_emitted self w p entry.
Proof.
  intros Hu Hr. unfold partition_entry. rewrite Hu. cbn [bind].
  destruct (usage_fields_in_range self u Hr) as [fields [Hf Hem]].
  rewrite Hf. cbn [bind]. eexists. split; [reflexivity|].
  exists u. split; [exact Hu|].
  split; [reflexivity|]. split; [reflexivity|]. split; [reflexivity|].
  apply Hem; reflexivity.
Qed.

(** The partition loop appends the records of the accessible partitions,
    in order, and skips the others. *)
Lemma partition_loop_spec (self : SystemMonitor) (w : World)
    (todo : list sdiskpart) :
  forallb (partition_expected w) todo = true ->
  forall partitions, exists entries,
    partition_loop self w todo partitions = Ok (partitions ++ entries)%list /\
    Forall2 (partition_emitted self w) (filter (accessible w) todo) entries.
Proof.
  induction todo as [|p rest IH]; intros Hexp partitions.
  - exists []. cbn. rewrite app_nil_r. split; [reflexivity | constructor].
  - cbn [forallb] in Hexp. apply andb_prop in Hexp. destruct Hexp as [Hp Hrest].
    cbn [partition_loop filter]. unfold partition_expected in Hp. unfold accessible at 1.
    destruct (disk_usage w (mountpoint p)) as [u|e] eqn:Hu.
    + destruct (partition_entry_accessible self w p u Hu Hp) as [entry [He Hem]].
      rewrite He. cbn [bind try_except is_ok].
      destruct (IH Hrest (partitions ++ [entry])%list) as [entries [Hl Hf]].
      exists (entry :: entries). rewrite Hl, <- app_assoc. split; [reflexivity|].
      constructor; assumption.
    + unfold partition_entry. rewrite Hu. cbn [bind try_except is_ok].
      unfold access_error in Hp. rewrite Hp. cbn [bind].
      destruct (IH Hrest partitions) as [entries [Hl Hf]].
      exists entries. split; assumption.
Qed.

Lemma io_section_in_range (self : SystemMonitor) (o : option sdiskio) :
  io_in_range o = true ->
  exists io, io_section self o = Ok io /\
    match o with
    | None => io = io_unavailable
    | Some c =>
        io = VDict
          [ ("read_bytes", VInt (read_bytes c));
            ("write_bytes", VInt (write_bytes c));
            ("read_bytes_formatted",
              VStr (spec_format (round53 (read_bytes c))));
            ("write_bytes_formatted",
              VStr (spec_format (round53 (write_bytes c)))) ]
    end.
Proof.
  destruct o as [c|]; cbn [io_in_range io_section]; intros H.
  - apply andb_prop in H. destruct H as [Hr Hw].
    rewrite (format_bytes_in_range self _ Hr), (format_bytes_in_range self _ Hw).
    cbn [bind]. eexists. split; reflexivity.
  - eexists. split; reflexivity.
Qed.

(** The disk collector returns whenever the root query answers and every
    partition query answers or raises an access error. *)
Lemma get_disk_info_spec (self : SystemMonitor) (w : World)
    (root : sdiskusage) :
  disk_usage w "/" = Ok root -> usage_in_range root = true ->
  io_in_range (disk_io_counters w) = true ->
  forallb (partition_expected w) (disk_partitions w) = true ->
  exists main io entries,
    get_disk_info self w =
      Ok (VDict [ ("main_disk", VDict main); ("io", io);
                  ("partitions", VList entries) ]) /\
    usage_emitted self root (VDict main) /\
    io_section self (disk_io_counters w) = Ok io /\
    Forall2 (partition_emitted self w)
      (filter (accessible w) (disk_partitions w)) entries.
Proof.
  intros Hroot Hr Hio Hparts.
  destruct (partition_loop_spec self w _ Hparts []) as [entries [Hl Hf]].
  destruct (usage_fields_in_range self root Hr) as [main [Hm Hem]].
  destruct (io_section_in_range self _ Hio) as [io [Hi _]].
  exists main, io, entries.
  split; [|split; [apply (Hem []); reflexivity | split; assumption]].
  unfold get_disk_info. rewrite Hroot. cbn [bind]. rewrite Hl. cbn [bind app].
  rewrite Hm. cbn [bind]. rewrite Hi. reflexivity.
Qed.

Lemma filter_negb_length {A : Type} (f : A -> bool) (l : list A) :
  List.length (filter f l) =
  (List.length l - List.length (filter (fun x => negb (f x)) l))%nat.
Proof.
  induction l as [|x l IH]; cbn [filter List.length]; [reflexivity|].
  assert (List.length (filter (fun x => negb (f x)) l) <= List.length l)%nat
    by apply filter_length_le.
  destruct (f x); cbn [negb List.length]; lia.
Qed.

(** C1 (amended).  Let the usage query of the root path ["/"] answer (it
    is made outside the guarded loop and feeds [main_disk]).  Then for
    every list of [N] mounted partitions of which [M] raise a permission
    or access error on their usage query, [get_disk_info] returns, and
    its [partitions] sequence has exactly [N - M] entries: the records
    of the accessible partitions, in enumeration order, each with device,
    mountpoint, fstype, total, used, free, percent and the three
    formatted strings.  The capture then returns whenever the other five
    collectors do, with this disk section. *)
Theorem partition_isolation (self : SystemMonitor) (w : World)
    (root : sdiskusage) :
  disk_usage w "/" = Ok root -> usage_in_range root = true ->
  io_in_range (disk_io_counters w) = true ->
  forallb (partition_expected w) (disk_partitions w) = true ->
  let N := List.length (disk_partitions w) in
  let M := List.length
             (filter (fun p => negb (accessible w p)) (disk_partitions w)) in
  exists disk entries,
    get_disk_info self w = Ok disk /\
    field "partitions" disk = Some (VList entries) /\
    List.length entries = (N - M)%nat /\
    Forall2 (partition_emitted self w)
      (filter (accessible w) (disk_partitions w)) entries /\
    forall system cpu memory network processes,
      get_system_info self w = Ok system ->
      get_cpu_info self w = Ok cpu ->
      get_memory_info self w = Ok memory ->
      get_network_info self w = Ok network ->
      get_process_info self w default_top_n = Ok processes ->
      exists snapshot,
        get_all_info self w = Ok snapshot /\
        field "disk" snapshot = Some disk.
Proof.
  intros Hroot Hr Hio Hparts N M.
  destruct (get_disk_info_spec self w root Hroot Hr Hio Hparts)
    as [main [io [entries [Hd [_ [_ Hf]]]]]].
  eexists. exists entries.
  split; [exact Hd|]. split; [reflexivity|].
  split.
  - rewrite <- (Forall2_length Hf). apply filter_negb_length.
  - split; [exact Hf|].
    intros system cpu memory network processes Hs Hc Hm Hn Hp.
    unfold get_all_info. rewrite Hs, Hc, Hm, Hd, Hn, Hp. cbn [bind].
    eexists. split; reflexivity.
Qed.

Lemma partition_isolation_witness :
  exists disk entries,
    get_disk_info system_monitor Sample.world = Ok disk /\
    field "partitions" disk = Some (VList entries) /\
    List.length entries = (4 - 2)%nat.
Proof.
  destruct (partition_isolation system_monitor Sample.world
              (Sample.usage 500107862016 123456789012))
    as [disk [entries [Hd [Hf [Hl _]]]]].
  - reflexivity.
  - vm_compute. reflexivity.
  - vm_compute. reflexivity.
  - vm_compute. reflexivity.
  - exists disk, entries. split; [exact Hd|]. split; [exact Hf|]. exact Hl.
Defined.

(** With the root mount itself among the inaccessible partitions, the
    disk collector fails. *)
Lemma partition_isolation_counterexample :
  forallb (partition_expected Sample.world_root_denied)
    (disk_partitions Sample.world_root_denied) = true /\
  List.length (filter (fun p => negb (accessible Sample.world_root_denied p))
                 (disk_partitions Sample.world_root_denied)) = 3%nat /\
  List.length (disk_partitions Sample.world_root_denied) = 4%nat /\
  get_disk_info system_monitor Sample.world_root_denied =
    Raise PermissionError /\
  get_all_info system_monitor Sample.world_root_denied =
    Raise PermissionError.
Proof. repeat split; vm_compute; reflexivity. Qed.

(** C6 (amended).  When the platform exposes no cumulative disk I/O
    counters, [get_disk_info] still returns (given that its usage
    queries answer as in C1), and its [io] section is not a null value
    but the record [read_bytes = 0], [write_bytes = 0],
    [read_bytes_formatted = "N/A"], [write_bytes_formatted = "N/A"]: the
    two numbers equal a legitimate zero reading, and only the formatted
    strings tell the case apart, since no available counter is ever
    formatted as ["N/A"]. *)
Theorem io_section_unavailable (self : SystemMonitor) (w : World)
    (root : sdiskusage) :
  disk_io_counters w = None ->
  disk_usage w "/" = Ok root -> usage_in_range root = true ->
  forallb (partition_expected w) (disk_partitions w) = true ->
  (exists disk,
     get_disk_info self w = Ok disk /\
     field "io" disk = Some io_unavailable /\
     field "io" disk <> Some VNone) /\
  (forall c io, in_range (read_bytes c) = true ->
     in_range (write_bytes c) = true ->
     io_section self (Some c) = Ok io ->
     field "read_bytes_formatted" io <> Some (VStr "N/A") /\
     field "write_bytes_formatted" io <> Some (VStr "N/A")).
Proof.
  intros Hnone Hroot Hr Hparts. split.
  - destruct (get_disk_info_spec self w root Hroot Hr) as [main [io [entries [Hd [_ [Hi _]]]]]];
      [rewrite Hnone; reflexivity | assumption |].
    rewrite Hnone in Hi. cbn [io_section] in Hi. inversion Hi; subst io.
    eexists. split; [exact Hd|]. split; [reflexivity|].
    cbn. discriminate.
  - intros c io Hrb Hwb Hio.
    destruct (io_section_in_range self (Some c)) as [io' [Hi' E]].
    { cbn [io_in_range]. rewrite Hrb, Hwb. reflexivity. }
    rewrite Hio in Hi'. inversion Hi'; subst io'. subst io.
    cbn. split; intros H; inversion H as [H'];
      exact (spec_format_not_NA _ H').
Qed.

Lemma io_section_unavailable_witness :
  exists disk,
    get_disk_info system_monitor Sample.world_no_io = Ok disk /\
    field "io" disk = Some io_unavailable.
Proof.
  destruct (io_section_unavailable system_monitor Sample.world_no_io
              (Sample.usage 500107862016 123456789012))
    as [[disk [Hd [Hio _]]] _].
  - reflexivity.
  - reflexivity.
  - vm_compute. reflexivity.
  - vm_compute. reflexivity.
  - exists disk. split; assumption.
Defined.

(** Without counters the [io] section is a record with the number zero
    in it, not a null value. *)
Lemma io_section_counterexample :
  disk_io_counters Sample.world_no_io = None /\
  exists disk io,
    get_disk_info system_monitor Sample.world_no_io = Ok disk /\
    field "io" disk = Some io /\
    io <> VNone /\
    field "read_bytes" io = Some (VInt 0) /\
    field "write_bytes" io = Some (VInt 0).
Proof.
  split; [reflexivity|].
  eexists. eexists. split; [vm_compute; reflexivity|].
  split; [reflexivity|]. split; [discriminate|]. split; reflexivity.
Qed.

(** * The network collector *)

Lemma interface_entry_found (self : SystemMonitor) (w : World)
    (interface : string) (stats : snicstats)
    (d : list (string * snetio)) (io : snetio) :
  net_io_counters_pernic w interface = Ok d ->
  pernic_get interface d = Some io ->
  in_range (bytes_sent io) = true -> in_range (bytes_recv io) = true ->
  exists entry,
    interface_entry self w interface stats = Ok (Some entry) /\
    interface_emitted self w (interface, stats) entry.
Proof.
  intros Hd Hg Hs Hr. unfold interface_entry. rewrite Hd. cbn [bind]. rewrite Hg.
  pose proof (format_bytes_in_range self _ Hs) as Fs.
  pose proof (format_bytes_in_range self _ Hr) as Fr.
  rewrite Fs, Fr. cbn [bind]. eexists. split; [reflexivity|].
  exists io. unfold interface_counters. cbn [fst snd]. rewrite Hd.
  split; [exact Hg|].
  unfold formatted.
  repeat split; try reflexivity; eexists; (split; [eassumption | reflexivity]).
Qed.

(** The interface loop appends the records of the interfaces that are up
    and have counters, in order, and skips the others. *)
Lemma interface_loop_spec (self : SystemMonitor) (w : World)
    (todo : list (string * snicstats)) :
  forallb (lookup_expected w) todo = true ->
  forall interfaces, exists entries,
    interface_loop self w todo interfaces = Ok (interfaces ++ entries)%list /\
    Forall2 (interface_emitted self w) (filter (included w) todo) entries.
Proof.
  induction todo as [|[interface stats] rest IH]; intros Hexp interfaces.
  - exists []. cbn. rewrite app_nil_r. split; [reflexivity | constructor].
  - cbn [forallb] in Hexp. apply andb_prop in Hexp. destruct Hexp as [Hp Hrest].
    cbn [interface_loop filter].
    unfold lookup_expected in Hp. unfold included at 1, interface_counters at 1.
    cbn [fst snd] in *.
    destruct (isup stats) eqn:Hup; cbn [negb orb andb] in *.
    + destruct (net_io_counters_pernic w interface) as [d|e] eqn:Hd.
      * destruct (pernic_get interface d) as [io|] eqn:Hg.
        -- apply andb_prop in Hp. destruct Hp as [Hs Hr].
           destruct (interface_entry_found self w interface stats d io Hd Hg Hs Hr)
             as [entry [He Hem]].
           rewrite He. cbn [bind try_except append_opt].
           destruct (IH Hrest (interfaces ++ [entry])%list) as [entries [Hl Hf]].
           exists (entry :: entries). rewrite Hl, <- app_assoc.
           split; [reflexivity|]. constructor; assumption.
        -- unfold interface_entry. rewrite Hd. cbn [bind]. rewrite Hg.
           cbn [bind try_except append_opt].
           destruct (IH Hrest interfaces) as [entries [Hl Hf]].
           exists entries. split; assumption.
      * unfold interface_entry. rewrite Hd. cbn [bind try_except].
        unfold lookup_errors in Hp. rewrite Hp. cbn [bind].
        destruct (IH Hrest interfaces) as [entries [Hl Hf]].
        exists entries. split; assumption.
    + cbn [bind].
      destruct (IH Hrest interfaces) as [entries [Hl Hf]].
      exists entries. split; assumption.
Qed.

(** C7.  The [interfaces] sequence of [get_network_info] holds exactly
    the interfaces that are up and whose per-interface counters are
    present, in enumeration order, each with name, link speed, MTU and
    its cumulative byte counters; an interface that is down, or whose
    counters are absent, or whose lookup fails (with the lookup errors
    the loop guards against), is omitted, and the collector returns. *)
Theorem interface_filtering (self : SystemMonitor) (w : World)
    (total : snetio) :
  net_io_counters w = Some total ->
  in_range (bytes_sent total) = true -> in_range (bytes_recv total) = true ->
  forallb (lookup_expected w) (net_if_stats w) = true ->
  exists network entries,
    get_network_info self w = Ok network /\
    field "interfaces" network = Some (VList entries) /\
    Forall2 (interface_emitted self w)
      (filter (included w) (net_if_stats w)) entries /\
    List.length entries =
      List.length (filter (included w) (net_if_stats w)).
Proof.
  intros Ht Hs Hr Hexp.
  destruct (interface_loop_spec self w _ Hexp []) as [entries [Hl Hf]].
  unfold get_network_info. rewrite Hl, Ht. cbn [bind app].
  rewrite (format_bytes_in_range self _ Hs), (format_bytes_in_range self _ Hr).
  cbn [bind]. eexists. exists entries.
  split; [reflexivity|]. split; [reflexivity|]. split; [exact Hf|].
  symmetry. exact (Forall2_length Hf).
Qed.

Lemma interface_filtering_witness :
  exists network entries,
    get_network_info system_monitor Sample.world = Ok network /\
    field "interfaces" network = Some (VList entries) /\
    List.length entries = 2%nat.
Proof.
  destruct (interface_filtering system_monitor Sample.world
              (Sample.netio 1073745920 5368713216))
    as [network [entries [Hn [Hf [_ Hl]]]]].
  - reflexivity.
  - vm_compute. reflexivity.
  - vm_compute. reflexivity.
  - vm_compute. reflexivity.
  - exists network, entries. split; [exact Hn|]. split; [exact Hf|]. exact Hl.
Defined.

(** * Order of Python numbers, and the sort *)





Lemma In_firstn {A : Type} (x : A) (n : nat) (l : list A) :
  In x (firstn n l) -> In x l.
Proof.
  revert l. induction n as [|n IH]; intros [|y l]; cbn; try tauto.
  intros [->|H]; [left; reflexivity | right; apply IH; exact H].
Qed.



Section SortFacts.
Context {A : Type}.
Variable key : A -> num.

Lemma insert_desc_perm (x : A) (l : list A) :
  Permutation (insert_desc key x l) (x :: l).
Proof.
  induction l as [|y l IH]; cbn [insert_desc]; [reflexivity|].
  destruct (num_lt (key x) (key y)); [|reflexivity].
  rewrite IH. apply perm_swap.
Qed.

Lemma sorted_reverse_perm (l : list A) :
  Permutation (sorted_reverse key l) l.
Proof.
  induction l as [|x l IH]; cbn; [reflexivity|].
  fold (sorted_reverse key l).
  rewrite insert_desc_perm. constructor. exact IH.
Qed.





End SortFacts.

(** * The process collector *)

Lemma process_entry_emitted (self : SystemMonitor) (w : World)
    (p : Process) (entry : pyval) :
  process_entry self w p = Ok entry -> process_emitted self w p entry.
Proof.
  unfold process_entry. fold (create_time_str w p).
  destruct (create_time_str w p) as [ct|e] eqn:Hct; cbn [bind]; [|discriminate].
  destruct (memory_info p) as [m|e] eqn:Hm; cbn [bind]; [|discriminate].
  destruct (_format_bytes self (VInt (rss m))) as [s|e] eqn:Hs; cbn [bind];
    [|discriminate].
  intros H. inversion H; subst entry. unfold process_emitted, formatted.
  repeat split; try reflexivity.
  - exists m, s. repeat split; assumption || reflexivity.
  - exists ct. split; [exact Hct | reflexivity].
Qed.

(** Whatever the platform answers, the process loop either returns the
    records of the processes whose [try] body completed, in order, or
    raises an exception that is none of the three tolerated ones. *)
Lemma process_loop_spec (self : SystemMonitor) (w : World)
    (todo : list Process) :
  forall processes,
    match process_loop self w todo processes with
    | Ok l =>
        exists entries,
          l = (processes ++ entries)%list /\
          Forall2 (process_emitted self w)
            (filter (entry_completes self w) todo) entries
    | Raise e => caught_by process_errors e = false
    end.
Proof.
  induction todo as [|p rest IH]; intros processes.
  - cbn. exists []. rewrite app_nil_r. split; [reflexivity | constructor].
  - cbn [process_loop filter]. unfold entry_completes at 1.
    destruct (process_entry self w p) as [entry|e] eqn:He;
      cbn [bind try_except is_ok].
    + specialize (IH (processes ++ [entry])%list).
      destruct (process_loop self w rest (processes ++ [entry])%list) as [l|e'];
        [|exact IH].
      destruct IH as [entries [-> Hf]].
      exists (entry :: entries). rewrite <- app_assoc. split; [reflexivity|].
      constructor; [apply process_entry_emitted; exact He | exact Hf].
    + fold process_errors.
      destruct (caught_by process_errors e) eqn:Hc; cbn [bind].
      * apply IH.
      * exact Hc.
Qed.

(** Under the expected answers, the [try] body completes exactly for the
    processes whose detail read does not fail. *)
Lemma entry_completes_expected (self : SystemMonitor) (w : World)
    (p : Process) :
  process_expected w p = true ->
  entry_completes self w p = negb (detail_read_fails p) /\
  match process_entry self w p with
  | Ok _ => True
  | Raise e => caught_by process_errors e = true
  end.
Proof.
  unfold process_expected, entry_completes, detail_read_fails, process_entry.
  fold (create_time_str w p).
  intros H. apply andb_prop in H. destruct H as [Hct Hm].
  destruct (create_time_str w p) as [ct|e]; [|discriminate]. cbn [bind].
  destruct (memory_info p) as [m|e]; cbn [bind].
  - rewrite (format_bytes_in_range self _ Hm). cbn. auto.
  - rewrite Hm. cbn. auto.
Qed.

Lemma process_loop_expected (self : SystemMonitor) (w : World)
    (todo : list Process) :
  forallb (process_expected w) todo = true ->
  forall processes, exists entries,
    process_loop self w todo processes = Ok (processes ++ entries)%list /\
    Forall2 (process_emitted self w)
      (filter (fun p => negb (detail_read_fails p)) todo) entries.
Proof.
  induction todo as [|p rest IH]; intros Hexp processes.
  - exists []. cbn. rewrite app_nil_r. split; [reflexivity | constructor].
  - cbn [forallb] in Hexp. apply andb_prop in Hexp. destruct Hexp as [Hp Hrest].
    destruct (entry_completes_expected self w p Hp) as [Hc Hr].
    cbn [process_loop filter]. rewrite <- Hc. unfold entry_completes.
    destruct (process_entry self w p) as [entry|e] eqn:He;
      cbn [bind try_except is_ok].
    + destruct (IH Hrest (processes ++ [entry])%list) as [entries [Hl Hf]].
      exists (entry :: entries). rewrite Hl, <- app_assoc. split; [reflexivity|].
      constructor; [apply process_entry_emitted; exact He | exact Hf].
    + fold process_errors. rewrite Hr. cbn [bind].
      apply IH. exact Hrest.
Qed.

Lemma slice_to_nonneg {A : Type} (l : list A) (stop : Z) :
  0 <= stop -> slice_to l stop = firstn (Z.to_nat stop) l.
Proof.
  intros H. unfold slice_to. destruct (Z.leb_spec 0 stop); [reflexivity|lia].
Qed.

Lemma NoDup_map_inj {A B : Type} (f : A -> B) (l : list A) (x y : A) :
  NoDup (map f l) -> In x l -> In y l -> f x = f y -> x = y.
Proof.
  induction l as [|a l IH]; cbn [map]; intros Hnd Hx Hy E; [contradiction|].
  inversion Hnd as [|? ? Hnot Hnd']; subst.
  destruct Hx as [->|Hx], Hy as [->|Hy].
  - reflexivity.
  - exfalso. apply Hnot. rewrite E. apply in_map. exact Hy.
  - exfalso. apply Hnot. rewrite <- E. apply in_map. exact Hx.
  - apply IH; assumption.
Qed.

Lemma NoDup_firstn {A : Type} (n : nat) (l : list A) :
  NoDup l -> NoDup (firstn n l).
Proof.
  intros H. rewrite <- (firstn_skipn n l) in H.
  exact (NoDup_app_remove_r _ _ H).
Qed.

Lemma Forall2_In_r {A B : Type} (R : A -> B -> Prop) (l : list A)
    (l' : list B) (b : B) :
  Forall2 R l l' -> In b l' -> exists a, In a l /\ R a b.
Proof.
  induction 1 as [|a b' l l' Hab _ IH]; intros Hin; [contradiction|].
  destruct Hin as [->|Hin].
  - exists a. split; [left; reflexivity | exact Hab].
  - destruct (IH Hin) as [a' [Ha' Hr]]. exists a'. split; [right|]; assumption.
Qed.

(** The visited processes have distinct pids when the enumerated ones
    have. *)
Lemma selected_NoDup (w : World) (top_n : Z) :
  NoDup (map (fun p => pid (info p)) (process_iter w)) ->
  NoDup (map (fun p => pid (info p)) (selected w top_n)).
Proof.
  intros H. unfold selected, slice_to.
  assert (Hs : NoDup (map (fun p => pid (info p))
                        (sorted_reverse cpu_key (process_iter w)))).
  { apply (Permutation_NoDup (l := map (fun p => pid (info p)) (process_iter w)));
      [|exact H].
    apply Permutation_map. symmetry. apply sorted_reverse_perm. }
  destruct (0 <=? top_n); rewrite <- firstn_map; apply NoDup_firstn; exact Hs.
Qed.

Lemma In_selected (w : World) (top_n : Z) (p : Process) :
  In p (selected w top_n) -> In p (process_iter w).
Proof.
  unfold selected, slice_to. intros H.
  apply (Permutation_in p (sorted_reverse_perm cpu_key (process_iter w))).
  destruct (0 <=? top_n); apply In_firstn in H; exact H.
Qed.

(** A process whose detail read fails never completes the [try] body. *)
Lemma detail_read_fails_incomplete (self : SystemMonitor) (w : World)
    (p : Process) :
  detail_read_fails p = true -> entry_completes self w p = false.
Proof.
  unfold detail_read_fails, entry_completes, process_entry.
  destruct (memory_info p) as [m|e]; [discriminate|]. intros _.
  destruct (match create_time (info p) with
            | Some t => if float_truthy t then fromtimestamp_strftime w t
                        else Ok "Unknown"
            | None => Ok "Unknown"
            end); reflexivity.
Qed.

(** C2.  None of the three failure kinds no-such-process, access-denied
    and zombie ever propagates out of [get_process_info]; the collector
    returns the records of the visited processes whose detail read did
    not signal one of them, in order; and a process whose detail read
    signals one of them is absent from the result: no record bears its
    pid. *)
Theorem process_isolation (self : SystemMonitor) (w : World) (top_n : Z) :
  (forall e, get_process_info self w top_n = Raise e ->
     isinstance_exn e NoSuchProcess = false /\
     isinstance_exn e AccessDenied = false /\
     isinstance_exn e ZombieProcess = false) /\
  (forallb (process_expected w) (selected w top_n) = true ->
   exists entries,
     get_process_info self w top_n = Ok (VList entries) /\
     Forall2 (process_emitted self w)
       (filter (fun p => negb (detail_read_fails p)) (selected w top_n))
       entries) /\
  (NoDup (map (fun p => pid (info p)) (process_iter w)) ->
   forall p entries entry,
     In p (process_iter w) -> detail_read_fails p = true ->
     get_process_info self w top_n = Ok (VList entries) ->
     In entry entries ->
     field "pid" entry <> Some (VInt (pid (info p)))).
Proof.
  split; [|split].
  - intros e He. unfold get_process_info in He.
    pose proof (process_loop_spec self w (selected w top_n) []) as H.
    destruct (process_loop self w (selected w top_n) []) as [l|e'];
      cbn [bind] in He; [discriminate|].
    inversion He; subst e'.
    unfold caught_by, process_errors in H. cbn [existsb] in H.
    apply orb_false_iff in H. destruct H as [H1 H].
    apply orb_false_iff in H. destruct H as [H2 H].
    apply orb_false_iff in H. destruct H as [H3 _].
    auto.
  - intros Hexp. unfold get_process_info.
    destruct (process_loop_expected self w _ Hexp []) as [entries [Hl Hf]].
    rewrite Hl. cbn [bind app]. exists entries. split; [reflexivity | exact Hf].
  - intros Hnd p entries entry Hp Hfail Hg Hin Hpid.
    unfold get_process_info in Hg.
    pose proof (process_loop_spec self w (selected w top_n) []) as H.
    destruct (process_loop self w (selected w top_n) []) as [l|e];
      cbn [bind] in Hg; [|discriminate].
    inversion Hg; subst l. destruct H as [entries' [E Hf]].
    cbn [app] in E. subst entries'.
    destruct (Forall2_In_r _ _ _ _ Hf Hin) as [q [Hq Hem]].
    apply filter_In in Hq. destruct Hq as [Hq Hc].
    destruct Hem as [Hqpid _]. rewrite Hqpid in Hpid.
    inversion Hpid as [Heq].
    assert (q = p) as ->.
    { apply (NoDup_map_inj (fun p => pid (info p)) (process_iter w));
        [exact Hnd | exact (In_selected w top_n q Hq) | exact Hp | exact Heq]. }
    rewrite (detail_read_fails_incomplete self w p Hfail) in Hc. discriminate.
Qed.

Lemma process_isolation_witness :
  exists entries,
    get_process_info system_monitor Sample.world 10 = Ok (VList entries) /\
    List.length entries = 4%nat.
Proof.
  destruct (proj1 (proj2 (process_isolation system_monitor Sample.world 10)))
    as [entries [Hg Hf]].
  - vm_compute. reflexivity.
  - exists entries. split; [exact Hg|].
    rewrite <- (Forall2_length Hf). vm_compute. reflexivity.
Defined.


(** A negative [top_n] is a slice from the end: all but the last of the
    ranking are visited. *)
Lemma selected_negative_top_n :
  map (fun p => pid (info p)) (selected Sample.world (-1)) =
  [200; 42; 100; 300; 1].
Proof. vm_compute. reflexivity. Qed.


(** * Null readings, and the shape of a snapshot *)

(** C9 (amended).  In the ranking a null cpu_percent receives the sort
    key 0, the same key as a reading of 0.0; in the emitted record a
    null or zero memory_percent is the number 0 and any other is rounded
    to one decimal, so that field is never null.  The emitted
    cpu_percent field is the raw reading: a null reading is emitted as
    null. *)
Theorem null_to_zero (self : SystemMonitor) (w : World) (p : Process) :
  (opt_truthy (cpu_percent (info p)) = false -> cpu_key p = NInt 0) /\
  (forall entry, process_entry self w p = Ok entry ->
     field "cpu_percent" entry = Some (opt_float (cpu_percent (info p))) /\
     (opt_truthy (memory_percent (info p)) = false ->
        field "memory_percent" entry = Some (VInt 0)) /\
     (forall f, memory_percent (info p) = Some f -> float_truthy f = true ->
        field "memory_percent" entry = Some (VFloat (round1 f))) /\
     field "memory_percent" entry <> Some VNone).
Proof.
  split.
  - unfold opt_truthy, cpu_key.
    destruct (cpu_percent (info p)) as [f|]; [|reflexivity].
    intros ->. reflexivity.
  - intros entry He. apply process_entry_emitted in He.
    destruct He as [_ [_ [_ [Hc [Hm _]]]]].
    split; [exact Hc|]. rewrite Hm. unfold memory_percent_field, opt_truthy.
    split; [|split].
    + destruct (memory_percent (info p)) as [f|]; [|reflexivity].
      intros ->. reflexivity.
    + intros f -> ->. reflexivity.
    + destruct (memory_percent (info p)) as [f|]; [|discriminate].
      destruct (float_truthy f); discriminate.
Qed.

Lemma null_to_zero_witness :
  cpu_key (Sample.proc 77 None None (Ok {| rss := 4096 |})) = NInt 0 /\
  cpu_key (Sample.proc 1 (Some (S754_zero false)) None (Ok {| rss := 4096 |}))
    = NInt 0.
Proof.
  split.
  - apply (proj1 (null_to_zero system_monitor Sample.world
                    (Sample.proc 77 None None (Ok {| rss := 4096 |})))).
    reflexivity.
  - apply (proj1 (null_to_zero system_monitor Sample.world
                    (Sample.proc 1 (Some (S754_zero false)) None
                       (Ok {| rss := 4096 |})))).
    reflexivity.
Defined.

(** A process without a cpu reading is emitted with a null cpu_percent,
    next to one emitted with the reading 0.0. *)
Lemma null_to_zero_counterexample :
  exists entry zero,
    process_entry system_monitor Sample.world
      (Sample.proc 77 None None (Ok {| rss := 4096 |})) = Ok entry /\
    field "cpu_percent" entry = Some VNone /\
    process_entry system_monitor Sample.world
      (Sample.proc 1 (Some (S754_zero false)) (Some (S754_zero false))
         (Ok {| rss := 1048576 |})) = Ok zero /\
    field "cpu_percent" zero = Some (VFloat (S754_zero false)) /\
    field "cpu_percent" entry <> field "cpu_percent" zero.
Proof.
  eexists. eexists.
  split; [vm_compute; reflexivity|]. split; [reflexivity|].
  split; [vm_compute; reflexivity|]. split; [reflexivity|].
  cbn. discriminate.
Qed.

Lemma get_cpu_info_shape (self : SystemMonitor) (w : World) (cpu : pyval) :
  get_cpu_info self w = Ok cpu ->
  field "per_cpu" cpu = Some (VList (map VFloat (cpu_percent_percpu w))) /\
  field "cpu_count" cpu = Some (opt_int (cpu_count w)).
Proof.
  unfold get_cpu_info.
  destruct (cpu_freq w 0%nat); [destruct (cpu_freq w 1%nat)|]; cbn [bind];
    intros H; inversion H; subst; split; reflexivity.
Qed.

Lemma selected_default_length (w : World) :
  List.length (selected w default_top_n) =
  Nat.min (Z.to_nat default_top_n) (List.length (process_iter w)).
Proof.
  unfold selected. rewrite slice_to_nonneg by (unfold default_top_n; lia).
  rewrite length_firstn.
  rewrite (Permutation_length (sorted_reverse_perm cpu_key (process_iter w))).
  reflexivity.
Qed.

(** C5 (amended).  In the snapshot of a capture that returns, the
    [processes] sequence has at most [min(top_n, total_process_count)]
    entries, and exactly that many when the [try] body completes for
    every visited process; [cpu.per_cpu] has one entry per reading of the
    platform's per-core sample and [cpu.cpu_count] is the platform's core
    count (possibly null), so the two agree whenever the platform's two
    answers do. *)
Theorem snapshot_shape (self : SystemMonitor) (w : World)
    (snapshot : pyval) :
  get_all_info self w = Ok snapshot ->
  exists processes cpu per_cpu,
    field "processes" snapshot = Some (VList processes) /\
    (List.length processes <=
       Nat.min (Z.to_nat default_top_n) (List.length (process_iter w)))%nat /\
    (forallb (entry_completes self w) (selected w default_top_n) = true ->
     List.length processes =
       Nat.min (Z.to_nat default_top_n) (List.length (process_iter w))) /\
    field "cpu" snapshot = Some cpu /\
    field "per_cpu" cpu = Some (VList per_cpu) /\
    List.length per_cpu = List.length (cpu_percent_percpu w) /\
    field "cpu_count" cpu = Some (opt_int (cpu_count w)) /\
    (cpu_count w = Some (Z.of_nat (List.length (cpu_percent_percpu w))) ->
     field "cpu_count" cpu = Some (VInt (Z.of_nat (List.length per_cpu)))).
Proof.
  unfold get_all_info. intros H.
  destruct (get_system_info self w) as [system|e]; cbn [bind] in H; [|discriminate].
  destruct (get_cpu_info self w) as [cpu|e] eqn:Hcpu; cbn [bind] in H; [|discriminate].
  destruct (get_memory_info self w) as [memory|e]; cbn [bind] in H; [|discriminate].
  destruct (get_disk_info self w) as [disk|e]; cbn [bind] in H; [|discriminate].
  destruct (get_network_info self w) as [network|e]; cbn [bind] in H; [|discriminate].
  destruct (get_process_info self w default_top_n) as [procs|e] eqn:Hp;
    cbn [bind] in H; [|discriminate].
  inversion H; subst snapshot. clear H.
  unfold get_process_info in Hp.
  pose proof (process_loop_spec self w (selected w default_top_n) []) as L.
  destruct (process_loop self w (selected w default_top_n) []) as [l|e];
    cbn [bind] in Hp; [|discriminate].
  inversion Hp; subst procs. clear Hp.
  destruct L as [entries [E Hf]]. cbn [app] in E. subst entries.
  destruct (get_cpu_info_shape self w cpu Hcpu) as [Hper Hcount].
  exists l, cpu, (map VFloat (cpu_percent_percpu w)).
  pose proof (Forall2_length Hf) as Hlen.
  pose proof (filter_length_le (entry_completes self w) (selected w default_top_n)) as Hle.
  rewrite selected_default_length in Hle.
  split; [reflexivity|].
  split; [lia|].
  split.
  { intros Hall. rewrite <- Hlen, <- selected_default_length.
    f_equal. apply forallb_filter_id. exact Hall. }
  split; [reflexivity|]. split; [exact Hper|].
  split; [apply length_map|].
  split; [exact Hcount|].
  intros Hc. rewrite Hcount, Hc, length_map. reflexivity.
Qed.

Lemma snapshot_shape_witness :
  exists snapshot processes,
    get_all_info system_monitor Sample.world = Ok snapshot /\
    field "processes" snapshot = Some (VList processes) /\
    (List.length processes <= 6)%nat.
Proof.
  destruct (get_all_info system_monitor Sample.world) as [snapshot|e] eqn:H;
    [|vm_compute in H; discriminate].
  destruct (snapshot_shape system_monitor Sample.world snapshot H)
    as [processes [cpu [per_cpu [Hp [Hl _]]]]].
  exists snapshot, processes. split; [reflexivity|]. split; [exact Hp|].
  exact Hl.
Defined.

(** A capture of six processes, two of which are gone or denied at the
    detail read, holds four records, not [min(10, 6)]; and with an
    undetermined core count [cpu_count] is null next to two per-core
    readings. *)
Lemma snapshot_shape_counterexample :
  (exists snapshot processes,
     get_all_info system_monitor Sample.world = Ok snapshot /\
     field "processes" snapshot = Some (VList processes) /\
     List.length processes = 4%nat /\
     Nat.min (Z.to_nat default_top_n)
       (List.length (process_iter Sample.world)) = 6%nat) /\
  (exists snapshot cpu per_cpu,
     get_all_info system_monitor Sample.world_no_count = Ok snapshot /\
     field "cpu" snapshot = Some cpu /\
     field "per_cpu" cpu = Some (VList per_cpu) /\
     List.length per_cpu = 2%nat /\
     field "cpu_count" cpu = Some VNone).
Proof.
  split.
  - eexists. eexists. split; [vm_compute; reflexivity|].
    split; [reflexivity|]. split; reflexivity.
  - eexists. eexists. eexists. split; [vm_compute; reflexivity|].
    split; [reflexivity|]. split; [reflexivity|]. split; reflexivity.
Qed.

(** * The formatter on other inputs *)

(** C8.  On every input that is not an int, a float or a bool (so on
    [None] and on every string, list and dict) the formatter returns the
    literal ["N/A"]; it does not raise. *)
Theorem format_bytes_non_numeric (self : SystemMonitor) (v : pyval) :
  numeric_type (type_of v) = false -> _format_bytes self v = Ok "N/A".
Proof.
  destruct v; cbn [type_of numeric_type]; intros H;
    try discriminate; reflexivity.
Qed.

Lemma format_bytes_non_numeric_witness :
  _format_bytes system_monitor (VStr "not a number") = Ok "N/A" /\
  _format_bytes system_monitor VNone = Ok "N/A".
Proof.
  split; apply format_bytes_non_numeric; reflexivity.
Defined.

(** * More on the formatter *)

Lemma spec_format_index (n : Z) :
  spec_format n = dec2 (shown n) ++ " " ++ unit_name (unit_index n).
Proof.
  unfold spec_format, spec_render, units, shown, unit_index.
  cbn [spec_escalate].
  change (1024 * (1024 * (1024 * (1024 * (1024 * 1))))) with (1024 ^ 5).
  change (1024 * (1024 * (1024 * (1024 * 1)))) with (1024 ^ 4).
  change (1024 * (1024 * (1024 * 1))) with (1024 ^ 3).
  change (1024 * (1024 * 1)) with (1024 ^ 2).
  change (1024 * 1) with 1024.
  destruct (n <? 1024); [reflexivity|].
  destruct (n <? 1024 ^ 2); [reflexivity|].
  destruct (n <? 1024 ^ 3); [reflexivity|].
  destruct (n <? 1024 ^ 4); [reflexivity|].
  destruct (n <? 1024 ^ 5); reflexivity.
Qed.

(** Below [2^53] the formatter shows [shown n] hundredths of the unit
    number [unit_index n]. *)
Lemma format_bytes_shown (self : SystemMonitor) (n : Z) :
  0 <= n < 2 ^ 53 ->
  _format_bytes self (VInt n) =
  Ok (dec2 (shown n) ++ " " ++ unit_name (unit_index n)).
Proof.
  intros [Hlo Hhi].
  rewrite format_bytes_int_threshold by exact Hlo.
  assert (n < 2 ^ 1034 - 2 ^ 980) as Hfit.
  { apply Z.lt_trans with (2 ^ 53); [exact Hhi | vm_compute; reflexivity]. }
  destruct (Z.ltb_spec n (2 ^ 1034 - 2 ^ 980)); [|lia].
  rewrite round53_small by lia. rewrite spec_format_index. reflexivity.
Qed.

Lemma unit_index_bounds (n : Z) (k : nat) :
  (k <= 5)%nat ->
  1024 ^ Z.of_nat k <= n ->
  ((k < 5)%nat -> n < 1024 ^ (Z.of_nat k + 1)) ->
  unit_index n = k.
Proof.
  intros Hk Hlo Hhi. unfold unit_index.
  destruct k as [|[|[|[|[|[|k]]]]]]; try lia; cbn [Z.of_nat Pos.of_succ_nat Pos.succ] in *.
  - specialize (Hhi ltac:(lia)). change (1024 ^ (0 + 1)) with 1024 in Hhi.
    destruct (Z.ltb_spec n 1024); [reflexivity|lia].
  - specialize (Hhi ltac:(lia)). change (1024 ^ (1 + 1)) with (1024 ^ 2) in Hhi.
    change (1024 ^ 1) with 1024 in Hlo.
    destruct (Z.ltb_spec n 1024); [lia|].
    destruct (Z.ltb_spec n (1024 ^ 2)); [reflexivity|lia].
  - specialize (Hhi ltac:(lia)). change (1024 ^ (2 + 1)) with (1024 ^ 3) in Hhi.
    assert (1024 < 1024 ^ 2) by reflexivity.
    destruct (Z.ltb_spec n 1024); [lia|].
    destruct (Z.ltb_spec n (1024 ^ 2)); [lia|].
    destruct (Z.ltb_spec n (1024 ^ 3)); [reflexivity|lia].
  - specialize (Hhi ltac:(lia)). change (1024 ^ (3 + 1)) with (1024 ^ 4) in Hhi.
    assert (1024 < 1024 ^ 2) by reflexivity.
    assert (1024 ^ 2 < 1024 ^ 3) by reflexivity.
    destruct (Z.ltb_spec n 1024); [lia|].
    destruct (Z.ltb_spec n (1024 ^ 2)); [lia|].
    destruct (Z.ltb_spec n (1024 ^ 3)); [lia|].
    destruct (Z.ltb_spec n (1024 ^ 4)); [reflexivity|lia].
  - specialize (Hhi ltac:(lia)). change (1024 ^ (4 + 1)) with (1024 ^ 5) in Hhi.
    assert (1024 < 1024 ^ 2) by reflexivity.
    assert (1024 ^ 2 < 1024 ^ 3) by reflexivity.
    assert (1024 ^ 3 < 1024 ^ 4) by reflexivity.
    destruct (Z.ltb_spec n 1024); [lia|].
    destruct (Z.ltb_spec n (1024 ^ 2)); [lia|].
    destruct (Z.ltb_spec n (1024 ^ 3)); [lia|].
    destruct (Z.ltb_spec n (1024 ^ 4)); [lia|].
    destruct (Z.ltb_spec n (1024 ^ 5)); [reflexivity|lia].
  - assert (1024 < 1024 ^ 2) by reflexivity.
    assert (1024 ^ 2 < 1024 ^ 3) by reflexivity.
    assert (1024 ^ 3 < 1024 ^ 4) by reflexivity.
    assert (1024 ^ 4 < 1024 ^ 5) by reflexivity.
    destruct (Z.ltb_spec n 1024); [lia|].
    destruct (Z.ltb_spec n (1024 ^ 2)); [lia|].
    destruct (Z.ltb_spec n (1024 ^ 3)); [lia|].
    destruct (Z.ltb_spec n (1024 ^ 4)); [lia|].
    destruct (Z.ltb_spec n (1024 ^ 5)); [lia|reflexivity].
Qed.

(** An int with at most 53 significant bits is not changed by the
    rounding. *)
Lemma round53_exact (c j : Z) :
  0 < c < 2 ^ 53 -> 0 <= j -> round53 (c * 2 ^ j) = c * 2 ^ j.
Proof.
  intros [Hc0 Hc] Hj. unfold round53.
  rewrite Z.log2_mul_pow2 by lia.
  assert (Z.log2 c < 53) as Hl by (apply Z.log2_lt_pow2; lia).
  destruct (Z.leb_spec (j + Z.log2 c + 1 - 53) 0) as [|Hk]; [reflexivity|].
  set (k := j + Z.log2 c + 1 - 53) in *.
  assert (c * 2 ^ j = c * 2 ^ (j - k) * 2 ^ k) as E.
  { rewrite <- Z.mul_assoc, <- Z.pow_add_r by lia. do 2 f_equal. lia. }
  rewrite E at 1. rewrite round_half_even_exact by (apply Z.pow_pos_nonneg; lia).
  symmetry. exact E.
Qed.

Lemma dec2_whole (c : Z) : 0 <= c -> dec2 (100 * c) = string_of_Z c ++ ".00".
Proof.
  intros Hc. unfold dec2.
  replace (100 * c) with (c * 100) by lia.
  rewrite Z.div_mul by lia. rewrite Z.mod_mul by lia. reflexivity.
Qed.

(** X1.  Whole numbers of a unit are shown as such.  A count of [c] units,
    [0 < c < 1024], of any of the six sizes is formatted as ["c.00"] and
    the unit; in particular a count below 1024 bytes is shown in full. *)
Theorem format_bytes_whole_units (self : SystemMonitor) (c : Z) (k : nat) :
  0 < c < 1024 -> (k <= 5)%nat ->
  _format_bytes self (VInt (c * 1024 ^ Z.of_nat k)) =
  Ok (string_of_Z c ++ ".00 " ++ unit_name k).
Proof.
  intros [Hc0 Hc] Hk.
  set (n := c * 1024 ^ Z.of_nat k).
  assert (0 < 1024 ^ Z.of_nat k) as HD by (apply Z.pow_pos_nonneg; lia).
  assert (1024 ^ Z.of_nat k <= n) as Hlo by (unfold n; nia).
  assert (n < 1024 ^ (Z.of_nat k + 1)) as Hhi.
  { unfold n. rewrite Z.pow_add_r by lia. change (1024 ^ 1) with 1024. nia. }
  assert (round53 n = n) as Hr.
  { unfold n. replace (1024 ^ Z.of_nat k) with (2 ^ (10 * Z.of_nat k)).
    - apply round53_exact; [|lia]. split; [lia|].
      apply Z.lt_trans with 1024; [lia | reflexivity].
    - rewrite Z.pow_mul_r by lia. reflexivity. }
  assert (n < 2 ^ 1034 - 2 ^ 980) as Hfit.
  { apply Z.lt_le_trans with (1024 ^ 6); [|vm_compute; discriminate].
    apply Z.lt_le_trans with (1024 ^ (Z.of_nat k + 1)); [exact Hhi|].
    apply Z.pow_le_mono_r; lia. }
  rewrite format_bytes_int_threshold by lia.
  destruct (Z.ltb_spec n (2 ^ 1034 - 2 ^ 980)); [|lia].
  rewrite Hr, spec_format_index.
  rewrite (unit_index_bounds n k Hk Hlo (fun _ => Hhi)).
  unfold shown. rewrite (unit_index_bounds n k Hk Hlo (fun _ => Hhi)).
  unfold n at 1. rewrite Z.mul_assoc.
  rewrite round_half_even_exact by exact HD.
  rewrite dec2_whole by lia. rewrite append_assoc. reflexivity.
Qed.

Lemma format_bytes_whole_units_witness :
  _format_bytes system_monitor (VInt (512 * 1024 ^ 3)) = Ok "512.00 GB".
Proof.
  apply (format_bytes_whole_units system_monitor 512 3); lia.
Defined.

Lemma unit_index_spec (n : Z) :
  (unit_index n <= 5)%nat /\
  ((0 < unit_index n)%nat -> 1024 ^ Z.of_nat (unit_index n) <= n) /\
  ((unit_index n < 5)%nat -> n < 1024 ^ (Z.of_nat (unit_index n) + 1)).
Proof.
  unfold unit_index.
  destruct (Z.ltb_spec n 1024);
    [cbn; split; [lia | split; [lia | intros _; assumption]]|].
  destruct (Z.ltb_spec n (1024 ^ 2));
    [cbn [Z.of_nat Pos.of_succ_nat]; split; [lia | split; intros _; assumption]|].
  destruct (Z.ltb_spec n (1024 ^ 3));
    [cbn [Z.of_nat Pos.of_succ_nat Pos.succ]; split; [lia | split; intros _; assumption]|].
  destruct (Z.ltb_spec n (1024 ^ 4));
    [cbn [Z.of_nat Pos.of_succ_nat Pos.succ]; split; [lia | split; intros _; assumption]|].
  destruct (Z.ltb_spec n (1024 ^ 5));
    [cbn [Z.of_nat Pos.of_succ_nat Pos.succ]; split; [lia | split; intros _; assumption]|].
  cbn [Z.of_nat Pos.of_succ_nat Pos.succ]. split; [lia|]. split; [intros _; assumption | lia].
Qed.

(** X2.  The range of the number shown.  From one kilobyte up to the last
    byte below one petabyte the formatter shows KB, MB, GB or TB and a
    number from 1.00 to 1024.00. *)
Theorem format_bytes_display_range (self : SystemMonitor) (n : Z) :
  1024 <= n -> n < 1024 ^ 5 ->
  exists (k : nat) (h : Z),
    (1 <= k <= 4)%nat /\ 100 <= h <= 102400 /\
    _format_bytes self (VInt n) = Ok (dec2 h ++ " " ++ unit_name k).
Proof.
  intros Hlo Hhi.
  exists (unit_index n), (shown n).
  destruct (unit_index_spec n) as [H5 [Hge Hlt]].
  assert (Hk : (1 <= unit_index n <= 4)%nat).
  { unfold unit_index.
    destruct (Z.ltb_spec n 1024); [lia|].
    destruct (n <? 1024 ^ 2); [lia|].
    destruct (n <? 1024 ^ 3); [lia|].
    destruct (n <? 1024 ^ 4); [lia|].
    destruct (Z.ltb_spec n (1024 ^ 5)); lia. }
  split; [exact Hk|].
  split.
  - specialize (Hge ltac:(lia)). specialize (Hlt ltac:(lia)).
    unfold shown. set (D := 1024 ^ Z.of_nat (unit_index n)) in *.
    assert (0 < D) as HD by (apply Z.pow_pos_nonneg; lia).
    rewrite Z.pow_add_r in Hlt by lia. fold D in Hlt. change (1024 ^ 1) with 1024 in Hlt.
    pose proof (round_half_even_bounds (100 * n) D) as [Rlo Rhi].
    assert (100 <= 100 * n / D) by (apply Z.div_le_lower_bound; lia).
    assert (100 * n / D < 102400) by (apply Z.div_lt_upper_bound; lia).
    lia.
  - apply format_bytes_shown. split; [lia|].
    apply Z.lt_trans with (1024 ^ 5); [exact Hhi | reflexivity].
Qed.

Lemma format_bytes_display_range_witness :
  exists (k : nat) (h : Z),
    (1 <= k <= 4)%nat /\ 100 <= h <= 102400 /\
    _format_bytes system_monitor (VInt 123456789) =
      Ok (dec2 h ++ " " ++ unit_name k).
Proof.
  apply (format_bytes_display_range system_monitor 123456789);
    [lia | reflexivity].
Defined.

(** X3.  The top of a unit's range is shown as 1024.00 of that unit, not
    as 1.00 of the next.  For KB, MB, GB and TB, every count within half
    a hundredth of a unit below the next unit is formatted as
    ["1024.00"] and the unit. *)
Theorem format_bytes_top_of_range (self : SystemMonitor) (n : Z) (k : nat) :
  (1 <= k <= 4)%nat ->
  204799 * 1024 ^ Z.of_nat k <= 200 * n ->
  n < 1024 ^ (Z.of_nat k + 1) ->
  _format_bytes self (VInt n) = Ok ("1024.00 " ++ unit_name k).
Proof.
  intros Hk Hlo Hhi.
  assert (0 < 1024 ^ Z.of_nat k) as HD by (apply Z.pow_pos_nonneg; lia).
  assert (1024 ^ Z.of_nat k <= n) as Hge by lia.
  assert (unit_index n = k) as Hi
    by (apply unit_index_bounds; [lia | exact Hge | intros _; exact Hhi]).
  assert (1024 ^ (Z.of_nat k + 1) <= 1024 ^ 5) as H5
    by (apply Z.pow_le_mono_r; lia).
  rewrite format_bytes_shown
    by (split; [lia | apply Z.lt_le_trans with (1024 ^ 5); [lia | vm_compute; discriminate]]).
  rewrite Hi. unfold shown. rewrite Hi.
  replace (round_half_even (100 * n) (1024 ^ Z.of_nat k)) with 102400;
    [reflexivity|].
  rewrite Z.pow_add_r in Hhi by lia. change (1024 ^ 1) with 1024 in Hhi.
  set (D := 1024 ^ Z.of_nat k) in *.
  unfold round_half_even.
  pose proof (Z.div_mod (100 * n) D ltac:(lia)) as Edm.
  pose proof (Z.mod_pos_bound (100 * n) D HD) as Bm.
  assert (100 * n / D = 102399) as Eq.
  { symmetry. apply Z.div_unique with (100 * n - D * 102399); lia. }
  rewrite Eq in *.
  destruct (Z.compare_spec (2 * ((100 * n) mod D)) D) as [C|C|C].
  - reflexivity.
  - lia.
  - reflexivity.
Qed.

Lemma format_bytes_top_of_range_witness :
  _format_bytes system_monitor (VInt 1048575) = Ok "1024.00 KB".
Proof.
  apply (format_bytes_top_of_range system_monitor 1048575 1);
    [lia | vm_compute; discriminate | reflexivity].
Defined.

Lemma round_half_even_mono (a a' b : Z) :
  0 < b -> a <= a' -> round_half_even a b <= round_half_even a' b.
Proof.
  intros Hb Ha.
  assert (a / b <= a' / b) as Hq by (apply Z.div_le_mono; lia).
  destruct (Z.eq_dec (a / b) (a' / b)) as [E|NE].
  - pose proof (Z.div_mod a b ltac:(lia)) as E1.
    pose proof (Z.div_mod a' b ltac:(lia)) as E2.
    assert (a mod b <= a' mod b) as Hr by (rewrite E in E1; nia).
    unfold round_half_even. rewrite E.
    destruct (Z.compare_spec (2 * (a mod b)) b);
      destruct (Z.compare_spec (2 * (a' mod b)) b);
      try destruct (Z.even (a' / b)); lia.
  - pose proof (round_half_even_bounds a b). pose proof (round_half_even_bounds a' b).
    lia.
Qed.

Lemma unit_index_mono (n m : Z) :
  n <= m -> (unit_index n <= unit_index m)%nat.
Proof.
  intros H. unfold unit_index.
  destruct (Z.ltb_spec n 1024); [lia|].
  destruct (Z.ltb_spec m 1024); [lia|].
  destruct (Z.ltb_spec n (1024 ^ 2)); [destruct (m <? 1024 ^ 2), (m <? 1024 ^ 3), (m <? 1024 ^ 4), (m <? 1024 ^ 5); lia|].
  destruct (Z.ltb_spec m (1024 ^ 2)); [lia|].
  destruct (Z.ltb_spec n (1024 ^ 3)); [destruct (m <? 1024 ^ 3), (m <? 1024 ^ 4), (m <? 1024 ^ 5); lia|].
  destruct (Z.ltb_spec m (1024 ^ 3)); [lia|].
  destruct (Z.ltb_spec n (1024 ^ 4)); [destruct (m <? 1024 ^ 4), (m <? 1024 ^ 5); lia|].
  destruct (Z.ltb_spec m (1024 ^ 4)); [lia|].
  destruct (Z.ltb_spec n (1024 ^ 5)); [destruct (m <? 1024 ^ 5); lia|].
  destruct (Z.ltb_spec m (1024 ^ 5)); [lia|]. lia.
Qed.

(** X4.  The formatter preserves order.  Of two counts below [2^53], the
    larger is never shown in a smaller unit, and within one unit never
    with a smaller number. *)
Theorem format_bytes_monotone (self : SystemMonitor) (n m : Z) :
  0 <= n -> n <= m -> m < 2 ^ 53 ->
  _format_bytes self (VInt n) =
    Ok (dec2 (shown n) ++ " " ++ unit_name (unit_index n)) /\
  _format_bytes self (VInt m) =
    Ok (dec2 (shown m) ++ " " ++ unit_name (unit_index m)) /\
  (unit_index n <= unit_index m)%nat /\
  (unit_index n = unit_index m -> shown n <= shown m).
Proof.
  intros Hn Hnm Hm.
  split; [apply format_bytes_shown; lia|].
  split; [apply format_bytes_shown; lia|].
  split; [apply unit_index_mono; exact Hnm|].
  intros E. unfold shown. rewrite E.
  apply round_half_even_mono; [apply Z.pow_pos_nonneg; lia | lia].
Qed.

Lemma format_bytes_monotone_witness :
  (unit_index 1536 <= unit_index 1048575)%nat /\
  (unit_index 1536 = unit_index 1048575 -> shown 1536 <= shown 1048575).
Proof.
  destruct (format_bytes_monotone system_monitor 1536 1048575)
    as [_ [_ H]]; [lia | lia | reflexivity | exact H].
Defined.

Lemma format_loop_has_space (us : list string) :
  forall (x : num) (r : string),
    format_loop us x = Ok r -> exists s u, r = s ++ " " ++ u.
Proof.
  induction us as [|unit rest IH]; intros x r; cbn [format_loop].
  - destruct (fixed2 x) as [s|e]; cbn [bind]; [|discriminate].
    intros H. inversion H. exists s, "PB". reflexivity.
  - destruct (num_lt x (NInt 1024)).
    + destruct (fixed2 x) as [s|e]; cbn [bind]; [|discriminate].
      intros H. inversion H. exists s, unit. reflexivity.
    + destruct (div_1024 x) as [v|e]; cbn [bind]; [|discriminate].
      apply IH.
Qed.

Lemma with_space_not_NA (s u : string) : s ++ " " ++ u <> "N/A".
Proof.
  destruct s as [|c1 [|c2 [|c3 [|c4 s]]]]; cbn; intros H; inversion H.
Qed.

(** X5.  ["N/A"] marks exactly the inputs that are not numbers.  The
    formatter returns ["N/A"] if and only if its argument is neither an
    int nor a float nor a bool; whatever number it is given (negative,
    huge, infinite or NaN), the result is never ["N/A"].  A bool is a
    number here: it is formatted as the int it is, [False] as
    ["0.00 B"] and [True] as ["1.00 B"]. *)
Theorem format_bytes_NA_iff (self : SystemMonitor) :
  (forall v, _format_bytes self v = Ok "N/A" <->
             match v with
             | VNone | VStr _ | VList _ | VDict _ => True
             | VBool _ | VInt _ | VFloat _ => False
             end) /\
  (forall b : bool,
     _format_bytes self (VBool b) =
     Ok (if b then "1.00 B" else "0.00 B")).
Proof.
  split.
  - intros v. split.
    + unfold _format_bytes.
      destruct v; cbn [as_num]; try (intros _; exact I);
        intros H; exfalso;
        destruct (format_loop_has_space _ _ _ H) as [s [u E]];
        symmetry in E; exact (with_space_not_NA s u E).
    + destruct v; intros H; try contradiction; reflexivity.
  - intros [|]; vm_compute; reflexivity.
Qed.

Lemma num_lt_negative_int (n : Z) :
  n < 0 -> num_lt (NInt n) (NInt 1024) = true.
Proof. intros H. rewrite num_lt_int. apply Z.ltb_lt. lia. Qed.

Lemma dec2_exact_hundredths (x : Z) :
  dec2 (round_half_even (100 * x) 1) = dec2 (100 * x).
Proof.
  replace (100 * x) with (100 * x * 1) at 1 by lia.
  rewrite round_half_even_exact by lia. reflexivity.
Qed.

(** [float(n)] of a negative int: exact below [2^53], else rounded to 53
    significant bits, and out of range from [2^1024] on. *)
Lemma of_Z_negative (p : positive) :
  if round53 (Zpos p) <? 2 ^ 1024 then
    exists m e, of_Z (Zneg p) = S754_finite true m e /\
                scaled_round 100 m e = 100 * round53 (Zpos p)
  else of_Z (Zneg p) = S754_infinity true.
Proof.
  unfold of_Z. cbn [binary_normalize].
  pose proof (Pos2Z.is_pos (digits2_pos p)) as Hd0.
  destruct (Z_le_gt_dec (Zpos (digits2_pos p)) 53) as [Hd|Hd].
  - assert (Zpos p < 2 ^ 53) as Hp.
    { pose proof (digits2_pos_bounds p) as [_ B].
      apply Z.lt_le_trans with (2 ^ Zpos (digits2_pos p)); [exact B|].
      apply Z.pow_le_mono_r; lia. }
    rewrite round53_small by lia.
    assert (Zpos p < 2 ^ 1024) as Hfit.
    { apply Z.lt_trans with (2 ^ 53); [exact Hp | reflexivity]. }
    destruct (Z.ltb_spec (Zpos p) (2 ^ 1024)); [|lia].
    rewrite binary_round_small by lia.
    replace (Zpos (digits2_pos p) + 0 - 53 <=? 971) with true
      by (symmetry; apply Z.leb_le; lia).
    eexists. eexists. split; [reflexivity|].
    rewrite (scaled_round_rep _ _ (Zpos p) 1); [| |lia].
    + replace (100 * Zpos p) with (100 * Zpos p * 1) at 1 by lia.
      apply round_half_even_exact. lia.
    + apply rep_pshl; (lia || reflexivity).
  - destruct (binary_round_big true p 0) as [m [e [Dm [He [V R]]]]]; [lia|lia|].
    rewrite <- round53_big in V by lia.
    replace (e - 0) with e in V by lia.
    pose proof (digits2_pos_bounds m) as [Bm Bm']. rewrite Dm in Bm, Bm'.
    change (2 ^ (53 - 1)) with (2 ^ 52) in Bm.
    assert (0 < 2 ^ e) as Hpow by (apply Z.pow_pos_nonneg; lia).
    rewrite R.
    destruct (Z.leb_spec e 971) as [Le|Le].
    + assert (round53 (Zpos p) < 2 ^ 1024) as Hfit.
      { rewrite <- V.
        assert (2 ^ e <= 2 ^ 971) by (apply Z.pow_le_mono_r; lia).
        change (2 ^ 1024) with (2 ^ 53 * 2 ^ 971).
        apply Z.le_lt_trans with (Zpos m * 2 ^ 971).
        - apply Z.mul_le_mono_nonneg_l; lia.
        - apply Z.mul_lt_mono_pos_r; [apply Z.pow_pos_nonneg; lia | lia]. }
      destruct (Z.ltb_spec (round53 (Zpos p)) (2 ^ 1024)); [|lia].
      exists m, e. split; [reflexivity|].
      unfold scaled_round. destruct (Z.leb_spec 0 e); [|lia].
      rewrite V. lia.
    + assert (2 ^ 1024 <= round53 (Zpos p)) as Hbig.
      { rewrite <- V.
        assert (2 ^ 972 <= 2 ^ e) by (apply Z.pow_le_mono_r; lia).
        change (2 ^ 1024) with (2 ^ 52 * 2 ^ 972).
        apply Z.mul_le_mono_nonneg; lia. }
      destruct (Z.ltb_spec (round53 (Zpos p)) (2 ^ 1024)); [lia|]. reflexivity.
Qed.

(** On a negative int the formatter raises nothing but
    [OverflowError]. *)
Lemma format_bytes_negative_raises (self : SystemMonitor) (p : positive)
    (e : exn) :
  _format_bytes self (VInt (Zneg p)) = Raise e -> e = OverflowError.
Proof.
  unfold _format_bytes, units. cbn [as_num format_loop].
  rewrite num_lt_negative_int by lia.
  pose proof (of_Z_negative p) as H.
  unfold fixed2.
  destruct (round53 (Zpos p) <? 2 ^ 1024).
  - destruct H as [m [x [-> _]]]. cbn [bind fixed2_float]. discriminate.
  - rewrite H. cbn [bind fixed2_float]. intros E. inversion E. reflexivity.
Qed.

(** X6.  A negative int is never scaled.  Every negative value passes the
    test [< 1024] at once, so it is shown in bytes whatever its size:
    exactly below [2^53] in magnitude, rounded to 53 significant bits
    above, and [OverflowError] when the rounded magnitude reaches
    [2^1024]. *)
Theorem format_bytes_negative (self : SystemMonitor) (n : Z) :
  n < 0 ->
  _format_bytes self (VInt n) =
  if round53 (- n) <? 2 ^ 1024
  then Ok ("-" ++ dec2 (100 * round53 (- n)) ++ " B")
  else Raise OverflowError.
Proof.
  intros Hn. destruct n as [|p|p]; try lia.
  unfold _format_bytes, units. cbn [as_num format_loop].
  rewrite num_lt_negative_int by lia.
  change (- Zneg p) with (Zpos p).
  pose proof (of_Z_negative p) as H.
  unfold fixed2.
  destruct (round53 (Zpos p) <? 2 ^ 1024).
  - destruct H as [m [e [-> Hs]]]. cbn [bind fixed2_float sign_str].
    rewrite Hs. rewrite !append_assoc. reflexivity.
  - rewrite H. reflexivity.
Qed.

Lemma format_bytes_negative_witness :
  _format_bytes system_monitor (VInt (- (5 * 1024 ^ 3))) =
  Ok "-5368709120.00 B".
Proof.
  rewrite (format_bytes_negative system_monitor (- (5 * 1024 ^ 3)));
    [vm_compute; reflexivity | reflexivity].
Defined.

(** X7.  On a float that is not a positive number the formatter never
    raises and never scales down: a zero and every negative float are
    shown in bytes with their sign, minus infinity as ["-inf B"]; plus
    infinity and NaN are never below 1024 and come out as ["inf PB"] and
    ["nan PB"]. *)
Theorem format_bytes_float_edges (self : SystemMonitor) :
  (forall s, _format_bytes self (VFloat (S754_zero s)) =
             Ok (sign_str s ++ "0.00 B")) /\
  (forall m e, _format_bytes self (VFloat (S754_finite true m e)) =
               Ok ("-" ++ dec2 (scaled_round 100 m e) ++ " B")) /\
  _format_bytes self (VFloat (S754_infinity true)) = Ok "-inf B" /\
  _format_bytes self (VFloat (S754_infinity false)) = Ok "inf PB" /\
  _format_bytes self (VFloat S754_nan) = Ok "nan PB".
Proof.
  split; [intros [|]; reflexivity|].
  split; [|repeat split; reflexivity].
  intros m e. unfold _format_bytes, units. cbn [as_num format_loop].
  assert (num_lt (NFloat (S754_finite true m e)) (NInt 1024) = true) as ->.
  { unfold num_lt, xval_of_num, xval_of_float, xlt, dyadic_lt.
    apply Z.ltb_lt.
    assert (0 < 2 ^ (e - Z.min e 0)) by (apply Z.pow_pos_nonneg; lia).
    assert (0 < 2 ^ (0 - Z.min e 0)) by (apply Z.pow_pos_nonneg; lia).
    assert (Zneg m * 2 ^ (e - Z.min e 0) < 0) by (apply Z.mul_neg_pos; lia).
    lia. }
  cbn [fixed2 bind fixed2_float sign_str]. rewrite !append_assoc. reflexivity.
Qed.

(** * More on the collectors *)

(** X8.  The frequency field of the CPU collector.  Without a frequency
    reading the field is the string ["N/A"]; with one, the field is the
    reading of the second query, the first only being tested; and the
    collector raises exactly when the frequency is there at the test and
    gone at the read, with [AttributeError]. *)
Theorem cpu_frequency_cases (self : SystemMonitor) (w : World) :
  (cpu_freq w 0%nat = None ->
   exists cpu, get_cpu_info self w = Ok cpu /\
               field "cpu_freq" cpu = Some (VStr "N/A")) /\
  (forall f0 f1, cpu_freq w 0%nat = Some f0 -> cpu_freq w 1%nat = Some f1 ->
   exists cpu, get_cpu_info self w = Ok cpu /\
               field "cpu_freq" cpu = Some (VFloat (current f1))) /\
  (forall e, get_cpu_info self w = Raise e <->
     e = AttributeError /\ cpu_freq w 0%nat <> None /\
     cpu_freq w 1%nat = None).
Proof.
  unfold get_cpu_info. split; [|split].
  - intros ->. cbn [bind]. eexists. split; reflexivity.
  - intros f0 f1 -> ->. cbn [bind]. eexists. split; reflexivity.
  - intros e.
    destruct (cpu_freq w 0%nat) as [f0|]; [destruct (cpu_freq w 1%nat) as [f1|]|];
      cbn [bind]; split.
    + discriminate.
    + intros [_ [_ H]]. discriminate.
    + intros H. inversion H. repeat split. discriminate.
    + intros [-> _]. reflexivity.
    + discriminate.
    + intros [_ [H _]]. exfalso. apply H. reflexivity.
Qed.

Lemma cpu_frequency_cases_witness :
  exists cpu, get_cpu_info system_monitor Sample.world = Ok cpu /\
              field "cpu_freq" cpu = Some (VFloat (of_Z 2400)).
Proof.
  destruct (proj1 (proj2 (cpu_frequency_cases system_monitor Sample.world))
              {| current := of_Z 2400 |} {| current := of_Z 2400 |}
              eq_refl eq_refl) as [cpu [H1 H2]].
  exists cpu. split; assumption.
Defined.

(** The formatter raises nothing but [OverflowError]. *)
Lemma format_bytes_int_raises (self : SystemMonitor) (n : Z) (e : exn) :
  _format_bytes self (VInt n) = Raise e -> e = OverflowError.
Proof.
  destruct (Z_lt_le_dec n 0) as [Hn|Hn].
  - destruct n as [|p|p]; try lia. apply format_bytes_negative_raises.
  - rewrite format_bytes_int_threshold by exact Hn.
    destruct (n <? 2 ^ 1034 - 2 ^ 980); intros H; inversion H; reflexivity.
Qed.

(** X9.  The memory collector passes the platform's figures through.  For
    counts in range it returns the total, available and used bytes and
    the platform's own percentage unchanged, with the three counts
    formatted; and whatever the counts, it raises nothing but
    [OverflowError]. *)
Theorem memory_passthrough (self : SystemMonitor) (w : World) :
  (in_range (vm_total (virtual_memory w)) = true ->
   in_range (vm_available (virtual_memory w)) = true ->
   in_range (vm_used (virtual_memory w)) = true ->
   get_memory_info self w =
   Ok (VDict
     [ ("total", VInt (vm_total (virtual_memory w)));
       ("available", VInt (vm_available (virtual_memory w)));
       ("used", VInt (vm_used (virtual_memory w)));
       ("percent", VFloat (vm_percent (virtual_memory w)));
       ("total_formatted",
         VStr (spec_format (round53 (vm_total (virtual_memory w)))));
       ("available_formatted",
         VStr (spec_format (round53 (vm_available (virtual_memory w)))));
       ("used_formatted",
         VStr (spec_format (round53 (vm_used (virtual_memory w))))) ])) /\
  (forall e, get_memory_info self w = Raise e -> e = OverflowError).
Proof.
  split.
  - intros Ht Ha Hu. unfold get_memory_info.
    rewrite (format_bytes_in_range self _ Ht), (format_bytes_in_range self _ Ha),
            (format_bytes_in_range self _ Hu).
    reflexivity.
  - intros e. unfold get_memory_info.
    destruct (_format_bytes self (VInt (vm_total (virtual_memory w)))) as [t|e1] eqn:E1;
      cbn [bind]; [|intros H; inversion H; subst; exact (format_bytes_int_raises _ _ _ E1)].
    destruct (_format_bytes self (VInt (vm_available (virtual_memory w)))) as [a|e2] eqn:E2;
      cbn [bind]; [|intros H; inversion H; subst; exact (format_bytes_int_raises _ _ _ E2)].
    destruct (_format_bytes self (VInt (vm_used (virtual_memory w)))) as [u|e3] eqn:E3;
      cbn [bind]; [|intros H; inversion H; subst; exact (format_bytes_int_raises _ _ _ E3)].
    discriminate.
Qed.

Lemma memory_passthrough_witness :
  exists memory,
    get_memory_info system_monitor Sample.world = Ok memory /\
    field "total_formatted" memory = Some (VStr "16.00 GB").
Proof.
  eexists. split.
  - apply (proj1 (memory_passthrough system_monitor Sample.world));
      vm_compute; reflexivity.
  - vm_compute. reflexivity.
Defined.

(** The interface loop, as a map over the interfaces. *)
Lemma interface_loop_outcome (self : SystemMonitor) (w : World)
    (todo : list (string * snicstats)) :
  forall interfaces,
    interface_loop self w todo interfaces =
    match first_uncaught lookup_errors (map (interface_outcome self w) todo) with
    | Some e => Raise e
    | None =>
        Ok (interfaces ++
            present (completed (map (interface_outcome self w) todo)))%list
    end.
Proof.
  induction todo as [|[interface stats] rest IH]; intros interfaces.
  - cbn. rewrite app_nil_r. reflexivity.
  - cbn [interface_loop map first_uncaught completed].
    assert (Ho : interface_outcome self w (interface, stats) =
                 if isup stats then interface_entry self w interface stats
                 else Ok None) by reflexivity.
    revert Ho. destruct (isup stats).
    + destruct (interface_entry self w interface stats) as [[entry|]|e];
        intros ->; cbn [bind try_except append_opt present].
      * rewrite IH.
        destruct (first_uncaught _ _); [reflexivity|].
        rewrite <- app_assoc. reflexivity.
      * apply IH.
      * fold lookup_errors.
        destruct (caught_by lookup_errors e); cbn [bind]; [apply IH | reflexivity].
    + intros ->. cbn [bind present]. apply IH.
Qed.

(** X10.  A host without network counters.  When the platform has no total
    network counters (psutil answers [None], as on a host without any
    interface), the network collector raises [AttributeError] after its
    interface loop, and so does the whole capture once the collectors
    before it have returned. *)
Theorem network_without_totals (self : SystemMonitor) (w : World) :
  net_io_counters w = None ->
  first_uncaught lookup_errors
    (map (interface_outcome self w) (net_if_stats w)) = None ->
  get_network_info self w = Raise AttributeError /\
  (forall cpu memory disk,
     get_cpu_info self w = Ok cpu ->
     get_memory_info self w = Ok memory ->
     get_disk_info self w = Ok disk ->
     get_all_info self w = Raise AttributeError).
Proof.
  intros Hnone Hloop.
  assert (Hn : get_network_info self w = Raise AttributeError).
  { unfold get_network_info. rewrite interface_loop_outcome, Hloop, Hnone.
    reflexivity. }
  split; [exact Hn|].
  intros cpu memory disk Hc Hm Hd.
  unfold get_all_info. cbn [get_system_info bind].
  rewrite Hc, Hm, Hd, Hn. reflexivity.
Qed.

Lemma network_without_totals_witness :
  get_network_info system_monitor world_no_nic = Raise AttributeError /\
  get_all_info system_monitor world_no_nic = Raise AttributeError.
Proof.
  destruct (network_without_totals system_monitor world_no_nic)
    as [Hn Ha]; [reflexivity | reflexivity |].
  split; [exact Hn|].
  destruct (get_cpu_info system_monitor world_no_nic) as [cpu|e] eqn:Hc;
    [|vm_compute in Hc; discriminate].
  destruct (get_memory_info system_monitor world_no_nic) as [memory|e] eqn:Hm;
    [|vm_compute in Hm; discriminate].
  destruct (get_disk_info system_monitor world_no_nic) as [disk|e] eqn:Hd;
    [|vm_compute in Hd; discriminate].
  exact (Ha cpu memory disk eq_refl eq_refl eq_refl).
Defined.

(** X11.  The network collector as a whole.  It raises the first exception
    of an interface body that is neither [KeyError] nor
    [AttributeError]; else [AttributeError] if there are no total
    counters; else [OverflowError] if a total does not format; and
    otherwise returns the totals, passed through, and the records of the
    interfaces in visiting order. *)
Theorem network_outcome (self : SystemMonitor) (w : World) :
  let outcomes := map (interface_outcome self w) (net_if_stats w) in
  get_network_info self w =
  match first_uncaught lookup_errors outcomes with
  | Some e => Raise e
  | None =>
      match net_io_counters w with
      | None => Raise AttributeError
      | Some t =>
          sent <- _format_bytes self (VInt (bytes_sent t)) ;;
          recv <- _format_bytes self (VInt (bytes_recv t)) ;;
          Ok (VDict
            [ ("total",
                VDict
                  [ ("bytes_sent", VInt (bytes_sent t));
                    ("bytes_recv", VInt (bytes_recv t));
                    ("packets_sent", VInt (packets_sent t));
                    ("packets_recv", VInt (packets_recv t));
                    ("bytes_sent_formatted", VStr sent);
                    ("bytes_recv_formatted", VStr recv) ]);
              ("interfaces", VList (present (completed outcomes))) ])
      end
  end.
Proof.
  intros outcomes. unfold get_network_info.
  rewrite interface_loop_outcome. fold outcomes.
  destruct (first_uncaught lookup_errors outcomes); [reflexivity|].
  cbn [bind app].
  destruct (net_io_counters w) as [t|]; [|reflexivity].
  destruct (_format_bytes self (VInt (bytes_sent t))); [|reflexivity].
  destruct (_format_bytes self (VInt (bytes_recv t))); reflexivity.
Qed.

Lemma completed_length {A : Type} (outcomes : list (res A)) :
  (List.length (completed outcomes) <= List.length outcomes)%nat.
Proof.
  induction outcomes as [|[a|e] rest IH]; cbn [completed List.length]; lia.
Qed.

Lemma first_uncaught_none_all_ok {A : Type} (outcomes : list (res A)) :
  first_uncaught [] outcomes = None <->
  Forall (fun r => exists v, r = Ok v) outcomes.
Proof.
  induction outcomes as [|[a|e] rest IH]; cbn [first_uncaught].
  - split; [constructor | reflexivity].
  - rewrite IH. split.
    + intros H. constructor; [exists a; reflexivity | exact H].
    + intros H. inversion H. assumption.
  - cbn. split; [discriminate|].
    intros H. inversion H as [|? ? [v Hv] _]. discriminate.
Qed.

(** The partition loop, as a map over the partitions. *)
Lemma partition_loop_outcome (self : SystemMonitor) (w : World)
    (todo : list sdiskpart) :
  forall partitions,
    partition_loop self w todo partitions =
    match first_uncaught [PermissionError; OSError]
            (map (partition_entry self w) todo) with
    | Some e => Raise e
    | None =>
        Ok (partitions ++ completed (map (partition_entry self w) todo))%list
    end.
Proof.
  induction todo as [|partition rest IH]; intros partitions.
  - cbn. rewrite app_nil_r. reflexivity.
  - cbn [partition_loop map first_uncaught completed].
    destruct (partition_entry self w partition) as [entry|e];
      cbn [bind try_except].
    + rewrite IH.
      destruct (first_uncaught _ _); [reflexivity|].
      rewrite <- app_assoc. reflexivity.
    + destruct (caught_by [PermissionError; OSError] e); cbn [bind];
        [apply IH | reflexivity].
Qed.

(** The process loop, as a map over the visited processes. *)
Lemma process_loop_outcome (self : SystemMonitor) (w : World)
    (todo : list Process) :
  forall processes,
    process_loop self w todo processes =
    match first_uncaught process_errors (map (process_entry self w) todo) with
    | Some e => Raise e
    | None =>
        Ok (processes ++ completed (map (process_entry self w) todo))%list
    end.
Proof.
  induction todo as [|proc rest IH]; intros processes.
  - cbn. rewrite app_nil_r. reflexivity.
  - cbn [process_loop map first_uncaught completed].
    destruct (process_entry self w proc) as [entry|e];
      cbn [bind try_except].
    + rewrite IH.
      destruct (first_uncaught _ _); [reflexivity|].
      rewrite <- app_assoc. reflexivity.
    + fold process_errors.
      destruct (caught_by process_errors e); cbn [bind];
        [apply IH | reflexivity].
Qed.

(** X12.  The disk collector as a whole.  A failure of the usage query for
    the root path propagates, whatever its class; then the first
    exception of a partition body that is not an [OSError] (which
    includes [PermissionError]) propagates; then a failure to format the
    root figures or the I/O counters; otherwise the collector returns
    the root figures, the I/O section and the records of the partitions
    whose body completed, in visiting order. *)
Theorem disk_outcome (self : SystemMonitor) (w : World) :
  let outcomes := map (partition_entry self w) (disk_partitions w) in
  get_disk_info self w =
  (disk <- disk_usage w "/" ;;
   match first_uncaught [PermissionError; OSError] outcomes with
   | Some e => Raise e
   | None =>
       main_disk <- usage_fields self disk ;;
       io <- io_section self (disk_io_counters w) ;;
       Ok (VDict
         [ ("main_disk", VDict main_disk);
           ("io", io);
           ("partitions", VList (completed outcomes)) ])
   end).
Proof.
  intros outcomes. unfold get_disk_info.
  destruct (disk_usage w "/") as [disk|e]; cbn [bind]; [|reflexivity].
  rewrite partition_loop_outcome. fold outcomes.
  destruct (first_uncaught _ outcomes); reflexivity.
Qed.

(** X13.  The process collector as a whole.  It raises the first exception
    of a visited process's body that is not one of the three psutil
    process errors (a time stamp that does not convert, a resident size
    that does not format), dropping the records built so far; otherwise
    it returns the records of the bodies that completed, in visiting
    order. *)
Theorem process_outcome (self : SystemMonitor) (w : World) (top_n : Z) :
  let outcomes := map (process_entry self w) (selected w top_n) in
  get_process_info self w top_n =
  match first_uncaught process_errors outcomes with
  | Some e => Raise e
  | None => Ok (VList (completed outcomes))
  end.
Proof.
  intros outcomes. unfold get_process_info.
  rewrite process_loop_outcome. fold outcomes.
  destruct (first_uncaught _ outcomes); reflexivity.
Qed.

(** X14.  The edges of [top_n].  With [top_n = 0] the collector returns the
    empty list without visiting a process; a [top_n] of at least the
    number of processes visits them all; a negative [top_n] does not
    fail but, as a Python slice, drops the last [-top_n] of the ranking,
    so below minus the number of processes the result is empty; and in
    every case the result has no more entries than there are
    processes. *)
Theorem top_n_edges (self : SystemMonitor) (w : World) :
  let ranked := sorted_reverse cpu_key (process_iter w) in
  let total := List.length (process_iter w) in
  get_process_info self w 0 = Ok (VList []) /\
  (forall top_n, Z.of_nat total <= top_n -> selected w top_n = ranked) /\
  (forall top_n, top_n < 0 ->
     selected w top_n = firstn (total - Z.to_nat (- top_n)) ranked) /\
  (forall top_n, top_n <= - Z.of_nat total ->
     get_process_info self w top_n = Ok (VList [])) /\
  (forall top_n entries,
     get_process_info self w top_n = Ok (VList entries) ->
     (List.length entries <= total)%nat).
Proof.
  intros ranked total.
  assert (Hlen : List.length ranked = total)
    by (apply Permutation_length, sorted_reverse_perm).
  assert (Hneg : forall top_n, top_n < 0 ->
            selected w top_n = firstn (total - Z.to_nat (- top_n)) ranked).
  { intros top_n Hn. unfold selected, slice_to. fold ranked.
    destruct (Z.leb_spec 0 top_n); [lia|]. rewrite Hlen. reflexivity. }
  assert (Hzero : get_process_info self w 0 = Ok (VList [])).
  { unfold get_process_info, selected. rewrite slice_to_nonneg by lia.
    reflexivity. }
  split; [exact Hzero|].
  split; [|split; [exact Hneg|split]].
  - intros top_n Hn. unfold selected. fold ranked.
    rewrite slice_to_nonneg by lia.
    apply firstn_all2. rewrite Hlen. lia.
  - intros top_n Hn.
    destruct (Z.eq_dec top_n 0) as [->|Hnz]; [exact Hzero|].
    unfold get_process_info. rewrite Hneg by lia.
    replace (total - Z.to_nat (- top_n))%nat with 0%nat by lia.
    reflexivity.
  - intros top_n entries H.
    unfold get_process_info in H. rewrite process_loop_outcome in H.
    destruct (first_uncaught _ _); [discriminate|].
    inversion H; subst entries.
    eapply Nat.le_trans; [apply completed_length|].
    rewrite length_map. unfold selected, slice_to. fold ranked.
    destruct (0 <=? top_n); rewrite length_firstn, Hlen; lia.
Qed.

Lemma top_n_edges_witness :
  map (fun p => pid (info p)) (selected Sample.world 99) =
  [200; 42; 100; 300; 1; 77] /\
  map (fun p => pid (info p)) (selected Sample.world (-2)) =
  [200; 42; 100; 300] /\
  get_process_info system_monitor Sample.world (-6) = Ok (VList []).
Proof.
  destruct (top_n_edges system_monitor Sample.world)
    as [_ [Hall [Hneg [Hlow _]]]].
  split; [|split].
  - rewrite (Hall 99) by (vm_compute; discriminate). vm_compute. reflexivity.
  - rewrite (Hneg (-2)) by lia. vm_compute. reflexivity.
  - apply Hlow. vm_compute. discriminate.
Defined.

(** X15.  The capture is all or nothing.  [get_all_info] runs the six
    collectors in the order system, cpu, memory, disk, network,
    processes and handles no exception: it raises the exception of the
    first collector that raises, and otherwise returns the time stamp
    followed by the six results under their section names; so it returns
    exactly when every collector does. *)
Theorem capture_outcome (self : SystemMonitor) (w : World) :
  get_all_info self w =
  match first_uncaught [] (collector_results self w) with
  | Some e => Raise e
  | None =>
      Ok (VDict (("timestamp", VStr (now_strftime w)) ::
                 combine section_names
                   (completed (collector_results self w))))
  end /\
  ((exists snapshot, get_all_info self w = Ok snapshot) <->
   Forall (fun r => exists v, r = Ok v) (collector_results self w)).
Proof.
  assert (E : get_all_info self w =
    match first_uncaught [] (collector_results self w) with
    | Some e => Raise e
    | None =>
        Ok (VDict (("timestamp", VStr (now_strftime w)) ::
                   combine section_names
                     (completed (collector_results self w))))
    end).
  { unfold get_all_info, collector_results.
    cbn [first_uncaught completed get_system_info bind].
    destruct (get_cpu_info self w); cbn [bind first_uncaught completed caught_by existsb];
      [|reflexivity].
    destruct (get_memory_info self w); cbn [bind first_uncaught completed caught_by existsb];
      [|reflexivity].
    destruct (get_disk_info self w); cbn [bind first_uncaught completed caught_by existsb];
      [|reflexivity].
    destruct (get_network_info self w); cbn [bind first_uncaught completed caught_by existsb];
      [|reflexivity].
    destruct (get_process_info self w default_top_n);
      cbn [bind first_uncaught completed caught_by existsb]; reflexivity. }
  split; [exact E|].
  rewrite <- first_uncaught_none_all_ok. rewrite E.
  destruct (first_uncaught [] (collector_results self w)); split.
  - intros [s H]. discriminate.
  - discriminate.
  - reflexivity.
  - intros _. eexists. reflexivity.
Qed.

(** * Writing the page template *)







